(** * UniBot server: the answer contract of the agent processor

    A shallow embedding of the parts of [agent_processor.py] and [main.py]
    that decide the structured-answer contract: the input validation and
    the JSON recovery of [AgentProcessor.answer_question], the context
    assembly of [pdf_search_tool], [delete_document],
    [get_namespace_summary] and the chat-history buffer of [send_message].

    Python values are an inductive type [PyVal]; a [str] is the list of its
    code points; a [dict] with string keys is an association list in
    insertion order; exceptions are values of a [result] type; the calls
    that leave the process (agent set-up, crew kick-off, retriever, vector
    store, Firebase) are inputs of the functions, and the calls made are
    logged in a trace. *)

From Stdlib Require Import ZArith NArith List String Ascii Bool Lia.
From stdpp Require Import base option list gmap sorting.


(** ** Python strings *)

(** A Python [str] is a sequence of Unicode code points. *)
Abbreviation pystr := (list N).

Module PyStr.
Local Open Scope N_scope.

(** Decoding of the UTF-8 bytes of a literal of this file into code
    points, so that literals can be written as they are in the source. *)
Fixpoint utf8_decode (bs : list N) : pystr :=
  match bs with
  | [] => []
  | b :: rest =>
    if b <? 128 then b :: utf8_decode rest
    else if b <? 224 then
      match rest with
      | c1 :: r => ((b - 192) * 64 + (c1 - 128)) :: utf8_decode r
      | _ => [b]
      end
    else if b <? 240 then
      match rest with
      | c1 :: c2 :: r =>
        ((b - 224) * 4096 + (c1 - 128) * 64 + (c2 - 128)) :: utf8_decode r
      | _ => [b]
      end
    else
      match rest with
      | c1 :: c2 :: c3 :: r =>
        ((b - 240) * 262144 + (c1 - 128) * 4096 + (c2 - 128) * 64 + (c3 - 128))
          :: utf8_decode r
      | _ => [b]
      end
  end.

Definition py (s : string) : pystr :=
  utf8_decode (map N_of_ascii (list_ascii_of_string s)).

(** Code points with a name. *)
Definition LF : N := 10.
Definition DQ : N := 34.
Definition SQ : N := 39.
Definition COMMA : N := 44.
Definition BACKSLASH : N := 92.
Definition LBRACE : N := 123.
Definition RBRACE : N := 125.

(** [str.isspace] on one code point: the characters [str.strip()] removes. *)
Definition isspace (c : N) : bool :=
  ((9 <=? c) && (c <=? 13)) || ((28 <=? c) && (c <=? 32))
  || (c =? 133) || (c =? 160) || (c =? 5760)
  || ((8192 <=? c) && (c <=? 8202))
  || (c =? 8232) || (c =? 8233) || (c =? 8239) || (c =? 8287) || (c =? 12288).

Fixpoint lstrip (s : pystr) : pystr :=
  match s with
  | [] => []
  | c :: r => if isspace c then lstrip r else s
  end.

Definition rstrip (s : pystr) : pystr := rev (lstrip (rev s)).

(** [s.strip()] *)
Definition strip (s : pystr) : pystr := rstrip (lstrip s).

(** [s.find(c)] for a one-character needle: index of the first occurrence,
    or -1. *)
Fixpoint find_from (c : N) (s : pystr) (i : Z) : Z :=
  match s with
  | [] => (-1)%Z
  | x :: r => if x =? c then i else find_from c r (i + 1)%Z
  end.

Definition find (c : N) (s : pystr) : Z := find_from c s 0%Z.

(** [s.rfind(c)]: index of the last occurrence, or -1. *)
Fixpoint rfind_from (c : N) (s : pystr) (i : Z) (last : Z) : Z :=
  match s with
  | [] => last
  | x :: r => rfind_from c r (i + 1)%Z (if x =? c then i else last)
  end.

Definition rfind (c : N) (s : pystr) : Z := rfind_from c s 0%Z (-1)%Z.

(** Clamping of one bound of a slice with step 1, as [slice.indices]
    does. *)
Definition clamp {A} (l : list A) (i : Z) : nat :=
  let n := Z.of_nat (length l) in
  Z.to_nat (if (i <? 0)%Z then Z.max 0 (i + n) else Z.min i n).

(** [l[a:b]] *)
Definition slice {A} (l : list A) (a b : Z) : list A :=
  let lo := clamp l a in
  let hi := clamp l b in
  take (hi - lo)%nat (drop lo l).

(** [l[a:]] *)
Definition slice_from {A} (l : list A) (a : Z) : list A :=
  drop (clamp l a) l.

(** [s.split(',')]: always at least one piece. *)
Fixpoint split_on (c : N) (s : pystr) (cur : pystr) : list pystr :=
  match s with
  | [] => [rev cur]
  | x :: r => if x =? c then rev cur :: split_on c r []
              else split_on c r (x :: cur)
  end.

Definition split (c : N) (s : pystr) : list pystr := split_on c s [].

(** [sep.join(parts)] *)
Fixpoint join (sep : pystr) (parts : list pystr) : pystr :=
  match parts with
  | [] => []
  | [p] => p
  | p :: rest => p ++ sep ++ join sep rest
  end.

(** [s.upper()] on the ASCII letters; other code points are kept (Python
    maps them by the Unicode tables). *)
Definition upper (s : pystr) : pystr :=
  map (fun c => if (97 <=? c) && (c <=? 122) then c - 32 else c) s.

(** [s.lower()], likewise. *)
Definition lower (s : pystr) : pystr :=
  map (fun c => if (65 <=? c) && (c <=? 90) then c + 32 else c) s.

Fixpoint startswith (p s : pystr) : bool :=
  match p, s with
  | [], _ => true
  | _ :: _, [] => false
  | a :: p', b :: s' => (a =? b) && startswith p' s'
  end.

Definition eqb (a b : pystr) : bool := bool_decide (a = b).

(** Decimal digits of a natural number, most significant first. *)
Fixpoint digits_fuel (fuel : nat) (n : N) (acc : pystr) : pystr :=
  match fuel with
  | O => acc
  | S f =>
    let acc' := (48 + n mod 10) :: acc in
    if n <? 10 then acc' else digits_fuel f (n / 10) acc'
  end.

Definition of_N (n : N) : pystr := digits_fuel (S (N.to_nat (N.log2 n))) n [].

(** [str(z)] for an [int]. *)
Definition of_Z (z : Z) : pystr :=
  if (z <? 0)%Z then 45 :: of_N (Z.to_N (- z)) else of_N (Z.to_N z).

End PyStr.

Abbreviation py := PyStr.py.


(** ** Python values and exceptions *)

(** A finite [float] is kept as the decimal [m * 10^e] whose digits are
    those of its [repr]: the shortest decimal that reads back as the same
    binary64 ([Py.mk_float] makes it from a decimal as written). Zero is
    [FDec 0 e], the negative zero with [e < 0]. *)
Inductive pyfloat :=
| FDec (m e : Z)
| FNan
| FInf (negative : bool).

#[local] Unset Elimination Schemes.
Inductive PyVal :=
| PyNone
| PyBool (b : bool)
| PyInt (n : Z)
| PyFloat (f : pyfloat)
| PyStr (s : pystr)
| PyList (l : list PyVal)
| PyDict (d : list (pystr * PyVal)).
#[local] Set Elimination Schemes.

Abbreviation pydict := (list (pystr * PyVal)).

(** The exception classes the code can meet; [JSONDecodeError] is the one
    the extractor catches by name, the others are caught as [Exception]. *)
Inductive exn_class :=
| JSONDecodeError
| ValueError
| TypeError
| AttributeError
| OverflowError
| OtherException (name : pystr).

(** An exception: its class and [str(e)]. *)
Record exn := Exn { exn_cls : exn_class; exn_str : pystr }.

(** [type(e).__name__] *)
Definition class_name (c : exn_class) : pystr :=
  match c with
  | JSONDecodeError => py "JSONDecodeError"
  | ValueError => py "ValueError"
  | TypeError => py "TypeError"
  | AttributeError => py "AttributeError"
  | OverflowError => py "OverflowError"
  | OtherException n => n
  end.

(** The outcome of an expression that may raise. *)
Inductive result (A : Type) :=
| Ok (a : A)
| Raise (e : exn).
Arguments Ok {A} a.
Arguments Raise {A} e.

(** Sequencing: the first exception raised ends the computation. The
    notation [x ← r; k] is stdpp's. *)
#[global] Instance result_bind : MBind result :=
  fun A B k r => match r with Ok a => k a | Raise e => Raise e end.

#[global] Instance result_ret : MRet result := fun A a => Ok a.

(** [try: r except Exception as e: h e] *)
Definition try_except {A} (r : result A) (h : exn -> A) : A :=
  match r with
  | Ok a => a
  | Raise e => h e
  end.

Module Py.

(** The largest magnitude an [int] or a decimal may have before its
    conversion to binary64 overflows: 2^1024 - 2^970. *)
Definition float_overflow_bound : Z := (2 ^ 1024 - 2 ^ 970)%Z.

(** [|m * 10^e| >= bound] *)
Definition dec_overflows (m e : Z) : bool :=
  if (0 <=? e)%Z then (float_overflow_bound <=? Z.abs m * 10 ^ e)%Z
  else (float_overflow_bound * 10 ^ (- e) <=? Z.abs m)%Z.

(** [|m * 10^e| <= 2^-1075], which binary64 rounds to zero. *)
Definition dec_underflows (m e : Z) : bool :=
  (m =? 0)%Z || ((e <? 0)%Z && (Z.abs m * 2 ^ 1075 <=? 10 ^ (- e))%Z).

(** [num / den] rounded to the nearest integer, a tie to the even one;
    [den > 0]. *)
Definition round_half_even (num den : Z) : Z :=
  let q := (num / den)%Z in
  let r := (num mod den)%Z in
  if (2 * r <? den)%Z then q
  else if (den <? 2 * r)%Z then (q + 1)%Z
  else if Z.even q then q else (q + 1)%Z.

(** A positive decimal [m * 10^e] as a fraction. *)
Definition fraction (m e : Z) : Z * Z :=
  if (0 <=? e)%Z then ((m * 10 ^ e)%Z, 1%Z) else (m, (10 ^ (- e))%Z).

(** [b^x <= num / den], for [b > 0] *)
Definition pow_le (b x num den : Z) : bool :=
  if (0 <=? x)%Z then (b ^ x * den <=? num)%Z else (den <=? num * b ^ (- x))%Z.

(** The floor of the logarithm of [num / den] to the base [b], from an
    estimate that is off by a few. *)
Fixpoint floor_log (fuel : nat) (b x num den : Z) : Z :=
  match fuel with
  | O => x
  | S f =>
    if negb (pow_le b x num den) then floor_log f b (x - 1)%Z num den
    else if pow_le b (x + 1)%Z num den then floor_log f b (x + 1)%Z num den
    else x
  end.

Definition floor_log2 (num den : Z) : Z :=
  floor_log 4 2 (Z.log2 num - Z.log2 den)%Z num den.

Definition floor_log10 (num den : Z) : Z :=
  floor_log 6 10 (((Z.log2 num - Z.log2 den) * 30103) / 100000)%Z num den.

(** The binary64 nearest to [num / den > 0], a tie to the even mantissa:
    the pair [(q, k)] stands for [q * 2^k], with [q <= 2^53] and
    [k >= -1074], the exponent of the subnormal numbers. *)
Definition nearest_binary64 (num den : Z) : Z * Z :=
  let k := Z.max (floor_log2 num den - 52) (-1074) in
  (if (0 <=? k)%Z then round_half_even num (den * 2 ^ k)
   else round_half_even (num * 2 ^ (- k)) den, k).

(** [q1 * 2^k1 = q2 * 2^k2] *)
Definition same_binary (a b : Z * Z) : bool :=
  let k := Z.min (snd a) (snd b) in
  (fst a * 2 ^ (snd a - k) =? fst b * 2 ^ (snd b - k))%Z.

(** Whether the decimal [d * 10^x] reads as the binary64 [qk]. *)
Definition reads_as (d x : Z) (qk : Z * Z) : bool :=
  (0 <? d)%Z && negb (dec_overflows d x)
  && let '(num, den) := fraction d x in
     same_binary (nearest_binary64 num den) qk.

(** The shortest decimal that reads as the binary64 [qk], the value of
    [num / den], and among the decimals of that length the nearest: with
    [p] digits, [p + 1], ... up to 17, which always suffice. [x10] is the
    exponent of the first digit. *)
Fixpoint shortest_decimal (fuel : nat) (p : Z) (num den x10 : Z) (qk : Z * Z)
    : Z * Z :=
  let x := (x10 - (p - 1))%Z in
  let '(n, d) := if (0 <=? x)%Z then (num, (den * 10 ^ x)%Z)
                 else ((num * 10 ^ (- x))%Z, den) in
  let lo := (n / d)%Z in
  let hi := (lo + 1)%Z in
  match fuel with
  | O => (round_half_even n d, x)
  | S f =>
    match reads_as lo x qk, reads_as hi x qk with
    | true, true => (round_half_even n d, x)
    | true, false => (lo, x)
    | false, true => (hi, x)
    | false, false => shortest_decimal f (p + 1)%Z num den x10 qk
    end
  end.

(** Trailing zeros of the digits go into the exponent. *)
Fixpoint drop_zeros (fuel : nat) (m e : Z) : Z * Z :=
  match fuel with
  | O => (m, e)
  | S f => if ((m mod 10 =? 0) && negb (m =? 0))%Z
           then drop_zeros f (m / 10)%Z (e + 1)%Z else (m, e)
  end.

Definition zero (negative : bool) : pyfloat :=
  FDec 0 (if negative then -1 else 0).

(** [float("<m>e<e>")] for digits [m >= 0], with the sign apart: the
    decimal is rounded to binary64 and kept as the shortest decimal that
    reads back as it. *)
Definition mk_float (negative : bool) (m e : Z) : pyfloat :=
  if (m <=? 0)%Z then zero negative
  else if dec_overflows m e then FInf negative
  else if dec_underflows m e then zero negative
  else
    let '(num, den) := fraction m e in
    let qk := nearest_binary64 num den in
    let '(bn, bd) := if (0 <=? snd qk)%Z then ((fst qk * 2 ^ snd qk)%Z, 1%Z)
                     else (fst qk, (2 ^ (- snd qk))%Z) in
    let '(dm, dx) :=
      shortest_decimal 16 1 bn bd (floor_log10 bn bd) qk in
    let '(cm, cx) := drop_zeros 17 dm dx in
    FDec (if negative then (- cm)%Z else cm) cx.

(** [float(n)] for an [int] that does not overflow. *)
Definition float_of_int (n : Z) : pyfloat :=
  mk_float (n <? 0)%Z (Z.abs n) 0.

(** The exact value of a finite float, [q * 2^k] with its sign in [q]. *)
Definition binary_of (m e : Z) : Z * Z :=
  if (m =? 0)%Z then (0%Z, 0%Z)
  else
    let '(num, den) := fraction (Z.abs m) e in
    let qk := nearest_binary64 num den in
    ((if (m <? 0)%Z then - fst qk else fst qk)%Z, snd qk).

(** The same value as a decimal: [q * 2^k = q * 5^(-k) * 10^k]. *)
Definition exact_decimal (m e : Z) : Z * Z :=
  let qk := binary_of m e in
  if (0 <=? snd qk)%Z then ((fst qk * 2 ^ snd qk)%Z, 0%Z)
  else ((fst qk * 5 ^ (- snd qk))%Z, snd qk).

(** [bool(v)] *)
Definition truthy (v : PyVal) : bool :=
  match v with
  | PyNone => false
  | PyBool b => b
  | PyInt n => negb (n =? 0)%Z
  | PyFloat (FDec m _) => negb (m =? 0)%Z
  | PyFloat _ => true
  | PyStr s => negb (bool_decide (s = []))
  | PyList l => match l with [] => false | _ => true end
  | PyDict d => match d with [] => false | _ => true end
  end.

Definition is_str (v : PyVal) : bool :=
  match v with PyStr _ => true | _ => false end.
Definition is_list (v : PyVal) : bool :=
  match v with PyList _ => true | _ => false end.
Definition is_dict (v : PyVal) : bool :=
  match v with PyDict _ => true | _ => false end.
(** [isinstance(v, int)]: a [bool] is an [int]. *)
Definition is_int (v : PyVal) : bool :=
  match v with PyInt _ | PyBool _ => true | _ => false end.
(** [isinstance(v, (int, float))] *)
Definition is_number (v : PyVal) : bool :=
  match v with PyInt _ | PyBool _ | PyFloat _ => true | _ => false end.

(** [type(v).__name__] *)
Definition type_name (v : PyVal) : pystr :=
  match v with
  | PyNone => py "NoneType"
  | PyBool _ => py "bool"
  | PyInt _ => py "int"
  | PyFloat _ => py "float"
  | PyStr _ => py "str"
  | PyList _ => py "list"
  | PyDict _ => py "dict"
  end.

(** [d.get(k)] as an option, [d.get(k, dflt)] and [k in d]. *)
Fixpoint lookup (d : pydict) (k : pystr) : option PyVal :=
  match d with
  | [] => None
  | (k', v) :: r => if bool_decide (k' = k) then Some v else lookup r k
  end.

Definition get (d : pydict) (k : pystr) (dflt : PyVal) : PyVal :=
  match lookup d k with Some v => v | None => dflt end.

Definition get_none (d : pydict) (k : pystr) : PyVal := get d k PyNone.

Definition has_key (d : pydict) (k : pystr) : bool :=
  match lookup d k with Some _ => true | None => false end.

(** [d[k] = v]: an existing key keeps its place. *)
Fixpoint set_item (d : pydict) (k : pystr) (v : PyVal) : pydict :=
  match d with
  | [] => [(k, v)]
  | (k', v') :: r =>
    if bool_decide (k' = k) then (k, v) :: r else (k', v') :: set_item r k v
  end.

(** A dict display [{k1: v1, ...}]. *)
Definition dict_of (kvs : list (pystr * PyVal)) : pydict :=
  fold_left (fun d kv => set_item d kv.1 kv.2) kvs [].

End Py.

(** ** [repr], [str], [int] and equality of Python values *)

Module PyRepr.
Import PyStr.
Local Open Scope N_scope.

Definition hex_digit (n : N) : N := if n <? 10 then 48 + n else 87 + n.

Definition hex2 (c : N) : pystr := [hex_digit (c / 16); hex_digit (c mod 16)].

(** One character of [repr(s)] for the quote [q] in use. Code points from
    U+00A1 on are taken as printable, except the soft hyphen. *)
Definition repr_char (q c : N) : pystr :=
  if c =? BACKSLASH then [BACKSLASH; BACKSLASH]
  else if c =? q then [BACKSLASH; q]
  else if c =? 9 then [BACKSLASH; 116]
  else if c =? 10 then [BACKSLASH; 110]
  else if c =? 13 then [BACKSLASH; 114]
  else if (c <? 32) || ((127 <=? c) && (c <=? 160)) || (c =? 173)
       then [BACKSLASH; 120] ++ hex2 c
  else [c].

Definition contains (c : N) (s : pystr) : bool := existsb (N.eqb c) s.

(** [repr(s)] for a [str]: single quotes unless the string has a single
    quote and no double quote. *)
Definition repr_str (s : pystr) : pystr :=
  let q := if contains SQ s && negb (contains DQ s) then DQ else SQ in
  [q] ++ concat (map (repr_char q) s) ++ [q].

Fixpoint strip_zeros (fuel : nat) (m e : Z) : Z * Z :=
  match fuel with
  | O => (m, e)
  | S f => if ((m mod 10 =? 0) && negb (m =? 0))%Z
           then strip_zeros f (m / 10)%Z (e + 1)%Z else (m, e)
  end.

Definition zeros (n : Z) : pystr := replicate (Z.to_nat n) 48.

(** [repr(x)] for a [float] written as a decimal: fixed notation when the
    decimal exponent is in [-4, 16), scientific otherwise. *)
Definition repr_float (x : pyfloat) : pystr :=
  match x with
  | FNan => py "nan"
  | FInf false => py "inf"
  | FInf true => py "-inf"
  | FDec m e =>
    if (m =? 0)%Z then (if (e <? 0)%Z then py "-0.0" else py "0.0") else
    let '(m', e') := strip_zeros (Z.to_nat (Z.log2 (Z.abs m))) (Z.abs m) e in
    let ds := of_N (Z.to_N m') in
    let n := Z.of_nat (length ds) in
    let decpt := (n + e')%Z in
    let sign := if (m <? 0)%Z then [45] else [] in
    sign ++
    if ((-4 <? decpt) && (decpt <=? 16))%Z then
      if (decpt <=? 0)%Z then py "0." ++ zeros (- decpt) ++ ds
      else if (n <=? decpt)%Z then ds ++ zeros (decpt - n) ++ py ".0"
      else take (Z.to_nat decpt) ds ++ [46] ++ drop (Z.to_nat decpt) ds
    else
      let x := (decpt - 1)%Z in
      let ex := of_N (Z.to_N (Z.abs x)) in
      take 1 ds ++ (match drop 1 ds with [] => [] | r => 46 :: r end)
      ++ [101] ++ (if (x <? 0)%Z then [45] else [43])
      ++ (if (length ex <? 2)%nat then 48 :: ex else ex)
  end.

(** [repr(v)] *)
Fixpoint repr (v : PyVal) : pystr :=
  match v with
  | PyNone => py "None"
  | PyBool true => py "True"
  | PyBool false => py "False"
  | PyInt n => of_Z n
  | PyFloat f => repr_float f
  | PyStr s => repr_str s
  | PyList l => [91] ++ join (py ", ") (map repr l) ++ [93]
  | PyDict d =>
    [123] ++ join (py ", ")
               (map (fun kv => repr_str (fst kv) ++ py ": " ++ repr (snd kv)) d)
    ++ [125]
  end.

(** [str(v)], also what an f-string field [{v}] renders. *)
Definition str (v : PyVal) : pystr :=
  match v with
  | PyStr s => s
  | _ => repr v
  end.

(** The code point of the digit zero in every block of decimal digits of
    the Unicode database (category Nd, version 14.0, that of CPython 3.11);
    the ten digits of a block follow each other. *)
Definition decimal_zeros : list N :=
  [48; 1632; 1776; 1984; 2406; 2534; 2662; 2790; 2918; 3046; 3174; 3302;
   3430; 3558; 3664; 3792; 3872; 4160; 4240; 6112; 6160; 6470; 6608; 6784;
   6800; 6992; 7088; 7232; 7248; 42528; 43216; 43264; 43472; 43504; 43600;
   44016; 65296; 66720; 68912; 69734; 69872; 69942; 70096; 70384; 70736;
   70864; 71248; 71360; 71472; 71904; 72016; 72784; 73040; 73120; 92768;
   92864; 93008; 120782; 120792; 120802; 120812; 120822; 123200; 123632;
   125264; 130032]%N.

(** [unicodedata.decimal(c)]: the value of a decimal digit, of any
    script. *)
Definition decimal (c : N) : option N :=
  (fun z => c - z) <$> List.find (fun z => (z <=? c) && (c <? z + 10))
                         decimal_zeros.

Definition is_digit (c : N) : bool :=
  match decimal c with Some _ => true | None => false end.

(** The digits of an [int] literal given to [int(s)], which may be the
    decimal digits of any script: underscores are allowed singly between
    digits. [prev] tells whether the previous character was a digit. *)
Fixpoint int_digits (s : pystr) (prev : bool) (acc : Z) : option Z :=
  match s with
  | [] => if prev then Some acc else None
  | c :: r =>
    match decimal c with
    | Some v => int_digits r true (acc * 10 + Z.of_N v)%Z
    | None =>
      if (c =? 95) && prev then
        match r with
        | d :: _ => if is_digit d then int_digits r false acc else None
        | [] => None
        end
      else None
    end
  end.

(** CPython's default limit on the digits of a decimal [int] literal. *)
Definition max_str_digits : nat := 4300.

Definition digit_limit_error (n : nat) : exn :=
  Exn ValueError
    (py "Exceeds the limit (4300 digits) for integer string conversion: value has "
     ++ of_N (N.of_nat n)
     ++ py " digits; use sys.set_int_max_str_digits() to increase the limit").

Definition int_of_str (s : pystr) : result Z :=
  let t := strip s in
  let bad := Raise (Exn ValueError
               (py "invalid literal for int() with base 10: "
                ++ take 200 (repr_str s))) in
  let '(neg, ds) :=
    match t with
    | 45 :: r => (true, r)
    | 43 :: r => (false, r)
    | _ => (false, t)
    end in
  match int_digits ds false 0%Z with
  | Some n =>
    let digits := length (filter (fun c => is_digit c = true) ds) in
    if (max_str_digits <? digits)%nat
    then Raise (digit_limit_error digits)
    else Ok (if neg then (- n)%Z else n)
  | None => bad
  end.

(** [int(v)] *)
Definition int (v : PyVal) : result Z :=
  match v with
  | PyInt n => Ok n
  | PyBool b => Ok (if b then 1%Z else 0%Z)
  | PyFloat (FDec m e) =>
    let '(q, k) := Py.binary_of m e in
    Ok (if (0 <=? k)%Z then (q * 2 ^ k)%Z else Z.quot q (2 ^ (- k)))
  | PyFloat FNan => Raise (Exn ValueError (py "cannot convert float NaN to integer"))
  | PyFloat (FInf _) =>
    Raise (Exn OverflowError (py "cannot convert float infinity to integer"))
  | PyStr s => int_of_str s
  | _ => Raise (Exn TypeError
           (py "int() argument must be a string, a bytes-like object or a real number, not '"
            ++ Py.type_name v ++ py "'"))
  end.

(** [float(v)] for a value that passed [isinstance(v, (int, float))]. *)
Definition float_of_number (v : PyVal) : result pyfloat :=
  match v with
  | PyFloat f => Ok f
  | PyBool b => Ok (FDec (if b then 1 else 0) 0)
  | PyInt n =>
    if Py.dec_overflows n 0
    then Raise (Exn OverflowError (py "int too large to convert to float"))
    else Ok (Py.float_of_int n)
  | _ => Raise (Exn TypeError
           (py "float() argument must be a string or a real number, not '"
            ++ Py.type_name v ++ py "'"))
  end.

(** The exact value of a number as a decimal [(m, e)]. *)
Definition as_dec (v : PyVal) : option (Z * Z) :=
  match v with
  | PyBool b => Some (if b then 1%Z else 0%Z, 0%Z)
  | PyInt n => Some (n, 0%Z)
  | PyFloat (FDec m e) => Some (Py.exact_decimal m e)
  | _ => None
  end.

Definition dec_eqb (a b : Z * Z) : bool :=
  let k := Z.min (snd a) (snd b) in
  (fst a * 10 ^ (snd a - k) =? fst b * 10 ^ (snd b - k))%Z.

(** Membership in a list, a set or the keys of a dict when one side is
    hashable, by identity or [==]: numbers by value, strings by content,
    [None] with itself; a list or a dict equals none of these. A NaN is
    found again by identity; the model does not tell two NaN objects
    apart. *)
Definition atom_eq (a b : PyVal) : bool :=
  match a, b with
  | PyNone, PyNone => true
  | PyStr s, PyStr t => bool_decide (s = t)
  | PyFloat (FInf s), PyFloat (FInf t) => Bool.eqb s t
  | PyFloat FNan, PyFloat FNan => true
  | _, _ =>
    match as_dec a, as_dec b with
    | Some x, Some y => dec_eqb x y
    | _, _ => false
    end
  end.

(** Whether [hash(v)] succeeds. *)
Definition hashable (v : PyVal) : bool :=
  match v with
  | PyList _ | PyDict _ => false
  | _ => true
  end.

End PyRepr.

(** ** [json.loads]

    The decoder of CPython's [json] module with its default settings
    (strict strings, [NaN] and [Infinity] accepted, objects decoded to
    dicts in which a repeated key keeps its first place and its last
    value). The scanner works on the rest of the document and the index of
    its first character. *)

Module Json.
Import PyStr.
Local Open Scope N_scope.

Inductive scan_error :=
| DecodeError (msg : pystr) (pos : nat)
| RaisedExn (e : exn).

Inductive scan (A : Type) :=
| Scanned (a : A) (rest : pystr) (pos : nat)
| ScanFail (err : scan_error).
Arguments Scanned {A} a rest pos.
Arguments ScanFail {A} err.

Definition is_ws (c : N) : bool :=
  (c =? 32) || (c =? 9) || (c =? 10) || (c =? 13).

Fixpoint skip_ws (s : pystr) (pos : nat) : pystr * nat :=
  match s with
  | c :: r => if is_ws c then skip_ws r (S pos) else (s, pos)
  | [] => (s, pos)
  end.

Definition hex_val (c : N) : option N :=
  if (48 <=? c) && (c <=? 57) then Some (c - 48)
  else if (97 <=? c) && (c <=? 102) then Some (c - 87)
  else if (65 <=? c) && (c <=? 70) then Some (c - 55)
  else None.

(** Four hexadecimal digits at the head of [s]. *)
Definition hex4 (s : pystr) : option (N * pystr) :=
  match s with
  | a :: b :: c :: d :: r =>
    match hex_val a, hex_val b, hex_val c, hex_val d with
    | Some x, Some y, Some z, Some w =>
      Some (x * 4096 + y * 256 + z * 16 + w, r)
    | _, _, _, _ => None
    end
  | _ => None
  end.

Definition escape_char (c : N) : option N :=
  if c =? 34 then Some 34 else if c =? 92 then Some 92
  else if c =? 47 then Some 47 else if c =? 98 then Some 8
  else if c =? 102 then Some 12 else if c =? 110 then Some 10
  else if c =? 114 then Some 13 else if c =? 116 then Some 9
  else None.

Definition is_high_surrogate (c : N) : bool := (55296 <=? c) && (c <=? 56319).
Definition is_low_surrogate (c : N) : bool := (56320 <=? c) && (c <=? 57343).

Definition recursion_error : scan_error :=
  RaisedExn (Exn (OtherException (py "RecursionError"))
                 (py "maximum recursion depth exceeded")).

(** [scanstring]: [s] follows the opening quote, which is at [begin]. *)
Fixpoint scan_string (fuel : nat) (begin : nat) (s : pystr) (pos : nat)
    (acc : pystr) : scan pystr :=
  match fuel with
  | O => ScanFail recursion_error
  | S f =>
    match s with
    | [] => ScanFail (DecodeError (py "Unterminated string starting at") begin)
    | c :: r =>
      if c =? DQ then Scanned (rev acc) r (S pos)
      else if c =? BACKSLASH then
        match r with
        | [] => ScanFail (DecodeError (py "Unterminated string starting at") begin)
        | e :: r2 =>
          if e =? 117 then
            match hex4 r2 with
            | None => ScanFail (DecodeError (py "Invalid \uXXXX escape") (S pos))
            | Some (c1, r3) =>
              let single := scan_string f begin r3 (pos + 6) (c1 :: acc) in
              if is_high_surrogate c1 then
                match r3 with
                | b2 :: u2 :: r4 =>
                  if (b2 =? BACKSLASH) && (u2 =? 117) then
                    match hex4 r4 with
                    | Some (c2, r5) =>
                      if is_low_surrogate c2 then
                        scan_string f begin r5 (pos + 12)
                          ((65536 + (c1 - 55296) * 1024 + (c2 - 56320)) :: acc)
                      else single
                    | None => single
                    end
                  else single
                | _ => single
                end
              else single
            end
          else
            match escape_char e with
            | Some x => scan_string f begin r2 (pos + 2) (x :: acc)
            | None => ScanFail (DecodeError (py "Invalid \escape") pos)
            end
        end
      else if c <=? 31 then
        ScanFail (DecodeError (py "Invalid control character at") pos)
      else scan_string f begin r (S pos) (c :: acc)
    end
  end.

Definition is_digit (c : N) : bool := (48 <=? c) && (c <=? 57).

(** The longest run of digits at the head of [s]. *)
Fixpoint take_digits (s : pystr) : pystr * pystr :=
  match s with
  | c :: r => if is_digit c
              then let '(ds, rest) := take_digits r in (c :: ds, rest)
              else ([], s)
  | [] => ([], s)
  end.

Definition digits_value (ds : pystr) : Z :=
  fold_left (fun acc c => (acc * 10 + Z.of_N (c - 48))%Z) ds 0%Z.

(** The integer part of a number: [0], or a digit from 1 to 9 followed by
    digits. *)
Definition int_part (s : pystr) : option (pystr * pystr) :=
  match s with
  | c :: r =>
    if c =? 48 then Some ([c], r)
    else if is_digit c then Some (take_digits s)
    else None
  | [] => None
  end.

(** [.digits], if present. *)
Definition frac_part (s : pystr) : pystr * pystr :=
  match s with
  | c :: r =>
    if c =? 46 then
      match take_digits r with
      | ([], _) => ([], s)
      | (ds, rest) => (ds, rest)
      end
    else ([], s)
  | [] => ([], s)
  end.

(** [e], a sign and digits, if present: the exponent and the characters
    it takes. *)
Definition exp_part (s : pystr) : option (Z * nat) * pystr :=
  match s with
  | c :: r =>
    if (c =? 101) || (c =? 69) then
      let '(neg, signed, r1) :=
        match r with
        | x :: r' => if x =? 45 then (true, 1%nat, r')
                     else if x =? 43 then (false, 1%nat, r')
                     else (false, 0%nat, r)
        | [] => (false, 0%nat, r)
        end in
      match take_digits r1 with
      | ([], _) => (None, s)
      | (ds, rest) =>
        (Some (if neg then (- digits_value ds)%Z else digits_value ds,
               (1 + signed + length ds)%nat), rest)
      end
    else (None, s)
  | [] => (None, s)
  end.

(** [_match_number]: [None] stands for the scanner's [StopIteration]. *)
Definition scan_number (s : pystr) (pos : nat) : option (scan PyVal) :=
  let '(neg, s1) :=
    match s with
    | c :: r => if c =? 45 then (true, r) else (false, s)
    | [] => (false, s)
    end in
  match int_part s1 with
  | None => None
  | Some (ids, s2) =>
    let '(fds, s3) := frac_part s2 in
    let '(ex, s4) := exp_part s3 in
    let sgn (z : Z) := if neg then (- z)%Z else z in
    let len_int := ((if neg then 1 else 0) + length ids)%nat in
    let len_frac := match fds with [] => 0%nat | _ => S (length fds) end in
    match fds, ex with
    | [], None =>
      if (PyRepr.max_str_digits <? length ids)%nat
      then Some (ScanFail (RaisedExn (PyRepr.digit_limit_error (length ids))))
      else Some (Scanned (PyInt (sgn (digits_value ids))) s4 (pos + len_int))
    | _, _ =>
      let e := match ex with Some (x, _) => x | None => 0%Z end in
      let len_exp := match ex with Some (_, n) => n | None => 0%nat end in
      Some (Scanned
              (PyFloat (Py.mk_float neg (digits_value (ids ++ fds))
                                    (e - Z.of_nat (length fds))))
              s4 (pos + len_int + len_frac + len_exp))
    end
  end.

Definition expecting_value {A} (pos : nat) : scan A :=
  ScanFail (DecodeError (py "Expecting value") pos).

(** [scan_once] with the array and the object loops. The fuel bounds the
    unfoldings; twice the length of the text and one suffice
    ([loads_fuel_suffices]), so the depth CPython gives up at is not
    modelled. *)
Fixpoint scan_once (fuel : nat) (s : pystr) (pos : nat) : scan PyVal :=
  match fuel with
  | O => ScanFail recursion_error
  | S f =>
    let number :=
      match scan_number s pos with
      | Some r => r
      | None => expecting_value pos
      end in
    let word (w : string) (v : PyVal) :=
      if startswith (py w) s
      then Scanned v (drop (length (py w)) s) (pos + length (py w))
      else number in
    match s with
    | [] => expecting_value pos
    | c :: r =>
      if c =? DQ then
        match scan_string (S (length r)) pos r (S pos) [] with
        | Scanned str rest p => Scanned (PyStr str) rest p
        | ScanFail e => ScanFail e
        end
      else if c =? LBRACE then
        let '(s1, p1) := skip_ws r (S pos) in
        match s1 with
        | x :: r1 =>
          if x =? RBRACE then Scanned (PyDict []) r1 (S p1)
          else parse_object f s1 p1 []
        | [] => parse_object f s1 p1 []
        end
      else if c =? 91 then
        let '(s1, p1) := skip_ws r (S pos) in
        match s1 with
        | x :: r1 =>
          if x =? 93 then Scanned (PyList []) r1 (S p1)
          else parse_array f s1 p1 []
        | [] => parse_array f s1 p1 []
        end
      else if c =? 110 then word "null"%string PyNone
      else if c =? 116 then word "true"%string (PyBool true)
      else if c =? 102 then word "false"%string (PyBool false)
      else if c =? 78 then word "NaN"%string (PyFloat FNan)
      else if c =? 73 then word "Infinity"%string (PyFloat (FInf false))
      else if c =? 45 then word "-Infinity"%string (PyFloat (FInf true))
      else number
    end
  end

with parse_array (fuel : nat) (s : pystr) (pos : nat) (acc : list PyVal)
    : scan PyVal :=
  match fuel with
  | O => ScanFail recursion_error
  | S f =>
    match scan_once f s pos with
    | ScanFail e => ScanFail e
    | Scanned v rest p =>
      let '(s2, p2) := skip_ws rest p in
      match s2 with
      | x :: r =>
        if x =? 93 then Scanned (PyList (rev (v :: acc))) r (S p2)
        else if x =? COMMA then
          let '(s3, p3) := skip_ws r (S p2) in parse_array f s3 p3 (v :: acc)
        else ScanFail (DecodeError (py "Expecting ',' delimiter") p2)
      | [] => ScanFail (DecodeError (py "Expecting ',' delimiter") p2)
      end
    end
  end

with parse_object (fuel : nat) (s : pystr) (pos : nat) (acc : pydict)
    : scan PyVal :=
  match fuel with
  | O => ScanFail recursion_error
  | S f =>
    let no_key := ScanFail (DecodeError
        (py "Expecting property name enclosed in double quotes") pos) in
    match s with
    | [] => no_key
    | q :: r =>
      if negb (q =? DQ) then no_key else
      match scan_string (S (length r)) pos r (S pos) [] with
      | ScanFail e => ScanFail e
      | Scanned key rest p =>
        let '(s1, p1) := skip_ws rest p in
        match s1 with
        | [] => ScanFail (DecodeError (py "Expecting ':' delimiter") p1)
        | col :: r1 =>
          if negb (col =? 58)
          then ScanFail (DecodeError (py "Expecting ':' delimiter") p1) else
          let '(s2, p2) := skip_ws r1 (S p1) in
          match scan_once f s2 p2 with
          | ScanFail e => ScanFail e
          | Scanned v rest' p' =>
            let acc' := Py.set_item acc key v in
            let '(s3, p3) := skip_ws rest' p' in
            match s3 with
            | x :: r3 =>
              if x =? RBRACE then Scanned (PyDict acc') r3 (S p3)
              else if x =? COMMA then
                let '(s4, p4) := skip_ws r3 (S p3) in parse_object f s4 p4 acc'
              else ScanFail (DecodeError (py "Expecting ',' delimiter") p3)
            | [] => ScanFail (DecodeError (py "Expecting ',' delimiter") p3)
            end
          end
        end
      end
    end
  end.

(** [str(JSONDecodeError(msg, doc, pos))] *)
Definition error_text (msg : pystr) (doc : pystr) (pos : nat) : pystr :=
  let before := take pos doc in
  let lineno := S (length (filter (fun c => c = LF) before)) in
  let colno := (Z.of_nat pos - rfind LF before)%Z in
  msg ++ py ": line " ++ of_N (N.of_nat lineno) ++ py " column " ++ of_Z colno
      ++ py " (char " ++ of_N (N.of_nat pos) ++ py ")".

Definition decode_error (msg : pystr) (doc : pystr) (pos : nat) : exn :=
  Exn JSONDecodeError (error_text msg doc pos).

(** [json.loads(doc)] *)
Definition loads (doc : pystr) : result PyVal :=
  if startswith [65279] doc
  then Raise (decode_error (py "Unexpected UTF-8 BOM (decode using utf-8-sig)") doc 0)
  else
    let '(s1, p1) := skip_ws doc 0 in
    match scan_once (S (2 * length doc)) s1 p1 with
    | Scanned v rest p =>
      let '(s2, p2) := skip_ws rest p in
      match s2 with
      | [] => Ok v
      | _ => Raise (decode_error (py "Extra data") doc p2)
      end
    | ScanFail (DecodeError msg p) => Raise (decode_error msg doc p)
    | ScanFail (RaisedExn e) => Raise e
    end.

End Json.

(** ** [re.search] for patterns without repetition

    The two patterns of [answer_question] are made of escaped characters,
    plain characters, character classes and one group. [compile] reads a
    pattern in this fragment from its source text and gives [None] outside
    of it. *)

Module Re.
Import PyStr.
Local Open Scope N_scope.

Inductive atom :=
| Lit (c : N)
| Class (cs : list N)
| GroupOpen
| GroupClose.

Definition is_alnum (c : N) : bool :=
  ((48 <=? c) && (c <=? 57)) || ((65 <=? c) && (c <=? 90))
  || ((97 <=? c) && (c <=? 122)).

(** The members of a class, after its opening bracket: a backslash makes
    the next character a member; the first unescaped [\]] closes the
    class. Ranges, negation and escapes of letters or digits are outside
    the fragment. *)
Fixpoint compile_class (p : pystr) (acc : list N) : option (list N * pystr) :=
  match p with
  | [] => None
  | c :: r =>
    if c =? 93 then (if bool_decide (acc = []) then None else Some (rev acc, r))
    else if c =? BACKSLASH then
      match r with
      | x :: r' => if is_alnum x then None else compile_class r' (x :: acc)
      | [] => None
      end
    else if (c =? 45) || ((c =? 94) && bool_decide (acc = [])) || (c =? 91)
    then None
    else compile_class r (c :: acc)
  end.

Definition is_special (c : N) : bool :=
  existsb (N.eqb c) (py ".^$*+?{}|").

Fixpoint compile_fuel (fuel : nat) (p : pystr) : option (list atom) :=
  match fuel with
  | O => None
  | S f =>
    match p with
    | [] => Some []
    | c :: r =>
      if c =? BACKSLASH then
        match r with
        | x :: r' => if is_alnum x then None
                     else a ← compile_fuel f r'; Some (Lit x :: a)
        | [] => None
        end
      else if c =? 91 then
        '(cs, r') ← compile_class r []; a ← compile_fuel f r'; Some (Class cs :: a)
      else if c =? 40 then
        match r with
        | x :: _ => if x =? 63 then None
                    else a ← compile_fuel f r; Some (GroupOpen :: a)
        | [] => None
        end
      else if c =? 41 then a ← compile_fuel f r; Some (GroupClose :: a)
      else if is_special c then None
      else a ← compile_fuel f r; Some (Lit c :: a)
    end
  end.

Definition compile (p : pystr) : option (list atom) :=
  compile_fuel (S (length p)) p.

(** A match of the atoms at the head of [s]: the text of group 1. *)
Fixpoint match_here (p : list atom) (s : pystr) (in_group : bool)
    (g : pystr) : option pystr :=
  match p with
  | [] => Some (rev g)
  | GroupOpen :: p' => match_here p' s true g
  | GroupClose :: p' => match_here p' s false g
  | Lit c :: p' =>
    match s with
    | x :: r => if x =? c
                then match_here p' r in_group (if in_group then x :: g else g)
                else None
    | [] => None
    end
  | Class cs :: p' =>
    match s with
    | x :: r => if existsb (N.eqb x) cs
                then match_here p' r in_group (if in_group then x :: g else g)
                else None
    | [] => None
    end
  end.

(** The leftmost match. *)
Fixpoint search_atoms (p : list atom) (s : pystr) : option pystr :=
  match match_here p s false [] with
  | Some g => Some g
  | None =>
    match s with
    | _ :: r => search_atoms p r
    | [] => None
    end
  end.

(** [m = re.search(pattern, s)] and [m.group(1)]; a pattern outside the
    fragment raises, as a malformed pattern does. *)
Definition search_group1 (pattern : pystr) (s : pystr) : result (option pystr) :=
  match compile pattern with
  | Some atoms => Ok (search_atoms atoms s)
  | None => Raise (Exn (OtherException (py "error")) (py "unsupported pattern"))
  end.

End Re.

(** ** [AgentProcessor.answer_question] *)

Module Answer.
Import PyStr.

(** A literal in which a backquote stands for the double quote. *)
Definition pyq (s : string) : pystr :=
  map (fun c => if (c =? 96)%N then DQ else c) (py s).

(** The calls that leave the process. *)
Inductive call :=
| CallSetupAgent (namespace : pystr)
| CallKickoff (task_description : pystr).

(** What the collaborators do: [setup_agent] builds or fetches the agent
    of a namespace (vector store, retrievers, document overview), and
    [kickoff] stands for [str(Crew(...).kickoff())] on a task
    description, the run of the agent loop with its tool calls. Both may
    raise. *)
Record World := {
  setup_agent : pystr -> result unit;
  kickoff : pystr -> result pystr
}.

Definition f_zero : PyVal := PyFloat (FDec 0 0).
Definition f_0_7 : PyVal := PyFloat (FDec 7 (-1)).
Definition f_0_8 : PyVal := PyFloat (FDec 8 (-1)).

(** The dict display all return statements of [answer_question] share. *)
Definition structured (answer document_ids sources confidence_score
    context_used additional_info pages : PyVal) : pydict :=
  Py.dict_of
    [ (py "answer", answer);
      (py "document_ids", document_ids);
      (py "sources", sources);
      (py "confidence_score", confidence_score);
      (py "context_used", context_used);
      (py "additional_info", additional_info);
      (py "pages", pages) ].

(** [not x or not isinstance(x, str) or not x.strip()] *)
Definition invalid_text (x : PyVal) : bool :=
  negb (Py.truthy x) || negb (Py.is_str x)
  || match x with
     | PyStr s => negb (Py.truthy (PyStr (strip s)))
     | _ => true
     end.

Definition invalid_question_answer : pydict :=
  structured (PyStr (py "Ungültige Frage")) (PyList []) (PyList []) f_zero
    (PyBool false) (PyStr (py "Leere oder ungültige Frage")) (PyList []).

Definition invalid_namespace_answer : pydict :=
  structured (PyStr (py "Ungültiger Namespace")) (PyList []) (PyList [])
    f_zero (PyBool false) (PyStr (py "Leerer oder ungültiger Namespace"))
    (PyList []).

(** The handler of the outermost [try]. *)
Definition failure_answer (e : exn) : pydict :=
  structured (PyStr (py "Fehler beim Beantworten der Frage: " ++ exn_str e))
    (PyList []) (PyList []) f_zero (PyBool false)
    (PyStr (py "Fehler aufgetreten: " ++ class_name (exn_cls e))) (PyList []).

Definition no_len (v : PyVal) : exn :=
  Exn TypeError (py "object of type '" ++ Py.type_name v ++ py "' has no len()").

(** [has_history = bool(chat_history and len(chat_history) > 0)] *)
Definition has_history_of (chat_history : PyVal) : result bool :=
  if negb (Py.truthy chat_history) then Ok false
  else match chat_history with
       | PyStr s => Ok (0 <? length s)%nat
       | PyList l => Ok (0 <? length l)%nat
       | PyDict d => Ok (0 <? length d)%nat
       | v => Raise (no_len v)
       end.

(** One turn of the loop over [recent_messages]: the line a message
    contributes, if it is a dict whose role and content are strings. *)
Definition context_part (msg : PyVal) : option pystr :=
  match msg with
  | PyDict d =>
    match Py.get d (py "role") (PyStr (py "unknown")),
          Py.get d (py "content") (PyStr []) with
    | PyStr role, PyStr content => Some (upper role ++ py ": " ++ content)
    | _, _ => None
    end
  | _ => None
  end.

(** [chat_history[-6:]] and the loop over it. Slicing a dict raises; the
    characters of a string are not dicts and contribute nothing. *)
Definition chat_context_of (chat_history : PyVal) : result pystr :=
  match chat_history with
  | PyList l => Ok (join [LF] (omap context_part (slice_from l (-6))))
  | PyStr _ => Ok []
  | PyDict _ => Raise (Exn TypeError (py "unhashable type: 'slice'"))
  | v => Raise (Exn TypeError
           (py "'" ++ Py.type_name v ++ py "' object is not subscriptable"))
  end.

(** The literal pieces of the f-string [task_description]; in them a
    backquote stands for the double quote, which [pyq] puts back. *)

Definition task_head : pystr := pyq "
Hey! ".

Definition task_intro_history : pystr := pyq "Du siehst hier unsere bisherige Unterhaltung - schau sie dir an und beziehe dich darauf:

BISHERIGE UNTERHALTUNG:
".

Definition task_intro_fresh : pystr := pyq "Das ist der Anfang unserer Unterhaltung!".

Definition task_before_question : pystr := pyq "

AKTUELLE NACHRICHT: ".

Definition task_rules : pystr := pyq "

WICHTIG - TOOL USAGE REGELN:
Du MUSST deine Tools verwenden für folgende Fragen:
• Jede Frage nach `welche Dokumente`, `verfügbare Dokumente` oder ähnliches → Document Overview Tool
• Jede spezifische Frage zu Studiengängen, Modulen, Kursen → PDF Search Tool  
• Fragen zu Prüfungen, Regelungen, Terminen → PDF Search Tool
• Wenn nach spezifischen Informationen aus Dokumenten gefragt wird → PDF Search Tool

WENN ETWAS UNKLAR IST:
• Frage kurz nach: `Welcher Studiengang?` oder `Welches Semester?`
• Arbeite mit dem was du hast, auch wenn es nicht perfekt ist
• Nur bei wirklich nötigen Informationen nachfragen

WIE DU ANTWORTEN SOLLST:
• Sei natürlich und hilfsbereit - wie ein erfahrener Studienberater
• Für dokumentenbasierte Fragen: VERWENDE IMMER zuerst die entsprechenden Tools
• Bei unklaren Ergebnissen: Stelle SOFORT präzise Rückfragen
• NIEMALS über Kontext oder Suche sprechen
• Beziehe dich auf vorherige Nachrichten wenn relevant

TOOL-WORKFLOW (BEFOLGE DAS GENAU):
1. WENN die Frage nach Dokumenten fragt → Document Overview Tool aufrufen
2. WENN nach spezifischen Inhalten gefragt wird → PDF Search Tool aufrufen
3. WENN Ergebnisse unklar/unvollständig sind → Präzise Rückfragen stellen
4. ERST DANN antworte basierend auf den Tool-Ergebnissen

WICHTIG ZU SEITENZAHLEN:
- Jeder Textabschnitt in den HOCHSCHULSPEZIFISCHEN INFORMATIONEN ist mit seiner Seitenzahl markiert (z.B. `SEITE 5`)
- Du MUSST die Seitenzahlen der Textabschnitte identifizieren, die du für deine Antwort verwendet hast
- Gib nur die Seitenzahlen der Textabschnitte an, die du tatsächlich zitiert hast

ANTWORTFORMAT - WICHTIG:
Deine Antwort muss IMMER in diesem JSON-Format sein (ohne Markdown-Blöcke):
{
    `answer`: `Deine ausführliche Antwort hier`,
    `document_ids`: [`extrahiere diese aus [SYSTEM_INFO] FOUND_DOCUMENT_IDS wenn du das PDF Search Tool verwendet hast`],
    `sources`: [`Hier übernimmst du 1zu1 die sätze aus den Quellen die du verwendet hast, in derselben Reihenfolge wie die Dokumenten IDs, die Sätze kannst du richtig formatieren.`],
    `confidence_score`: 0.9,
    `context_used`: ".

Definition task_tail : pystr := pyq ",
    `additional_info`: `Zusätzliche Hinweise oder null`,
    `pages`: [hier die Seitenzahlen als Liste von Zahlen der Textabschnitte, die du für deine Antwort verwendet hast, z.B. [5, 12, 15]]
}

WICHTIG FÜR DOCUMENT_IDS:
- Wenn du das PDF Search Tool verwendest, extrahiere die document_ids aus der Zeile `[SYSTEM_INFO] FOUND_DOCUMENT_IDS: [...]` 
- Wenn du das Tool nicht verwendest, lass document_ids leer: []
- Verwende nur die echten document_ids aus den Suchergebnissen, erfinde keine!
- Gib nur die document_ids aus, die du auch wirklich verwendet hast um die Antwort zu erstellen!

WICHTIG FÜR PAGES:
- Das Feld `pages` MUSS IMMER in deiner JSON-Antwort enthalten sein.
- Extrahiere die Seitenzahlen aus den [PAGES: ...]-Angaben der tatsächlich verwendeten Quellen/Chunks.
- Analysiere die Textabschnitte mit `SEITE X` Markierungen und identifiziere welche du tatsächlich für deine Antwort verwendet hast.
- Füge jede Seite nur einmal hinzu, sortiere die Liste aufsteigend (z.B. [2,3,4]).
- Wenn keine Seiten gefunden wurden, gib eine leere Liste zurück: []

WICHTIG: Verwende deine Tools aktiv! Das ist der Hauptzweck deiner Existenz.
".

Definition task_description (has_history : bool) (chat_context : pystr)
    (question : pystr) : pystr :=
  task_head
  ++ (if has_history then task_intro_history ++ chat_context
      else task_intro_fresh)
  ++ task_before_question ++ question
  ++ task_rules ++ lower (PyRepr.str (PyBool has_history))
  ++ task_tail.

Definition pattern_system_info : pystr :=
  py "\\[SYSTEM_INFO\\] FOUND_PAGES: (\\[.*?\\])".

Definition pattern_found_pages : pystr :=
  py "FOUND_PAGES: (\\[.*?\\])".

(** [json.loads(m.group(1))] under its own [try]: any failure gives the
    empty list. *)
Definition pages_of_group (g : pystr) : PyVal :=
  try_except (Json.loads g) (fun _ => PyList []).

(** The pages block: the first pattern, then the alternative one. *)
Definition extract_pages (result_str : pystr) : result PyVal :=
  m ← Re.search_group1 pattern_system_info result_str;
  match m with
  | Some g => Ok (pages_of_group g)
  | None =>
    alt ← Re.search_group1 pattern_found_pages result_str;
    match alt with
    | Some g => Ok (pages_of_group g)
    | None => Ok (PyList [])
    end
  end.

(** The fallback dict of the three parse-failure returns. *)
Definition fallback (result_str : pystr) (has_history : bool)
    (additional_info : pystr) : pydict :=
  structured (PyStr result_str) (PyList []) (PyList []) f_0_7
    (PyBool has_history) (PyStr additional_info) (PyList []).

Definition no_json_info : pystr :=
  py "Antwort konnte nicht als strukturiertes JSON geparst werden - keine JSON-Struktur gefunden".

(** The body of the inner [try]: decoding, the dict check, the pages and
    the validated record. *)
Definition parse_structured (result_str json_str : pystr) (has_history : bool)
    : result pydict :=
  parsed_response ← Json.loads json_str;
  match parsed_response with
  | PyDict d =>
    pages ← extract_pages result_str;
    confidence ←
      (if Py.is_number (Py.get_none d (py "confidence_score"))
       then f ← PyRepr.float_of_number (Py.get d (py "confidence_score") f_0_8);
            Ok (PyFloat f)
       else Ok f_0_8);
    Ok (structured
          (PyStr (PyRepr.str (Py.get d (py "answer") (PyStr result_str))))
          (if Py.is_list (Py.get_none d (py "document_ids"))
           then Py.get d (py "document_ids") (PyList []) else PyList [])
          (if Py.is_list (Py.get_none d (py "sources"))
           then Py.get d (py "sources") (PyList []) else PyList [])
          confidence
          (PyBool (Py.truthy (Py.get d (py "context_used") (PyBool has_history))))
          (Py.get_none d (py "additional_info"))
          pages)
  | _ => Raise (Exn ValueError (py "Parsed response is not a dictionary"))
  end.

(** The structured response extractor: everything after
    [result_str = str(result)]. *)
Definition extract_structured (has_history : bool) (result_str : pystr)
    : pydict :=
  let json_start := find LBRACE result_str in
  let json_end := (rfind RBRACE result_str + 1)%Z in
  if negb (json_start =? -1)%Z && negb (json_end =? -1)%Z then
    let json_str := slice result_str json_start json_end in
    match parse_structured result_str json_str has_history with
    | Ok structured_response => structured_response
    | Raise e =>
      match exn_cls e with
      | JSONDecodeError =>
        fallback result_str has_history
          (py "JSON-Parsing fehlgeschlagen: " ++ exn_str e)
      | _ =>
        fallback result_str has_history
          (py "Unerwarteter Parsing-Fehler: " ++ exn_str e)
      end
    end
  else fallback result_str has_history no_json_info.

(** [answer_question(question, namespace, chat_history)]: the returned dict
    and the calls made, in order. *)
Definition answer_question (w : World) (question namespace chat_history : PyVal)
    : pydict * list call :=
  if invalid_text question then (invalid_question_answer, [])
  else if invalid_text namespace then (invalid_namespace_answer, [])
  else
    let ns := PyRepr.str namespace in
    let calls1 := [CallSetupAgent ns] in
    match setup_agent w ns with
    | Raise e => (failure_answer e, calls1)
    | Ok _ =>
      match (h ← has_history_of chat_history;
             ctx ← (if h : bool then chat_context_of chat_history else Ok []);
             Ok (h, ctx)) with
      | Raise e => (failure_answer e, calls1)
      | Ok (has_history, chat_context) =>
        let description :=
          task_description has_history chat_context (PyRepr.str question) in
        let calls2 := calls1 ++ [CallKickoff description] in
        match kickoff w description with
        | Raise e => (failure_answer e, calls2)
        | Ok result_str => (extract_structured has_history result_str, calls2)
        end
      end
    end.

End Answer.

(** ** [pdf_search_tool]: retrieval, filtering and context assembly *)

Module Search.
Import PyStr.

(** An element of the retriever's answer: [metadata] and [page_content]
    are attributes it may lack ([hasattr]). *)
Record Doc := { metadata : option PyVal; page_content : option PyVal }.

(** What [compression_retriever.invoke] can return. *)
Inductive retrieved :=
| RetNone
| RetOther (type_repr : pystr)
| RetList (docs : list Doc).

(** The collaborators of the tool: the retriever and
    [_get_adjacent_chunks_content] for the namespace of the closure; and
    [listed], the order in which Python lists a set ([list(found_doc_ids)])
    whose elements were added in the given order. That order depends on the
    hashes of the elements and so on the process; all that is fixed is that
    the elements are the same. *)
Record World := {
  invoke : pystr -> result retrieved;
  adjacent : PyVal -> PyVal -> result PyVal;
  listed : list PyVal -> list PyVal;
  listed_permutation : forall ids, listed ids ≡ₚ ids
}.

(** The variables the loop over [docs] updates. Each block of [results]
    carries the position of its fragment in [docs], a ghost field dropped
    when the text is joined. [found_doc_ids] holds the elements of the set
    in the order of their first insertion; the order in which Python lists
    the set is [listed]. [page_number] is the
    variable of that name, [None] while it is unbound: the branch for a
    metadata that is no dict does not assign it. *)
Record loop_state := {
  results : list (nat * pystr);
  found_doc_ids : list PyVal;
  used_pages : gset Z;
  chunk_counter : nat;
  doc_index_map : list (PyVal * nat);
  page_number : option PyVal
}.

Definition initial_state : loop_state :=
  {| results := []; found_doc_ids := []; used_pages := ∅; chunk_counter := 1;
     doc_index_map := []; page_number := None |}.

(** [f"unknown_{i}"] *)
Definition unknown_id (i : nat) : PyVal :=
  PyStr (py "unknown_" ++ of_N (N.of_nat i)).

(** [metadata.get('document_id', metadata.get('pdf_id', dflt))] *)
Definition doc_id_of (d : pydict) (dflt : PyVal) : PyVal :=
  Py.get d (py "document_id") (Py.get d (py "pdf_id") dflt).

(** The comma-separated filter: [None] when no filter is in force. The
    tool's [document_ids] argument is a string by its signature. *)
Definition target_doc_ids (document_ids : pystr) : option (list pystr) :=
  if Py.truthy (PyStr document_ids) && Py.truthy (PyStr (strip document_ids))
  then Some (filter (fun d => Py.truthy (PyStr d) = true)
                    (strip <$> split COMMA document_ids))
  else None.

(** [doc_id in target_doc_ids] *)
Definition in_targets (doc_id : PyVal) (targets : list pystr) : bool :=
  existsb (fun t => PyRepr.atom_eq doc_id (PyStr t)) targets.

(** The filter loop keeps a fragment when its metadata is a dict whose
    document ID is in the filter. *)
Definition keeps (targets : list pystr) (doc : Doc) : bool :=
  match metadata doc with
  | Some (PyDict d) => in_targets (doc_id_of d (PyStr (py "unknown"))) targets
  | _ => false
  end.

(** The values [for p in pages] runs over. *)
Definition iter_items (pages : PyVal) : result (list PyVal) :=
  match pages with
  | PyList l => Ok l
  | PyStr s => Ok ((fun c => PyStr [c]) <$> s)
  | PyDict d => Ok ((fun kv => PyStr kv.1) <$> d)
  | v => Raise (Exn TypeError
           (py "'" ++ Py.type_name v ++ py "' object is not iterable"))
  end.

(** [try: used_pages.add(int(p)) except Exception: pass] *)
Definition add_page (used : gset Z) (p : PyVal) : gset Z :=
  match PyRepr.int p with
  | Ok n => {[n]} ∪ used
  | Raise _ => used
  end.

(** [if page_number: try: used_pages.add(int(page_number)) ...] *)
Definition add_page_number (used : gset Z) (pn : PyVal) : gset Z :=
  if Py.truthy pn then add_page used pn else used.

(** [set.add] on the elements of a set kept in the order of their first
    insertion, and the index map, both keyed by [==]. *)
Definition set_add (v : PyVal) (s : list PyVal) : list PyVal :=
  if existsb (PyRepr.atom_eq v) s then s else s ++ [v].

Definition index_of (v : PyVal) (m : list (PyVal * nat)) : option nat :=
  snd <$> List.find (fun kv => PyRepr.atom_eq v kv.1) m.

Definition index_add (v : PyVal) (m : list (PyVal * nat)) : list (PyVal * nat) :=
  match index_of v m with
  | Some _ => m
  | None => m ++ [(v, length m)]
  end.

(** The first part of the loop body: the metadata. It gives [doc_id],
    [chunk_id] and [pages], or the exception that ends the turn, and the
    state with the pages collected so far. *)
Definition read_metadata (i : nat) (md : PyVal) (st : loop_state)
    : result (PyVal * PyVal * PyVal) * loop_state :=
  match md with
  | PyDict d =>
    let doc_id := doc_id_of d (unknown_id i) in
    let chunk_id := Py.get_none d (py "chunk_id") in
    let pages := Py.get_none d (py "pages") in
    let pn := Py.get_none d (py "page_number") in
    let bound (used : gset Z) :=
      {| results := results st; found_doc_ids := found_doc_ids st;
         used_pages := used; chunk_counter := chunk_counter st;
         doc_index_map := doc_index_map st; page_number := Some pn |} in
    if Py.truthy pages then
      match iter_items pages with
      | Raise e => (Raise e, bound (used_pages st))
      | Ok items =>
        (Ok (doc_id, chunk_id, pages),
         bound (add_page_number (foldl add_page (used_pages st) items) pn))
      end
    else (Ok (doc_id, chunk_id, pages),
          bound (add_page_number (used_pages st) pn))
  | _ => (Ok (unknown_id i, PyNone, PyNone), st)
  end.

(** [len(pages) > 0] and [pages[0]] for a truthy [pages]. *)
Definition first_page (pages : PyVal) : result PyVal :=
  match pages with
  | PyList (p :: _) => Ok p
  | PyStr (c :: _) => Ok (PyStr [c])
  | PyDict _ => Raise (Exn (OtherException (py "KeyError")) (py "0"))
  | v => Raise (Exn TypeError
           (py "object of type '" ++ Py.type_name v ++ py "' has no len()"))
  end.

(** [current_page]: the first of [pages], else a truthy [page_number],
    else [None]. Reading an unbound [page_number] raises. *)
Definition current_page_of (pages : PyVal) (pn : option PyVal) : result PyVal :=
  if Py.truthy pages then first_page pages
  else match pn with
       | None => Raise (Exn (OtherException (py "UnboundLocalError"))
           (py "cannot access local variable 'page_number' where it is not associated with a value"))
       | Some v => Ok (if Py.truthy v then v else PyNone)
       end.

(** [pages_str]; [page_number] is bound when this is reached. *)
Definition pages_str_of (pages : PyVal) (pn : option PyVal) : pystr :=
  if Py.truthy pages then py "[PAGES: " ++ PyRepr.str pages ++ py "] "
  else match pn with
       | Some v => if Py.truthy v
                   then py "[PAGES: [" ++ PyRepr.str v ++ py "]] " else []
       | None => []
       end.

(** [f"--- DOK{doc_index+1} CHUNK {chunk_counter}{tag} {edge} ---"] *)
Definition marker (doc_index counter : nat) (tag edge : pystr) : pystr :=
  py "--- DOK" ++ of_N (N.of_nat (doc_index + 1)) ++ py " CHUNK "
  ++ of_N (N.of_nat counter) ++ tag ++ py " " ++ edge ++ py " ---".

Definition main_tag (current_page : PyVal) : pystr :=
  py "b (HAUPTTREFFER)"
  ++ (if Py.truthy current_page then py " SEITE " ++ PyRepr.str current_page
      else []).

(** The main hit alone, as both fallbacks format it. *)
Definition plain_block (doc_index counter : nat) (current_page : PyVal)
    (content : pystr) : pystr :=
  marker doc_index counter (main_tag current_page) (py "START") ++ [LF]
  ++ content ++ [LF]
  ++ marker doc_index counter (main_tag current_page) (py "END").

(** ["\n".join(chunk_set)]: an item that is no string raises. *)
Fixpoint join_values (items : list PyVal) : result (list pystr) :=
  match items with
  | [] => Ok []
  | PyStr s :: r => rest ← join_values r; Ok (s :: rest)
  | v :: _ => Raise (Exn TypeError
                (py "sequence item: expected str instance, " ++ Py.type_name v
                 ++ py " found"))
  end.

(** The block with the neighbours of the chunk, from the dict the
    adjacency lookup returned. *)
Definition enhanced_block (doc_index counter : nat) (current_page : PyVal)
    (content : pystr) (adjacent_chunks : PyVal) : result pystr :=
  match adjacent_chunks with
  | PyDict a =>
    let side (key : pystr) (tag : pystr) :=
      let v := Py.get_none a key in
      if Py.truthy v
      then [PyStr (marker doc_index counter tag (py "START")); v;
            PyStr (marker doc_index counter tag (py "END"))]
      else [] in
    let chunk_set :=
      side (py "previous") (py "a (VORHERIGER)")
      ++ [PyStr (marker doc_index counter (main_tag current_page) (py "START"));
          PyStr content;
          PyStr (marker doc_index counter (main_tag current_page) (py "END"))]
      ++ side (py "next") (py "c (NÄCHSTER)") in
    parts ← join_values chunk_set; Ok (join [LF] parts)
  | v => Raise (Exn AttributeError
           (py "'" ++ Py.type_name v ++ py "' object has no attribute 'get'"))
  end.

(** The text of a fragment: with its neighbours when [chunk_id] is an
    [int] and the lookup and the join succeed, the main hit alone
    otherwise. *)
Definition block_text (w : World) (doc_id chunk_id : PyVal)
    (doc_index counter : nat) (current_page : PyVal) (content : pystr) : pystr :=
  if Py.is_int chunk_id then
    try_except
      (adjacent_chunks ← adjacent w doc_id chunk_id;
       enhanced_block doc_index counter current_page content adjacent_chunks)
      (fun _ => plain_block doc_index counter current_page content)
  else plain_block doc_index counter current_page content.

(** One turn of the loop over [enumerate(docs)]. Every exception ends the
    turn ([continue]) and keeps what the turn has changed so far. *)
Definition step (w : World) (st : loop_state) (i : nat) (doc : Doc)
    : loop_state :=
  match metadata doc, page_content doc with
  | Some md, Some pc =>
    match read_metadata i md st with
    | (Raise _, st1) => st1
    | (Ok (doc_id, chunk_id, pages), st1) =>
      let content := PyRepr.str pc in
      if negb (Py.truthy (PyStr (strip content))) then st1
      else if negb (PyRepr.hashable doc_id) then st1
      else
        let ids := set_add doc_id (found_doc_ids st1) in
        let map2 := index_add doc_id (doc_index_map st1) in
        let registered :=
          {| results := results st1; found_doc_ids := ids;
             used_pages := used_pages st1; chunk_counter := chunk_counter st1;
             doc_index_map := map2; page_number := page_number st1 |} in
        match index_of doc_id map2, current_page_of pages (page_number st1) with
        | Some doc_index, Ok current_page =>
          let text :=
            py "[DOC_ID: " ++ PyRepr.str doc_id ++ py "] "
            ++ pages_str_of pages (page_number st1) ++ py " "
            ++ block_text w doc_id chunk_id doc_index (chunk_counter st1)
                 current_page content in
          {| results := results st1 ++ [(i, text)]; found_doc_ids := ids;
             used_pages := used_pages st1;
             chunk_counter := S (chunk_counter st1);
             doc_index_map := map2; page_number := page_number st1 |}
        | _, _ => registered
        end
    end
  | _, _ => st
  end.

(** The loop, from the [i]-th fragment on. *)
Fixpoint run_from (w : World) (st : loop_state) (i : nat) (docs : list Doc)
    : loop_state :=
  match docs with
  | [] => st
  | doc :: rest => run_from w (step w st i doc) (S i) rest
  end.

Definition run (w : World) (docs : list Doc) : loop_state :=
  run_from w initial_state 0 docs.

(** [sorted(list(used_pages))] *)
Definition pages_sorted (st : loop_state) : list Z :=
  merge_sort Z.le (elements (used_pages st)).

Definition no_documents_found : pystr :=
  py "KEINE DOKUMENTE GEFUNDEN: Keine relevanten Dokumente gefunden.".

Definition no_documents_in_filter (targets : list pystr) : pystr :=
  py "KEINE DOKUMENTE IN GEFILTERTEN IDs: Keine relevanten Dokumente in "
  ++ PyRepr.repr (PyList (PyStr <$> targets)) ++ py " gefunden.".

Definition no_relevant_content : pystr :=
  py "KEINE RELEVANTEN INHALTE: Dokumente gefunden, aber keine relevanten Informationen.".

Definition document_ids_line (ids : list PyVal) : pystr :=
  [LF; LF] ++ py "[SYSTEM_INFO] FOUND_DOCUMENT_IDS: " ++ PyRepr.repr (PyList ids).

Definition pages_line (pages : list Z) : pystr :=
  [LF] ++ py "[SYSTEM_INFO] FOUND_PAGES: " ++ PyRepr.repr (PyList (PyInt <$> pages)).

Definition filter_line (targets : option (list pystr)) : pystr :=
  match targets with
  | Some (t :: ts) =>
    [LF] ++ py "[SYSTEM_INFO] FILTERED_BY_DOC_IDS: "
    ++ PyRepr.repr (PyList (PyStr <$> (t :: ts)))
  | _ => []
  end.

(** The text built from the state the loop ends in. *)
Definition assemble (w : World) (targets : option (list pystr))
    (st : loop_state) : pystr :=
  match results st with
  | [] => no_relevant_content
  | _ =>
    join [LF; LF] (snd <$> results st)
    ++ document_ids_line (listed w (found_doc_ids st))
    ++ pages_line (pages_sorted st)
    ++ filter_line targets
  end.

(** The fragments the loop runs over: all of them, or those the filter
    keeps. *)
Definition filtered (targets : option (list pystr)) (docs : list Doc)
    : list Doc :=
  match targets with
  | Some (t :: ts) => List.filter (keeps (t :: ts)) docs
  | _ => docs
  end.

(** [pdf_search_tool(query, document_ids)] *)
Definition pdf_search_tool (w : World) (query : PyVal) (document_ids : pystr)
    : pystr :=
  if Answer.invalid_text query
  then py "FEHLER: Suchanfrage ist leer oder ungültig."
  else
    let targets := target_doc_ids document_ids in
    match invoke w (PyRepr.str query) with
    | Raise e => py "FEHLER BEI PINECONE-SUCHE: " ++ exn_str e
    | Ok RetNone =>
      py "FEHLER: Pinecone-Antwort ist None - möglicherweise Verbindungsproblem."
    | Ok (RetOther t) =>
      py "FEHLER: Unerwarteter Response-Typ von Pinecone: " ++ t
    | Ok (RetList []) => no_documents_found
    | Ok (RetList docs) =>
      match targets, filtered targets docs with
      | Some (t :: ts), [] => no_documents_in_filter (t :: ts)
      | _, kept => assemble w targets (run w kept)
      end
    end.

End Search.

(** ** Metadata store, [delete_document] and [get_namespace_summary] *)

Module Store.
Import PyStr.

(** The Firebase database: [reference(path).get()] and
    [reference(path).delete()], which may raise. *)
Record Db := {
  db_get : pystr -> result PyVal;
  db_delete : pystr -> result unit
}.

Definition success : PyVal := PyStr (py "success").

(** [d.get("status") == "success"] *)
Definition status_is_success (d : pydict) : bool :=
  PyRepr.atom_eq (Py.get_none d (py "status")) success.

(** [FirebaseConnection.get_project_info] *)
Definition get_project_info (db : Db) (project_name : pystr) : pydict :=
  try_except
    (data ← db_get db (py "/files/" ++ project_name ++ py "/info");
     Ok (if Py.truthy data
         then Py.dict_of [(py "status", success); (py "data", data)]
         else Py.dict_of [(py "status", PyStr (py "error"));
                          (py "message", PyStr (py "Project not found"))]))
    (fun e => Py.dict_of
       [(py "status", PyStr (py "error"));
        (py "message", PyStr (py "Error getting project info: " ++ exn_str e))]).

(** [FirebaseConnection.get_namespace_data] *)
Definition get_namespace_data (db : Db) (namespace : pystr) : pydict :=
  try_except
    (data ← db_get db (py "files/" ++ namespace);
     Ok (if Py.truthy data
         then Py.dict_of [(py "status", success); (py "data", data)]
         else Py.dict_of
                [(py "status", PyStr (py "error")); (py "data", PyDict []);
                 (py "message",
                  PyStr (py "No data found for namespace " ++ namespace))]))
    (fun e => Py.dict_of
       [(py "status", PyStr (py "error"));
        (py "message",
         PyStr (py "Error retrieving data for namespace " ++ namespace
                ++ py ": " ++ exn_str e))]).

(** [FirebaseConnection.delete_document_metadata] *)
Definition delete_document_metadata (db : Db) (namespace fileID : pystr)
    : pydict :=
  let path := py "files/" ++ namespace ++ py "/" ++ fileID in
  try_except
    (existing_data ← db_get db path;
     if negb (Py.truthy existing_data)
     then Ok (Py.dict_of
                [(py "status", PyStr (py "error"));
                 (py "message", PyStr (py "No metadata found for " ++ fileID))])
     else
       _ ← db_delete db path;
       Ok (Py.dict_of
             [(py "status", success);
              (py "message",
               PyStr (py "Metadata for " ++ fileID ++ py " successfully deleted"));
              (py "path", PyStr path)]))
    (fun e => Py.dict_of
       [(py "status", PyStr (py "error"));
        (py "message", PyStr (py "Error deleting metadata: " ++ exn_str e))]).

Definition no_attribute (v : PyVal) (attr : string) : exn :=
  Exn AttributeError
    (py "'" ++ Py.type_name v ++ py "' object has no attribute '" ++ py attr
     ++ py "'").

(** [AgentProcessor.delete_document]. [vector_deleted] is the outcome of
    [VectorManager.delete_document]; nothing here catches an exception. *)
Definition delete_document (firebase_available : bool)
    (vector_deleted : result PyVal) (db : Db) (namespace fileID : pystr)
    : result pydict :=
  vector_result ← vector_deleted;
  match vector_result with
  | PyDict vr =>
    let pinecone_deleted := status_is_success vr in
    let firebase_result :=
      if firebase_available then delete_document_metadata db namespace fileID
      else Py.dict_of [(py "status", success);
                       (py "message", PyStr (py "Firebase not available"))] in
    let firebase_deleted :=
      firebase_available && status_is_success firebase_result in
    Ok (Py.dict_of
          [(py "status",
            PyStr (if pinecone_deleted then py "success" else py "error"));
           (py "message",
            PyStr (py "Document " ++ fileID ++ py " deletion - Pinecone: "
                   ++ PyRepr.str (PyBool pinecone_deleted) ++ py ", Firebase: "
                   ++ PyRepr.str (PyBool firebase_deleted)));
           (py "vector_result", vector_result);
           (py "firebase_result", PyDict firebase_result)])
  | v => Raise (no_attribute v "get")
  end.

(** Whether an entry of the namespace data is a document record. *)
Definition is_document (doc_data : PyVal) : bool :=
  match doc_data with
  | PyDict d => Py.has_key d (py "summary") || Py.has_key d (py "status")
                || Py.has_key d (py "chunk_count")
  | _ => false
  end.

(** The [document_info] of one record. *)
Definition document_info (doc_id : pystr) (d : pydict) : pydict :=
  let base :=
    Py.dict_of
      [(py "id", PyStr doc_id);
       (py "name", Py.get d (py "name") (PyStr doc_id));
       (py "summary",
        Py.get d (py "summary") (PyStr (py "Keine Zusammenfassung verfügbar")));
       (py "chunk_count",
        Py.get d (py "chunk_count") (Py.get d (py "chunks") (PyInt 0)));
       (py "status", Py.get d (py "status") (PyStr (py "Unknown")));
       (py "date", Py.get d (py "date") (PyStr []));
       (py "processing", Py.get d (py "processing") (PyBool false));
       (py "progress", Py.get d (py "progress") (PyInt 0));
       (py "path", Py.get d (py "path") (PyStr []));
       (py "storageURL", Py.get d (py "storageURL") (PyStr []))] in
  match Py.lookup d (py "additional_info") with
  | Some info => Py.set_item base (py "additional_info") info
  | None => base
  end.

(** The loop over [namespace_data.items()]. *)
Fixpoint collect_documents (items : pydict) : list PyVal :=
  match items with
  | [] => []
  | (doc_id, doc_data) :: rest =>
    match doc_data with
    | PyDict d =>
      if is_document doc_data
      then PyDict (document_info doc_id d) :: collect_documents rest
      else collect_documents rest
    | _ => collect_documents rest
    end
  end.

(** The body of the [try] of [get_namespace_summary]. *)
Definition namespace_summary_body (firebase_available : bool) (db : Db)
    (namespace : pystr) : result pydict :=
  let empty (project_info : PyVal) :=
    Ok (Py.dict_of
          [(py "status", success); (py "namespace", PyStr namespace);
           (py "document_count", PyInt 0); (py "documents", PyList []);
           (py "project_info", project_info);
           (py "message",
            PyStr (py "No documents found or Firebase not available"))]) in
  if firebase_available then
    let project_info_result := get_project_info db namespace in
    let project_info :=
      if status_is_success project_info_result
      then Py.get_none project_info_result (py "data") else PyNone in
    let firebase_result := get_namespace_data db namespace in
    if status_is_success firebase_result
       && Py.truthy (Py.get_none firebase_result (py "data"))
    then
      match Py.get_none firebase_result (py "data") with
      | PyDict namespace_data =>
        let documents := collect_documents namespace_data in
        Ok (Py.dict_of
              [(py "status", success); (py "namespace", PyStr namespace);
               (py "document_count", PyInt (Z.of_nat (length documents)));
               (py "documents", PyList documents);
               (py "project_info", project_info)])
      | v => Raise (no_attribute v "items")
      end
    else empty project_info
  else empty PyNone.

(** [AgentProcessor.get_namespace_summary] *)
Definition get_namespace_summary (firebase_available : bool) (db : Db)
    (namespace : pystr) : pydict :=
  try_except (namespace_summary_body firebase_available db namespace)
    (fun e => Py.dict_of
       [(py "status", PyStr (py "error"));
        (py "message",
         PyStr (py "Error getting namespace summary: " ++ exn_str e))]).

End Store.

(** ** The chat-history buffer of [send_message] *)

Module Chat.
Import PyStr.

(** [message_bot_agent(user_input, namespace, chat_history)] of
    [agent_chatbot], taken as an input: it may raise, and it is taken not
    to change the list it is given. *)
Definition Bot := pystr -> pystr -> list PyVal -> result PyVal.

Definition message (role : string) (content : PyVal) : PyVal :=
  PyDict (Py.dict_of [(py "role", PyStr (py role)); (py "content", content)]).

Definition error_response (message answer additional_info : pystr) : PyVal :=
  PyDict (Py.dict_of
    [(py "status", PyStr (py "error"));
     (py "message", PyStr message);
     (py "structured_response",
      PyDict (Answer.structured (PyStr answer) (PyList []) (PyList [])
                Answer.f_zero (PyBool false) (PyStr additional_info)
                (PyList [])))]).

(** [chat_state.chat_history[namespace]] after the two appends and the
    cut to the last ten. *)
Definition updated_history (old : list PyVal) (user_input : pystr)
    (answer : PyVal) : list PyVal :=
  let appended := old ++ [message "user" (PyStr user_input);
                          message "assistant" answer] in
  if (10 <? length appended)%nat then slice_from appended (-10) else appended.

(** [send_message(user_input, namespace)]: the returned dict and the
    [chat_state.chat_history] it leaves. *)
Definition send_message (bot : Bot) (chat_history : gmap pystr (list PyVal))
    (user_input namespace : PyVal) : PyVal * gmap pystr (list PyVal) :=
  if Answer.invalid_text user_input then
    (error_response (py "User input must be a non-empty string")
       (py "Ungültige Eingabe") (py "Leere oder ungültige Benutzereingabe"),
     chat_history)
  else if Answer.invalid_text namespace then
    (error_response (py "Namespace must be a non-empty string")
       (py "Ungültiger Namespace") (py "Leerer oder ungültiger Namespace"),
     chat_history)
  else
    let u := PyRepr.str user_input in
    let ns := PyRepr.str namespace in
    let old := default [] (chat_history !! ns) in
    let failed (e : exn) (h : gmap pystr (list PyVal)) :=
      (error_response (py "Error generating response: " ++ exn_str e)
         (py "Fehler: " ++ exn_str e)
         (py "Exception: " ++ class_name (exn_cls e)), h) in
    match bot u ns old with
    | Raise e => failed e chat_history
    | Ok (PyDict d as response) =>
      (PyDict (Py.dict_of
         [(py "status", PyStr (py "success"));
          (py "message", PyStr (py "Agent response generated successfully"));
          (py "structured_response", response)]),
       <[ns := updated_history old u (Py.get d (py "answer") (PyStr []))]>
         chat_history)
    | Ok v =>
      failed (Store.no_attribute v "get")
        (<[ns := old ++ [message "user" (PyStr u)]]> chat_history)
    end.

End Chat.

(** * Vocabulary of the statements *)

(** The inputs the validation of [answer_question] refuses, in the words
    of the specification: no string, or a string that is empty or made of
    whitespace only. *)
Definition blank_or_no_text (v : PyVal) : Prop :=
  match v with
  | PyStr s => Forall (fun c => PyStr.isspace c = true) s
  | _ => True
  end.


(** The field [k] of a returned dict, [None] when it is missing. *)
Definition field (d : pydict) (k : string) : PyVal := Py.get_none d (py k).

(** The keys of the Structured Answer, in the order of the dict display. *)
Definition seven_fields : list pystr :=
  [py "answer"; py "document_ids"; py "sources"; py "confidence_score";
   py "context_used"; py "additional_info"; py "pages"].

(** The defaults of a failure branch: a textual answer and diagnostic, no
    citations, no pages, and the confidence 0.0 or 0.7. *)
Definition safe_defaults (d : pydict) : Prop :=
  Py.is_str (field d "answer") = true
  /\ field d "document_ids" = PyList []
  /\ field d "sources" = PyList []
  /\ (field d "confidence_score" = Answer.f_zero
      \/ field d "confidence_score" = Answer.f_0_7)
  /\ (exists b, field d "context_used" = PyBool b)
  /\ Py.is_str (field d "additional_info") = true
  /\ field d "pages" = PyList [].

(** The success branch: the crew returned a text and the body of the inner
    [try] produced the dict from the JSON in it. *)
Definition answered_from_json (w : Answer.World) (d : pydict) : Prop :=
  exists description result_str json_str has_history,
    Answer.kickoff w description = Ok result_str
    /\ Answer.parse_structured result_str json_str has_history = Ok d.

(** A character atom of a pattern, as opposed to a group mark. *)
Definition is_char_atom (a : Re.atom) : Prop :=
  match a with
  | Re.Lit _ | Re.Class _ => True
  | _ => False
  end.

(** A world whose agent set-up succeeds and whose crew returns [reply]. *)
Definition replying (reply : pystr) : Answer.World :=
  {| Answer.setup_agent := fun _ => Ok tt;
     Answer.kickoff := fun _ => Ok reply |}.

(** A reply that is valid JSON and echoes the marker of the search tool. *)
Definition echoed_marker_reply : pystr :=
  Answer.pyq "{`answer`: `Die Frist endet am 15. Juli.`, `document_ids`: [`po2023`], `sources`: [`Die Frist endet am 15. Juli.`], `confidence_score`: 0.9, `context_used`: false, `additional_info`: null, `pages`: [4]}
[SYSTEM_INFO] FOUND_PAGES: [4]".

(** A reply with an opening brace and no closing one. *)
Definition unclosed_brace_reply : pystr := py "Die Antwort lautet {".

(** The diagnostic of the scenario of the specification: no JSON in the
    reply. *)
Definition no_braces_reply : pystr :=
  py "Sure! Here's your answer: I don't know.".

(** What [delete_document] reports for the metadata store: the outcome of
    the Firebase deletion, or a note that Firebase is not in use. *)
Definition metadata_outcome (firebase_available : bool) (db : Store.Db)
    (namespace fileID : pystr) : pydict :=
  if firebase_available then Store.delete_document_metadata db namespace fileID
  else Py.dict_of [(py "status", Store.success);
                   (py "message", PyStr (py "Firebase not available"))].

(** An entry of a namespace summary with the five fields every document
    carries. *)
Definition document_entry (v : PyVal) : Prop :=
  exists d, v = PyDict d
    /\ Forall (fun k => Py.has_key d k = true)
         [py "id"; py "name"; py "summary"; py "chunk_count"; py "status"].

(** A database that holds [data] under every path, and one whose reads
    fail. *)
Definition db_holding (data : PyVal) : Store.Db :=
  {| Store.db_get := fun _ => Ok data; Store.db_delete := fun _ => Ok tt |}.

Definition db_unreachable : Store.Db :=
  {| Store.db_get := fun _ =>
       Raise (Exn (OtherException (py "ConnectionError")) (py "unreachable"));
     Store.db_delete := fun _ => Ok tt |}.

(** A namespace with one indexed document and the example questions next
    to it. *)
Definition sample_namespace_data : PyVal :=
  PyDict
    [(py "po2023",
      PyDict [(py "name", PyStr (py "Pruefungsordnung.pdf"));
              (py "summary", PyStr (py "Regelt die Pruefungen."));
              (py "chunk_count", PyInt 12);
              (py "status", PyStr (py "indexed"))]);
     (py "example_questions", PyList [PyStr (py "Wann endet die Frist?")])].

(** Every buffer of the chat state holds at most ten entries. *)
Definition capped (chat_history : gmap pystr (list PyVal)) : Prop :=
  forall ns l, chat_history !! ns = Some l -> length l <= 10.

(** The bot answers with a dict, the Structured Answer, when it answers. *)
Definition answers_with_dict (bot : Chat.Bot) : Prop :=
  forall u ns old v, bot u ns old = Ok v -> Py.is_dict v = true.

(** The [n] most recent entries of a buffer. *)
Definition most_recent {A} (n : nat) (l : list A) : list A :=
  drop (length l - n) l.

(** A bot that answers every message with the same Structured Answer. *)
Definition sample_bot : Chat.Bot :=
  fun _ _ _ =>
    Ok (PyDict (Answer.fallback (py "Die Frist endet am 15. Juli.") true
                  Answer.no_json_info)).

(** A chat state in which the buffer of one namespace is full. *)
Definition full_history : gmap pystr (list PyVal) :=
  {[ py "kurs-a" :=
       (fun n => Chat.message "user" (PyInt (Z.of_nat n))) <$> seq 0 10 ]}.

(** The document a fragment belongs to, for the filter: the ID its
    metadata gives, if the metadata is a dict. *)
Definition owner (doc : Search.Doc) : option PyVal :=
  match Search.metadata doc with
  | Some (PyDict d) => Some (Search.doc_id_of d (PyStr (py "unknown")))
  | _ => None
  end.

(** No fragment of [docs] belongs to a document of the allow-list. *)
Definition none_listed (targets : list pystr) (docs : list Search.Doc) : Prop :=
  forall doc t, In doc docs -> In t targets -> owner doc <> Some (PyStr t).

(** A fragment of a chunk-based document. *)
Definition fragment (document_id content : string) (pages : list Z)
    : Search.Doc :=
  {| Search.metadata :=
       Some (PyDict [(py "document_id", PyStr (py document_id));
                     (py "pages", PyList (PyInt <$> pages))]);
     Search.page_content := Some (PyStr (py content)) |}.

(** A retriever that returns [docs] for every query, with an adjacency
    lookup that finds no neighbour, in a process that lists a set in the
    order of insertion. *)
Definition retrieving (docs : list Search.Doc) : Search.World :=
  {| Search.invoke := fun _ => Ok (Search.RetList docs);
     Search.adjacent := fun _ _ => Ok (PyDict []);
     Search.listed := fun ids => ids;
     Search.listed_permutation := fun ids => Permutation_refl ids |}.



(** The document ID the tool gives the [i]-th fragment, from its
    metadata. *)
Definition metadata_doc_id (i : nat) (md : PyVal) : PyVal :=
  match md with
  | PyDict d => Search.doc_id_of d (Search.unknown_id i)
  | _ => Search.unknown_id i
  end.

Definition frag_doc_id (i : nat) (doc : Search.Doc) : PyVal :=
  match Search.metadata doc with
  | Some md => metadata_doc_id i md
  | None => Search.unknown_id i
  end.

(** The integers among [items], as [int] converts them. *)
Definition page_ints (items : list PyVal) : list Z :=
  omap (fun v => match PyRepr.int v with Ok n => Some n | Raise _ => None end)
       items.

(** The elements of a [pages] value that is not empty. *)
Definition pages_items (pages : PyVal) : list PyVal :=
  if Py.truthy pages
  then match Search.iter_items pages with Ok l => l | Raise _ => [] end
  else [].

(** The page numbers of a fragment: those of the [pages] and of the
    [page_number] of its metadata. *)
Definition metadata_pages (md : PyVal) : list Z :=
  match md with
  | PyDict d =>
    page_ints (pages_items (Py.get_none d (py "pages")))
    ++ (if Py.truthy (Py.get_none d (py "page_number"))
        then page_ints [Py.get_none d (py "page_number")] else [])
  | _ => []
  end.

Definition frag_pages (doc : Search.Doc) : list Z :=
  match Search.metadata doc with
  | Some md => metadata_pages md
  | None => []
  end.

(** A fragment as the retriever delivers it: its metadata is a dict, and
    [pages] in it is no dict (the vector store holds strings, numbers,
    booleans and lists of strings). *)
Definition well_typed (doc : Search.Doc) : Prop :=
  exists d, Search.metadata doc = Some (PyDict d)
    /\ Py.is_dict (Py.get_none d (py "pages")) = false.


(** Three retrieved fragments: two of one document, and between them one
    of another document whose compressed content is blank. *)
Definition sample_fragments : list Search.Doc :=
  [fragment "po2023" "Die Frist endet am 15. Juli." [4; 2]%Z;
   fragment "skript" "   " [9]%Z;
   fragment "po2023" "Die Anmeldung erfolgt im Portal." [2]%Z].

(** A scan that did not run out of fuel, and that consumed a character
    when it succeeded. *)
Definition within_fuel {A} (r : Json.scan A) (s : pystr) : Prop :=
  match r with
  | Json.Scanned _ rest _ => length rest < length s
  | Json.ScanFail e => e <> Json.recursion_error
  end.


(** * Further operations *)

(** The fields of the answer given for an exception [e]. *)
Definition answers_failure (d : pydict) (e : exn) : Prop :=
  field d "answer" = PyStr (py "Fehler beim Beantworten der Frage: " ++ exn_str e)
  /\ field d "additional_info"
     = PyStr (py "Fehler aufgetreten: " ++ class_name (exn_cls e))
  /\ field d "confidence_score" = PyFloat (FDec 0 0)
  /\ field d "context_used" = PyBool false.

(** A world whose agent set-up fails. *)
Definition failing_setup (e : exn) : Answer.World :=
  {| Answer.setup_agent := fun _ => Raise e;
     Answer.kickoff := fun _ => Ok [] |}.




(** The IDs of a list are pairwise different under [==], later against
    earlier. *)
Definition distinct_ids (l : list PyVal) : Prop :=
  forall a b x y, a < b -> l !! a = Some x -> l !! b = Some y ->
    PyRepr.atom_eq y x = false.

(** A block that carries the sequence number [k], and whose document has
    the index [idx] among the IDs of [st] (the block shows [idx + 1]). *)
Definition block_labelled (w : Search.World) (st : Search.loop_state)
    (k : nat) (text : pystr) : Prop :=
  exists doc_id chunk_id pages_str idx current_page content v,
    text = py "[DOC_ID: " ++ PyRepr.str doc_id ++ py "] " ++ pages_str ++ py " "
           ++ Search.block_text w doc_id chunk_id idx k current_page content
    /\ Search.found_doc_ids st !! idx = Some v
    /\ PyRepr.atom_eq doc_id v = true.

(** What the loop keeps true from turn to turn, before the turn of
    fragment [i]. *)
Definition loop_invariant (w : Search.World) (i : nat) (st : Search.loop_state)
    : Prop :=
  Search.chunk_counter st = S (length (Search.results st))
  /\ (Search.doc_index_map st).*1 = Search.found_doc_ids st
  /\ (Search.doc_index_map st).*2 = seq 0 (length (Search.found_doc_ids st))
  /\ distinct_ids (Search.found_doc_ids st)
  /\ StronglySorted lt (Search.results st).*1
  /\ Forall (fun k => k < i) (Search.results st).*1
  /\ forall k j text, Search.results st !! k = Some (j, text) ->
       block_labelled w st (S k) text.

(** Whether a filter is in force: the tool tests [if target_doc_ids:], so
    neither [None] nor the empty list filters. *)
Definition in_force (targets : option (list pystr)) : bool :=
  match targets with
  | Some (_ :: _) => true
  | _ => false
  end.

(** A piece of the argument that names no document: empty or whitespace
    only. *)
Definition blank_piece (piece : pystr) : Prop :=
  Forall (fun c => PyStr.isspace c = true) piece.

(** An adjacency lookup that always raises. *)
Definition retrieving_without_neighbours (docs : list Search.Doc)
    : Search.World :=
  {| Search.invoke := fun _ => Ok (Search.RetList docs);
     Search.adjacent := fun _ _ =>
       Raise (Exn (OtherException (py "PineconeException")) (py "timeout"));
     Search.listed := fun ids => ids;
     Search.listed_permutation := fun ids => Permutation_refl ids |}.

(** The IDs of the entries of a document list. *)
Definition entry_ids (docs : list PyVal) : list PyVal :=
  (fun v => match v with
            | PyDict d => Py.get_none d (py "id")
            | _ => PyNone
            end) <$> docs.

(** The keys of the namespace data whose value is a document record, in
    the order of the data. *)
Definition record_keys (namespace_data : pydict) : list pystr :=
  (List.filter (fun kv => Store.is_document kv.2) namespace_data).*1.

(** The field [k] of a returned value that is a dict. *)
Definition reply_field (v : PyVal) (k : string) : PyVal :=
  match v with
  | PyDict d => field d k
  | _ => PyNone
  end.

(** An error reply of [send_message]: status [error] and a Structured
    Answer without citations and with confidence 0.0. *)
Definition error_reply (v : PyVal) : Prop :=
  reply_field v "status" = PyStr (py "error")
  /\ exists d, reply_field v "structured_response" = PyDict d
               /\ field d "confidence_score" = Answer.f_zero
               /\ field d "document_ids" = PyList []
               /\ field d "pages" = PyList [].

(** A bot whose call fails. *)
Definition failing_bot (e : exn) : Chat.Bot := fun _ _ _ => Raise e.

(** ** The document overviews: [document_overview_tool],
    [_get_documents_overview_for_prompt] and [get_documents] *)

Module Overview.
Import PyStr.

(** [d[k]] for a dict [d]: a missing key raises [KeyError], whose text is
    the [repr] of the key. *)
Definition item (d : pydict) (k : string) : result PyVal :=
  match Py.lookup d (py k) with
  | Some v => Ok v
  | None => Raise (Exn (OtherException (py "KeyError")) (PyRepr.repr_str (py k)))
  end.

(** The exception of [v[k]] for a string key [k] and a [v] that is no
    dict. *)
Definition no_str_key (v : PyVal) : exn :=
  Exn TypeError
    match v with
    | PyStr _ => py "string indices must be integers, not 'str'"
    | PyList _ => py "list indices must be integers or slices, not str"
    | _ => py "'" ++ Py.type_name v ++ py "' object is not subscriptable"
    end.

(** [v[:n]] *)
Definition slice_to (v : PyVal) (n : Z) : result PyVal :=
  match v with
  | PyStr s => Ok (PyStr (slice s 0 n))
  | PyList l => Ok (PyList (slice l 0 n))
  | PyDict _ => Raise (Exn TypeError (py "unhashable type: 'slice'"))
  | v => Raise (Exn TypeError
           (py "'" ++ Py.type_name v ++ py "' object is not subscriptable"))
  end.

(** [len(v)] *)
Definition len (v : PyVal) : result nat :=
  match v with
  | PyStr s => Ok (length s)
  | PyList l => Ok (length l)
  | PyDict d => Ok (length d)
  | v => Raise (Answer.no_len v)
  end.

(** A loop whose turns extend a list of lines and may raise. *)
Fixpoint extend (turn : PyVal -> result (list pystr)) (docs : list PyVal)
    : result (list pystr) :=
  match docs with
  | [] => Ok []
  | doc :: rest =>
    lines ← turn doc;
    more ← extend turn rest;
    Ok (lines ++ more)
  end.

(** The [doc_info] lines of one document of the tool, with the empty line
    that separates the documents. *)
Definition doc_info (doc : PyVal) : result (list pystr) :=
  match doc with
  | PyDict d =>
    id ← item d "id";
    summary ← item d "summary";
    cut ← slice_to summary 200;
    n ← len summary;
    Ok ([py "🔹 DOKUMENT-ID: " ++ PyRepr.str id;
         py "   Name: " ++ PyRepr.str (Py.get d (py "name") id);
         py "   Status: "
         ++ PyRepr.str (Py.get d (py "status") (PyStr (py "Unknown")));
         py "   Chunks: " ++ PyRepr.str (Py.get d (py "chunk_count") (PyInt 0));
         py "   Datum: "
         ++ PyRepr.str (Py.get d (py "date") (PyStr (py "Unbekannt")));
         py "   Zusammenfassung: " ++ PyRepr.str cut
         ++ (if (200 <? n)%nat then py "..." else [])]
        ++ (if Py.truthy (Py.get_none d (py "additional_info"))
            then [py "   Zusätzliche Info: "
                  ++ PyRepr.str (Py.get_none d (py "additional_info"))]
            else [])
        ++ [[]])
  | v => Raise (no_str_key v)
  end.

Definition no_documents_in_namespace : pystr :=
  py "KEINE DOKUMENTE: In diesem Namespace sind aktuell keine Dokumente verfügbar.".

(** The body of the [try] of [document_overview_tool]. *)
Definition overview_of (summary_data : pydict) : result pystr :=
  status ← item summary_data "status";
  if negb (PyRepr.atom_eq status Store.success) then
    Ok (py "FEHLER: "
        ++ PyRepr.str
             (Py.get summary_data (py "message")
                (PyStr (py "Unbekannter Fehler beim Abrufen der Dokumentübersicht"))))
  else
    count ← item summary_data "document_count";
    if PyRepr.atom_eq count (PyInt 0) then Ok no_documents_in_namespace
    else
      documents ← item summary_data "documents";
      docs ← Search.iter_items documents;
      lines ← extend doc_info docs;
      Ok (join [LF]
            ([py "📚 DOKUMENTÜBERSICHT (" ++ PyRepr.str count
              ++ py " Dokumente verfügbar):";
              replicate 60 61%N]
             ++ lines
             ++ [py "💡 Verwende das 'PDF Search Tool' mit spezifischen Dokument-IDs für detaillierte Suchen!"])).

(** [document_overview_tool()] of the agent of [namespace] *)
Definition document_overview_tool (firebase_available : bool) (db : Store.Db)
    (namespace : pystr) : pystr :=
  try_except
    (overview_of (Store.get_namespace_summary firebase_available db namespace))
    (fun e => py "FEHLER beim Abrufen der Dokumentübersicht: " ++ exn_str e).

(** [a + b] for the cut summary and the string that follows it. *)
Definition add_str (a : PyVal) (b : pystr) : result pystr :=
  match a with
  | PyStr s => Ok (s ++ b)
  | PyList _ =>
    Raise (Exn TypeError
             (Answer.pyq "can only concatenate list (not `str`) to list"))
  | v => Raise (Exn TypeError
           (py "unsupported operand type(s) for +: '" ++ Py.type_name v
            ++ py "' and 'str'"))
  end.

(** The line of one document in the overview for the prompt. *)
Definition prompt_line (doc : PyVal) : result (list pystr) :=
  match doc with
  | PyDict d =>
    summary ← item d "summary";
    cut ← slice_to summary 150;
    n ← len summary;
    doc_summary ← add_str cut (if (150 <? n)%nat then py "..." else []);
    id ← item d "id";
    Ok [py "• ID: " ++ PyRepr.str id ++ py " | Name: "
        ++ PyRepr.str (Py.get d (py "name") id) ++ py " | Thema: "
        ++ doc_summary]
  | v => Raise (no_str_key v)
  end.

Definition no_documents_available : pystr :=
  py "KEINE DOKUMENTE VERFÜGBAR - Du hast aktuell keinen Zugang zu Dokumenten in diesem Namespace.".

Definition prompt_tasks : list pystr :=
  [[];
   py "🎯 DEINE AUFGABEN:";
   py "- Beantworte Fragen NUR basierend auf diesen verfügbaren Dokumenten";
   py "- Sage DIREKT wenn du zu einem Thema keine Informationen hast";
   py "- Nutze das Document Overview Tool für allgemeine Übersichten";
   py "- Nutze das PDF Search Tool für spezifische Suchen";
   py "- Sei ehrlich über deine Grenzen - erfinde keine Informationen"].

(** The body of the [try] of [_get_documents_overview_for_prompt]. *)
Definition prompt_overview_of (summary_data : pydict) : result pystr :=
  status ← item summary_data "status";
  if negb (PyRepr.atom_eq status Store.success) then Ok no_documents_available
  else
    count ← item summary_data "document_count";
    if PyRepr.atom_eq count (PyInt 0) then Ok no_documents_available
    else
      documents ← item summary_data "documents";
      docs ← Search.iter_items documents;
      lines ← extend prompt_line docs;
      Ok (join [LF]
            ([py "📚 VERFÜGBARE DOKUMENTE IN DIESEM NAMESPACE ("
              ++ PyRepr.str count ++ py " Dokumente):"]
             ++ lines ++ prompt_tasks)).

(** [AgentProcessor._get_documents_overview_for_prompt] *)
Definition get_documents_overview_for_prompt (firebase_available : bool)
    (db : Store.Db) (namespace : pystr) : pystr :=
  try_except
    (prompt_overview_of
       (Store.get_namespace_summary firebase_available db namespace))
    (fun e => py "FEHLER beim Laden der Dokumentübersicht: " ++ exn_str e).

(** One turn of the loop of [get_documents]: the text of a record, if the
    entry is one. *)
Definition formatted_doc (entry : pystr * PyVal) : option pystr :=
  match entry.2 with
  | PyDict d =>
    if negb (Py.has_key d (py "keywords")) && negb (Py.has_key d (py "summary"))
    then None
    else
      let filename := Py.get d (py "name") (PyStr entry.1) in
      let summary :=
        Py.get d (py "summary") (PyStr (py "Keine Zusammenfassung verfügbar")) in
      let additional_info := Py.get_none d (py "additional_info") in
      Some (py "Document: " ++ PyRepr.str filename ++ py " (ID: " ++ entry.1
            ++ py ")" ++ [LF] ++ py "  Summary: " ++ PyRepr.str summary
            ++ (if Py.truthy additional_info
                then [LF] ++ py "  Beschreibung: " ++ PyRepr.str additional_info
                else []))
  | _ => None
  end.

Definition no_documents_found (namespace : pystr) : pystr :=
  py "No documents found in namespace " ++ namespace.

(** [AgentProcessor.get_documents] *)
Definition get_documents (firebase_available : bool) (db : Store.Db)
    (namespace : pystr) : pystr :=
  try_except
    (if negb firebase_available then Ok (py "Firebase not available.")
     else
       let firebase_result := Store.get_namespace_data db namespace in
       if negb (Store.status_is_success firebase_result)
          || negb (Py.truthy (Py.get_none firebase_result (py "data")))
       then Ok (no_documents_found namespace)
       else
         namespace_data ← item firebase_result "data";
         match namespace_data with
         | PyDict items =>
           let formatted_docs := omap formatted_doc items in
           Ok (match formatted_docs with
               | [] => no_documents_found namespace
               | _ => join [LF; LF] formatted_docs
               end)
         | v => Raise (Store.no_attribute v "items")
         end)
    (fun e => py "Error getting documents: " ++ exn_str e).

End Overview.

(** The store does not deliver the data of the namespace: the read raises
    or gives nothing. *)
Definition nothing_read (db : Store.Db) (namespace : pystr) : Prop :=
  (exists e, Store.db_get db (py "files/" ++ namespace) = Raise e)
  \/ (exists v, Store.db_get db (py "files/" ++ namespace) = Ok v
                /\ Py.truthy v = false).

(** Every summary stored with a record of the namespace is a string. *)
Definition textual_summaries (namespace_data : pydict) : Prop :=
  forall k d s, In (k, PyDict d) namespace_data ->
    Py.lookup d (py "summary") = Some s -> Py.is_str s = true.

(** The line of the prompt overview for the document [k]: its ID, a name
    and a topic of at most 150 characters and the dots. *)
Definition prompt_entry (k : pystr) (line : pystr) : Prop :=
  exists name topic,
    line = py "• ID: " ++ k ++ py " | Name: " ++ name ++ py " | Thema: " ++ topic
    /\ length topic <= 153.

(** The first line of the prompt overview for [n] documents. *)
Definition prompt_header (n : nat) : pystr :=
  py "📚 VERFÜGBARE DOKUMENTE IN DIESEM NAMESPACE ("
  ++ PyStr.of_Z (Z.of_nat n) ++ py " Dokumente):".

(** ** Example questions: [generate_example_questions] *)

Module Questions.
Import PyStr.

(** [self._llm.invoke(prompt).content]: the content of the model's reply
    to a prompt; the call may raise. *)
Record World := {
  llm_content : pystr -> result PyVal
}.











End Questions.


(** ** Storing the example questions:
    [generate_and_store_example_questions] *)

Module Examples.
Import PyStr.

(** [reference(path).set(value)] of the Firebase database, which may
    raise. *)
Record Writer := {
  db_set : pystr -> PyVal -> result unit
}.

(** What leaves the process: a write to the database, a prompt sent to
    the model, a call of [answer_question]'s collaborators. *)
Inductive event :=
| Wrote (path : pystr) (value : PyVal)
| Asked (prompt : pystr)
| Agent (c : Answer.call).

Definition example_questions_path (namespace : pystr) : pystr :=
  py "/files/" ++ namespace ++ py "/example_questions".

Definition status_path (namespace : pystr) : pystr :=
  py "/files/" ++ namespace ++ py "/example_questions/status".

(** The record [set_example_questions] writes. *)
Definition questions_record (questions_and_answers : PyVal) : PyVal :=
  PyDict (Py.dict_of
    [(py "questions_and_answers", questions_and_answers);
     (py "timestamp",
      PyDict (Py.dict_of [(py "serverValue", PyStr (py "timestamp"))]));
     (py "status", PyStr (py "completed"))]).

(** [FirebaseConnection.set_example_questions] *)
Definition set_example_questions (wr : Writer) (namespace : pystr)
    (questions_and_answers : PyVal) : pydict * list event :=
  (try_except
     (_ ← db_set wr (example_questions_path namespace)
            (questions_record questions_and_answers);
      Ok (Py.dict_of
            [(py "status", Store.success);
             (py "message", PyStr (py "Example questions saved successfully"))]))
     (fun e => Py.dict_of
        [(py "status", PyStr (py "error"));
         (py "message",
          PyStr (py "Error saving example questions: " ++ exn_str e))]),
   [Wrote (example_questions_path namespace)
      (questions_record questions_and_answers)]).





End Examples.



(** A database whose writes succeed. *)
Definition writable : Examples.Writer :=
  {| Examples.db_set := fun _ _ => Ok tt |}.

(** ** Serving the example questions: the endpoint
    [get_example_questions] and the reads of [FirebaseConnection] *)

Module Serving.
Import PyStr.

(** [FirebaseConnection.get_example_questions] *)
Definition get_example_questions (db : Store.Db) (namespace : pystr) : pydict :=
  try_except
    (data ← Store.db_get db (Examples.example_questions_path namespace);
     if Py.truthy data then
       match data with
       | PyDict d =>
         Ok (Py.dict_of
               [(py "status", Store.success);
                (py "data", Py.get d (py "questions_and_answers") (PyList []));
                (py "timestamp", Py.get_none d (py "timestamp"));
                (py "generation_status",
                 Py.get d (py "status") (PyStr (py "unknown")))])
       | v => Raise (Store.no_attribute v "get")
       end
     else Ok (Py.dict_of
                [(py "status", PyStr (py "not_found"));
                 (py "message", PyStr (py "No example questions found"))]))
    (fun e => Py.dict_of
       [(py "status", PyStr (py "error"));
        (py "message",
         PyStr (py "Error getting example questions: " ++ exn_str e))]).

(** [FirebaseConnection.get_example_questions_status] *)
Definition get_example_questions_status (db : Store.Db) (namespace : pystr)
    : pydict :=
  try_except
    (status ← Store.db_get db (Examples.status_path namespace);
     Ok (Py.dict_of
           [(py "status", Store.success);
            (py "generation_status",
             if Py.truthy status then status else PyStr (py "not_found"))]))
    (fun e => Py.dict_of
       [(py "status", PyStr (py "error"));
        (py "message", PyStr (py "Error getting status: " ++ exn_str e))]).

(** The endpoint [get_example_questions(namespace)] of [main.py];
    [connection] is the outcome of [FirebaseConnection()]. *)
Definition get_example_questions_endpoint (connection : result Store.Db)
    (namespace : PyVal) : pydict :=
  if Answer.invalid_text namespace then
    Py.dict_of [(py "status", PyStr (py "error"));
                (py "message", PyStr (py "Namespace must be a non-empty string"))]
  else
    let ns := PyRepr.str namespace in
    match connection with
    | Raise e =>
      Py.dict_of
        [(py "status", PyStr (py "error"));
         (py "message", PyStr (py "Firebase connection failed: " ++ exn_str e))]
    | Ok firebase_conn =>
      try_except
        (let status_result := get_example_questions_status firebase_conn ns in
         status ← Overview.item status_result "status";
         if PyRepr.atom_eq status Store.success then
           generation_status ← Overview.item status_result "generation_status";
           if PyRepr.atom_eq generation_status (PyStr (py "generating")) then
             Ok (Py.dict_of
                   [(py "status", PyStr (py "generating"));
                    (py "message", PyStr (py "Fragen werden generiert"))])
           else if PyRepr.atom_eq generation_status (PyStr (py "error")) then
             Ok (Py.dict_of
                   [(py "status", PyStr (py "error"));
                    (py "message",
                     PyStr (py "Fehler bei der Fragengenerierung"))])
           else if PyRepr.atom_eq generation_status (PyStr (py "completed"))
           then
             let questions_result := get_example_questions firebase_conn ns in
             qstatus ← Overview.item questions_result "status";
             if PyRepr.atom_eq qstatus Store.success then
               data ← Overview.item questions_result "data";
               Ok (Py.dict_of [(py "status", Store.success); (py "data", data)])
             else
               message ← Overview.item questions_result "message";
               Ok (Py.dict_of
                     [(py "status", PyStr (py "error")); (py "message", message)])
           else
             Ok (Py.dict_of
                   [(py "status", PyStr (py "not_found"));
                    (py "message",
                     PyStr (py "Keine Beispielfragen gefunden. Fragen werden automatisch generiert, wenn Dokumente hochgeladen werden."))])
         else
           message ← Overview.item status_result "message";
           Ok (Py.dict_of
                 [(py "status", PyStr (py "error"));
                  (py "message",
                   PyStr (py "Error checking status: " ++ PyRepr.str message))]))
        (fun e => Py.dict_of
           [(py "status", PyStr (py "error"));
            (py "message",
             PyStr (py "Error getting example questions: " ++ exn_str e))])
    end.

End Serving.

(** A database that holds [record] as the example questions of
    [namespace], and the [status] of the record as the child below it. *)
Definition db_with_examples (namespace : pystr) (record : PyVal) : Store.Db :=
  {| Store.db_get := fun path =>
       if bool_decide (path = Examples.example_questions_path namespace)
       then Ok record
       else if bool_decide (path = Examples.status_path namespace)
       then Ok (reply_field record "status")
       else Ok PyNone;
     Store.db_delete := fun _ => Ok tt |}.

(** ** Task status: [_handle_task_state] and [get_task_status] *)

Module Tasks.
Import PyStr.

(** What [task.info] and [task.result] hold: a value or an exception. *)
Inductive outcome :=
| Value (v : PyVal)
| Failure (e : exn).

(** The attributes of a Celery [AsyncResult] the code reads. *)
Record Task := {
  task_state : pystr;
  task_info : outcome;
  task_result : outcome
}.

(** How a call ends: it returns a dict, raises [HTTPException] or raises
    another exception. *)
Inductive response :=
| Returned (d : pydict)
| HTTPException (status_code : Z) (detail : PyVal)
| Raised (e : exn).

(** [x if isinstance(x, dict) else {}] *)
Definition dict_or_empty (x : outcome) : pydict :=
  match x with
  | Value (PyDict d) => d
  | _ => []
  end.

(** [bool(x)], [type(x).__name__] and [str(x)] *)
Definition outcome_truthy (x : outcome) : bool :=
  match x with
  | Value v => Py.truthy v
  | Failure _ => true
  end.

Definition outcome_type_name (x : outcome) : pystr :=
  match x with
  | Value v => Py.type_name v
  | Failure e => class_name (exn_cls e)
  end.

Definition outcome_str (x : outcome) : pystr :=
  match x with
  | Value v => PyRepr.str v
  | Failure e => exn_str e
  end.

(** [result.get(k, {}).get('status', 'unknown')] *)
Definition nested_status (result : pydict) (k : string) : response + PyVal :=
  match Py.get result (py k) (PyDict []) with
  | PyDict d => inr (Py.get d (py "status") (PyStr (py "unknown")))
  | v => inl (Raised (Store.no_attribute v "get"))
  end.

(** [_handle_task_state(task)] *)
Definition handle_task_state (task : Task) : response :=
  let state := task_state task in
  if eqb state (py "PENDING") then
    Returned (Py.dict_of
      [(py "state", PyStr state);
       (py "status", PyStr (py "PENDING"));
       (py "message", PyStr (py "Task is waiting for execution"));
       (py "progress", PyInt 0)])
  else if eqb state (py "STARTED") || eqb state (py "PROCESSING") then
    let meta := dict_or_empty (task_info task) in
    Returned (Py.dict_of
      [(py "state", PyStr state);
       (py "status", PyStr (py "PROCESSING"));
       (py "message",
        Py.get meta (py "status") (PyStr (py "Processing with agents")));
       (py "current", Py.get meta (py "current") (PyInt 0));
       (py "total", Py.get meta (py "total") (PyInt 100));
       (py "progress", Py.get meta (py "current") (PyInt 0));
       (py "file", Py.get meta (py "file") (PyStr []))])
  else if eqb state (py "FAILURE") || eqb state (py "REVOKED") then
    let error_info :=
      match task_info task with
      | Failure e =>
        Py.dict_of
          [(py "type", PyStr (class_name (exn_cls e)));
           (py "message", PyStr (exn_str e));
           (py "details", PyStr (py "Task failed with an exception"))]
      | info =>
        let meta := dict_or_empty info in
        let result := task_result task in
        Py.dict_of
          [(py "type",
            Py.get meta (py "exc_type")
              (PyStr (if outcome_truthy result then outcome_type_name result
                      else py "Unknown")));
           (py "message",
            Py.get meta (py "exc_message")
              (PyStr (if outcome_truthy result then outcome_str result
                      else py "Unknown error")));
           (py "details",
            Py.get meta (py "error")
              (PyStr (py "No additional details available")))]
      end in
    HTTPException 500
      (PyDict (Py.dict_of
         [(py "state", PyStr state);
          (py "status", PyStr (py "FAILURE"));
          (py "message", PyStr (py "Task processing failed"));
          (py "error", PyDict error_info);
          (py "progress", PyInt 0)]))
  else if eqb state (py "SUCCESS") then
    let result := dict_or_empty (task_result task) in
    if negb (Py.truthy (PyDict result)) then
      Returned (Py.dict_of
        [(py "state", PyStr state);
         (py "status", PyStr (py "SUCCESS"));
         (py "message", PyStr (py "Task completed but no result available"));
         (py "progress", PyInt 100);
         (py "result",
          PyDict (Py.dict_of
            [(py "message", PyStr (py "No result data available"));
             (py "chunks", PyInt 0);
             (py "agent_status", PyStr (py "unknown"));
             (py "firebase_status", PyStr (py "unknown"));
             (py "file", PyStr [])]))])
    else
      match nested_status result "pinecone_result" with
      | inl r => r
      | inr pinecone_status =>
        match nested_status result "firebase_result" with
        | inl r => r
        | inr firebase_status =>
          Returned (Py.dict_of
            [(py "state", PyStr state);
             (py "status", PyStr (py "SUCCESS"));
             (py "message", PyStr (py "Completed successfully - Agent ready"));
             (py "progress", PyInt 100);
             (py "result",
              PyDict (Py.dict_of
                [(py "message",
                  Py.get result (py "message") (PyStr (py "Task completed")));
                 (py "chunks", Py.get result (py "chunks") (PyInt 0));
                 (py "pinecone_status", pinecone_status);
                 (py "firebase_status", firebase_status);
                 (py "file", Py.get result (py "file") (PyStr []))]))])
        end
      end
  else
    Returned (Py.dict_of
      [(py "state", PyStr state);
       (py "status", PyStr (py "UNKNOWN"));
       (py "message", PyStr (py "Unknown state: " ++ state));
       (py "info",
        PyStr (if outcome_truthy (task_info task)
               then outcome_str (task_info task)
               else py "No info available"));
       (py "progress", PyInt 0)]).

(** [get_task_status(task_id)]: [found] is the outcome of
    [celery.AsyncResult(task_id)], and [http_str code detail] is
    [str(HTTPException(status_code=code, detail=detail))], which is
    Starlette's. The handler catches [HTTPException] too, it is an
    [Exception]. *)
Definition get_task_status (http_str : Z -> PyVal -> pystr)
    (found : result Task) : response :=
  match found with
  | Raise e => HTTPException 500 (PyStr (exn_str e))
  | Ok task =>
    match handle_task_state task with
    | Returned d => Returned d
    | HTTPException code detail =>
      HTTPException 500 (PyStr (http_str code detail))
    | Raised e => HTTPException 500 (PyStr (exn_str e))
    end
  end.

End Tasks.

(** The states [_handle_task_state] names, with the status it reports. *)
Definition reported_status (state : pystr) : pystr :=
  if PyStr.eqb state (py "PENDING") then py "PENDING"
  else if PyStr.eqb state (py "STARTED") || PyStr.eqb state (py "PROCESSING")
  then py "PROCESSING"
  else if PyStr.eqb state (py "FAILURE") || PyStr.eqb state (py "REVOKED")
  then py "FAILURE"
  else if PyStr.eqb state (py "SUCCESS") then py "SUCCESS"
  else py "UNKNOWN".

(** A task is failed when its state is FAILURE or REVOKED. *)
Definition failed_state (state : pystr) : bool :=
  PyStr.eqb state (py "FAILURE") || PyStr.eqb state (py "REVOKED").

(** Starlette's rendering of an [HTTPException]: the code, a colon and the
    detail. *)
Definition starlette_str (code : Z) (detail : PyVal) : pystr :=
  PyStr.of_Z code ++ py ": " ++ PyRepr.str detail.

(** ** The upload endpoint: [upload_file] *)

Module Upload.
Import PyStr.

(** [s.endswith(suffix)] *)
Definition endswith (suffix s : pystr) : bool :=
  startswith (rev suffix) (rev s).

(** The [delay] calls the endpoint makes, in their order. *)
Inductive queued :=
| ProcessDocument (namespace fileID filename hasTablesOrGraphics : pystr)
    (special_pages : list Z)
| GenerateExampleQuestions (namespace : pystr).

(** What the endpoint calls: [await file.read()], and the two [delay]
    calls of the Celery tasks; [delay_process] gives the [id] of the task.
    Each may raise. *)
Record World := {
  read : result unit;
  delay_process : queued -> result PyVal;
  delay_questions : pystr -> result unit
}.

(** The list comprehension over [numberPages.split(',')]: blank pieces
    are skipped, the others are read by [int]. *)
Fixpoint pages_of (pieces : list pystr) : result (list Z) :=
  match pieces with
  | [] => Ok []
  | page :: rest =>
    if Py.truthy (PyStr (strip page)) then
      n ← PyRepr.int_of_str (strip page);
      more ← pages_of rest;
      Ok (n :: more)
    else pages_of rest
  end.

(** [special_pages] from the form field [numberPages], which is a string
    or missing. *)
Definition special_pages_of (numberPages : option pystr) : result (list Z) :=
  match numberPages with
  | Some s => if Py.truthy (PyStr s) then pages_of (split COMMA s) else Ok []
  | None => Ok []
  end.

Definition filename_value (filename : option pystr) : PyVal :=
  match filename with
  | Some s => PyStr s
  | None => PyNone
  end.

(** [upload_file(file, namespace, fileID, additionalInfo,
    hasTablesOrGraphics, numberPages)]: the dict returned and the [delay]
    calls made. [filename] is [file.filename], a string or [None]. *)
Definition upload_file (w : World) (filename : option pystr)
    (namespace fileID hasTablesOrGraphics : pystr)
    (numberPages : option pystr) : pydict * list queued :=
  let failed (e : exn) (tasks : list queued) :=
    (Py.dict_of
       [(py "status", PyStr (py "error"));
        (py "message", PyStr (py "Error processing file: " ++ exn_str e));
        (py "filename", filename_value filename)],
     tasks) in
  match filename with
  | None => failed (Store.no_attribute PyNone "lower") []
  | Some name =>
    if negb (endswith (py ".pdf") (lower name)) then
      (Py.dict_of
         [(py "status", PyStr (py "error"));
          (py "message", PyStr (py "Only PDF files are supported"));
          (py "filename", PyStr name)],
       [])
    else
      match read w with
      | Raise e => failed e []
      | Ok _ =>
        match special_pages_of numberPages with
        | Raise e =>
          match exn_cls e with
          | ValueError =>
            (Py.dict_of
               [(py "status", PyStr (py "error"));
                (py "message",
                 PyStr (py "numberPages must be a comma-separated list of integers"));
                (py "filename", PyStr name)],
             [])
          | _ => failed e []
          end
        | Ok special_pages =>
          let task :=
            ProcessDocument namespace fileID name hasTablesOrGraphics
              special_pages in
          match delay_process w task with
          | Raise e => failed e [task]
          | Ok task_id =>
            match delay_questions w namespace with
            | Raise e => failed e [task; GenerateExampleQuestions namespace]
            | Ok _ =>
              (Py.dict_of
                 [(py "status", Store.success);
                  (py "message",
                   PyStr (py "File upload started - will be processed with CrewAI agents"));
                  (py "task_id", task_id);
                  (py "filename", PyStr name);
                  (py "special_pages", PyList (PyInt <$> special_pages))],
               [task; GenerateExampleQuestions namespace])
            end
          end
        end
      end
  end.

End Upload.

(** A worker that accepts every task and names the processing task
    [task_id]. *)
Definition accepting_worker (task_id : pystr) : Upload.World :=
  {| Upload.read := Ok tt;
     Upload.delay_process := fun _ => Ok (PyStr task_id);
     Upload.delay_questions := fun _ => Ok tt |}.

(** The file name ends in ".pdf", in any case of the letters. *)
Definition pdf_name (filename : option pystr) : Prop :=
  exists name, filename = Some name
               /\ Upload.endswith (py ".pdf") (PyStr.lower name) = true.

(** ** The delete endpoint: [delete_file] *)

Module Deletion.
Import PyStr.

(** The [delay] calls the endpoint makes, in their order. *)
Inductive queued :=
| GenerateAssessment (namespace : pystr)
| GenerateExampleQuestions (namespace : pystr).

(** The two [delay] calls of the Celery tasks; each may raise. *)
Record World := {
  delay_assessment : pystr -> result unit;
  delay_questions : pystr -> result unit
}.

Definition failed (e : exn) : pydict :=
  Py.dict_of
    [(py "status", PyStr (py "error"));
     (py "message", PyStr (py "Error deleting file: " ++ exn_str e))].

(** The statements of either branch of [delete_file]: the two branches
    have the same text. *)
Definition delete_and_queue (w : World) (firebase_available : bool)
    (vector_deleted : result PyVal) (db : Store.Db) (namespace fileID : pystr)
    : pydict * list queued :=
  match Store.delete_document firebase_available vector_deleted db namespace
          fileID with
  | Raise e => (failed e, [])
  | Ok result =>
    match delay_assessment w namespace with
    | Raise e => (failed e, [GenerateAssessment namespace])
    | Ok _ =>
      let calls := [GenerateAssessment namespace;
                    GenerateExampleQuestions namespace] in
      match delay_questions w namespace with
      | Raise e => (failed e, calls)
      | Ok _ =>
        (try_except
           (status ← Overview.item result "status";
            message ← Overview.item result "message";
            Ok (Py.dict_of
                  [(py "status", status); (py "message", message);
                   (py "agent_processor_status", status)]))
           failed,
         calls)
      end
    end
  end.

(** [delete_file(file_name, namespace, fileID, just_firebase)]: the dict
    returned and the [delay] calls made. [vector_deleted] is the outcome of
    [VectorManager.delete_document], as in [delete_document]. *)
Definition delete_file (w : World) (firebase_available : bool)
    (vector_deleted : result PyVal) (db : Store.Db)
    (file_name namespace fileID just_firebase : pystr)
    : pydict * list queued :=
  if eqb (lower just_firebase) (py "true")
  then delete_and_queue w firebase_available vector_deleted db namespace fileID
  else delete_and_queue w firebase_available vector_deleted db namespace fileID.

End Deletion.

(** A worker that accepts both follow-up tasks. *)
Definition accepting_follow_ups : Deletion.World :=
  {| Deletion.delay_assessment := fun _ => Ok tt;
     Deletion.delay_questions := fun _ => Ok tt |}.

(** ** The processing pipeline: [index_document] and
    [process_document_full] *)

Module Pipeline.
Import PyStr.

(** A call of [FirebaseConnection.append_metadata]: the chunk count, the
    summary and the vector IDs, if they were given; the keywords are [[]]
    in every call. *)
Inductive event :=
| AppendMetadata (chunk_count : nat) (summary : PyVal)
    (vector_ids : option PyVal).

(** The collaborators: [DocProcessor.extract_pdf] and
    [process_pdf_content], [VectorManager.index_document], which may
    raise, and [FirebaseConnection.append_metadata], which returns a dict
    and catches its exceptions. The arguments that are passed through
    unchanged (file content, names, flags) are left out. *)
Record World := {
  extract_pdf : result PyVal;
  process_pdf_content : PyVal -> result PyVal;
  vector_index_document : PyVal -> result PyVal;
  append_metadata : event -> PyVal
}.

(** [v[k]] for a string key [k] *)
Definition subscript (v : PyVal) (k : string) : result PyVal :=
  match v with
  | PyDict d => Overview.item d k
  | v => Raise (Overview.no_str_key v)
  end.

(** [v.get(k, dflt)] *)
Definition get_method (v : PyVal) (k : string) (dflt : PyVal) : result PyVal :=
  match v with
  | PyDict d => Ok (Py.get d (py k) dflt)
  | v => Raise (Store.no_attribute v "get")
  end.

(** The arguments of a call of [append_metadata], evaluated in the order
    of the call: [len(processed_pdf["chunks"])], then
    [processed_pdf["summary"]]. *)
Definition metadata_of (processed_pdf : PyVal) (vector_ids : option PyVal)
    : result event :=
  chunks ← subscript processed_pdf "chunks";
  chunk_count ← Overview.len chunks;
  summary ← subscript processed_pdf "summary";
  Ok (AppendMetadata chunk_count summary vector_ids).

(** [AgentProcessor.index_document]: the result, which may be an
    exception, and the calls of [append_metadata] made. *)
Definition index_document (w : World) (firebase_available : bool)
    (processed_pdf : PyVal) : result PyVal * list event :=
  match vector_index_document w processed_pdf with
  | Raise e => (Raise e, [])
  | Ok indexing_result =>
    match subscript indexing_result "status" with
    | Raise e => (Raise e, [])
    | Ok status =>
      if PyRepr.atom_eq status Store.success && firebase_available then
        match (vector_ids ← get_method indexing_result "vector_ids" (PyList []);
               metadata_of processed_pdf (Some vector_ids)) with
        | Raise e => (Raise e, [])
        | Ok call => (Ok indexing_result, [call])
        end
      else (Ok indexing_result, [])
    end
  end.

Definition failed (e : exn) : pydict :=
  Py.dict_of
    [(py "status", PyStr (py "error"));
     (py "message",
      PyStr (py "Error in document processing pipeline: " ++ exn_str e))].

(** The dict an [indexing_result] that is not a success is returned as;
    it is a dict, its [status] was read. *)
Definition as_dict (v : PyVal) : pydict :=
  match v with
  | PyDict d => d
  | _ => []
  end.

(** [AgentProcessor.process_document_full]: the dict returned and the
    calls of [append_metadata] made. *)
Definition process_document_full (w : World) (firebase_available : bool)
    (filename : pystr) : pydict * list event :=
  match extract_pdf w with
  | Raise e => (failed e, [])
  | Ok pdf_data =>
    if negb (Py.truthy pdf_data) then
      (Py.dict_of [(py "status", PyStr (py "error"));
                   (py "message", PyStr (py "Failed to extract PDF content"))],
       [])
    else
      match process_pdf_content w pdf_data with
      | Raise e => (failed e, [])
      | Ok processed_pdf =>
        if negb (Py.truthy processed_pdf) then
          (Py.dict_of
             [(py "status", PyStr (py "error"));
              (py "message", PyStr (py "Failed to process PDF content"))],
           [])
        else
          let indexed := index_document w firebase_available processed_pdf in
          match indexed.1 with
          | Raise e => (failed e, indexed.2)
          | Ok indexing_result =>
            match subscript indexing_result "status" with
            | Raise e => (failed e, indexed.2)
            | Ok status =>
              if negb (PyRepr.atom_eq status Store.success)
              then (as_dict indexing_result, indexed.2)
              else
                let stored :=
                  if firebase_available then
                    call ← metadata_of processed_pdf None;
                    Ok (append_metadata w call, [call])
                  else
                    Ok (PyDict (Py.dict_of
                                  [(py "status", Store.success);
                                   (py "message",
                                    PyStr (py "Firebase not available"))]),
                        []) in
                match stored with
                | Raise e => (failed e, indexed.2)
                | Ok (firebase_result, calls) =>
                  match (chunks ← subscript processed_pdf "chunks";
                         Overview.len chunks) with
                  | Raise e => (failed e, indexed.2 ++ calls)
                  | Ok n =>
                    (Py.dict_of
                       [(py "status", Store.success);
                        (py "message",
                         PyStr (py "Document " ++ filename
                                ++ py " processed successfully"));
                        (py "chunks", PyInt (Z.of_nat n));
                        (py "pinecone_result", indexing_result);
                        (py "firebase_result", firebase_result)],
                     indexed.2 ++ calls)
                  end
                end
            end
          end
      end
  end.

End Pipeline.

(** A world in which extraction, processing and indexing return the
    given values and the metadata store answers [stored]. *)
Definition pipeline_world (pdf_data processed_pdf indexing_result stored : PyVal)
    : Pipeline.World :=
  {| Pipeline.extract_pdf := Ok pdf_data;
     Pipeline.process_pdf_content := fun _ => Ok processed_pdf;
     Pipeline.vector_index_document := fun _ => Ok indexing_result;
     Pipeline.append_metadata := fun _ => stored |}.

(** A processed PDF with two chunks and a summary. *)
Definition sample_processed_pdf : PyVal :=
  PyDict [(py "chunks", PyList [PyStr (py "a"); PyStr (py "b")]);
          (py "summary", PyStr (py "Regelt die Pruefungen."))].

(** ** The status of a document: [update_document_status] *)

Module Status.
Import PyStr.

(** [reference(path).update(value)] of the Firebase database, which may
    raise. *)
Record Writer := {
  db_update : pystr -> PyVal -> result unit
}.

(** The [update] calls made. *)
Inductive event :=
| Updated (path : pystr) (value : PyVal).

(** [existing_data[key] = value] *)
Definition assign (existing_data : PyVal) (key : pystr) (value : PyVal)
    : result PyVal :=
  match existing_data with
  | PyDict d => Ok (PyDict (Py.set_item d key value))
  | PyList _ =>
    Raise (Exn TypeError (py "list indices must be integers or slices, not str"))
  | v => Raise (Exn TypeError
           (py "'" ++ Py.type_name v
            ++ py "' object does not support item assignment"))
  end.

(** The loop over [status_data.items()]. *)
Fixpoint assign_all (existing_data : PyVal) (items : pydict) : result PyVal :=
  match items with
  | [] => Ok existing_data
  | (key, value) :: rest =>
    updated ← assign existing_data key value;
    assign_all updated rest
  end.

(** [FirebaseConnection.update_document_status]: the dict returned and
    the [update] calls made. [apps] tells whether [firebase_admin._apps] is
    non-empty. *)
Definition update_document_status (apps : bool) (db : Store.Db) (wr : Writer)
    (namespace fileID : pystr) (status_data : pydict) : pydict * list event :=
  let path := py "files/" ++ namespace ++ py "/" ++ fileID in
  let failed (e : exn) :=
    Py.dict_of
      [(py "status", PyStr (py "error"));
       (py "message",
        PyStr (py "Error updating document status: " ++ exn_str e))] in
  if negb apps then
    (Py.dict_of [(py "status", PyStr (py "error"));
                 (py "message", PyStr (py "Firebase app not initialized"))],
     [])
  else
    match (data ← Store.db_get db path;
           assign_all (if Py.truthy data then data else PyDict []) status_data)
    with
    | Raise e => (failed e, [])
    | Ok existing_data =>
      (try_except
         (_ ← db_update wr path existing_data;
          Ok (Py.dict_of
                [(py "status", Store.success);
                 (py "message",
                  PyStr (py "Status for " ++ fileID
                         ++ py " successfully updated"));
                 (py "path", PyStr path)]))
         failed,
       [Updated path existing_data])
    end.

End Status.

(** A database whose updates succeed. *)
Definition updatable : Status.Writer :=
  {| Status.db_update := fun _ _ => Ok tt |}.

(** What the store holds for a document: a record, or nothing. *)
Definition stored_record (data : PyVal) : option pydict :=
  match data with
  | PyDict d => Some d
  | _ => if Py.truthy data then None else Some []
  end.

(** * Properties *)

(** ** Strings *)

Lemma lstrip_all_space (s : pystr) :
  Forall (fun c => PyStr.isspace c = true) s -> PyStr.lstrip s = [].
Proof.
  induction 1 as [|c r Hc _ IH]; simpl; [reflexivity|].
  rewrite Hc. exact IH.
Qed.

Lemma lstrip_nil_inv (s : pystr) :
  PyStr.lstrip s = [] -> Forall (fun c => PyStr.isspace c = true) s.
Proof.
  induction s as [|c r IH]; simpl; [constructor|].
  destruct (PyStr.isspace c) eqn:Hc; [|discriminate].
  intros H. constructor; auto.
Qed.

Lemma lstrip_head (s : pystr) :
  match PyStr.lstrip s with
  | [] => True
  | c :: _ => PyStr.isspace c = false
  end.
Proof.
  induction s as [|c r IH]; simpl; [exact I|].
  destruct (PyStr.isspace c) eqn:Hc; [exact IH | exact Hc].
Qed.

Lemma strip_all_space (s : pystr) :
  Forall (fun c => PyStr.isspace c = true) s -> PyStr.strip s = [].
Proof.
  intros H. unfold PyStr.strip, PyStr.rstrip.
  rewrite (lstrip_all_space s H). reflexivity.
Qed.

Lemma strip_nil_inv (s : pystr) :
  PyStr.strip s = [] -> Forall (fun c => PyStr.isspace c = true) s.
Proof.
  unfold PyStr.strip, PyStr.rstrip. intros H.
  apply (f_equal (@rev N)) in H. rewrite rev_involutive in H. simpl in H.
  apply lstrip_nil_inv in H.
  apply Forall_rev in H. rewrite rev_involutive in H.
  pose proof (lstrip_head s) as Hh.
  destruct (PyStr.lstrip s) as [|c r] eqn:E.
  - apply lstrip_nil_inv. exact E.
  - inversion H as [|? ? Hc _]; subst. congruence.
Qed.

Lemma invalid_text_iff (v : PyVal) :
  Answer.invalid_text v = true <-> blank_or_no_text v.
Proof.
  destruct v as [| b | n | f | s | l | d]; simpl;
    try (unfold Answer.invalid_text; simpl;
         rewrite ?orb_true_r; tauto).
  unfold Answer.invalid_text. simpl. split.
  - intros H. apply strip_nil_inv.
    destruct (decide (PyStr.strip s = [])) as [E|E]; [exact E|].
    rewrite (bool_decide_eq_false_2 _ E) in H. simpl in H.
    rewrite orb_false_r in H.
    destruct (decide (s = [])) as [->|Es]; [reflexivity|].
    rewrite (bool_decide_eq_false_2 _ Es) in H. discriminate.
  - intros H. rewrite (strip_all_space s H). simpl.
    apply orb_true_r.
Qed.

(** ** The decoder's fuel *)

Lemma skip_ws_length (s : pystr) (pos : nat) :
  length (Json.skip_ws s pos).1 <= length s.
Proof.
  revert pos. induction s as [|c r IH]; intros pos; simpl; [lia|].
  destruct (Json.is_ws c); simpl; [|lia].
  specialize (IH (S pos)). lia.
Qed.

Lemma hex4_length (s r : pystr) (c : N) :
  Json.hex4 s = Some (c, r) -> length s = 4 + length r.
Proof.
  unfold Json.hex4.
  destruct s as [|a [|b [|x [|d t]]]]; try discriminate.
  destruct (Json.hex_val a), (Json.hex_val b), (Json.hex_val x),
    (Json.hex_val d); try discriminate.
  intros [= _ <-]. reflexivity.
Qed.

Lemma scan_string_within_fuel (fuel : nat) :
  forall begin s pos acc, length s < fuel ->
    within_fuel (Json.scan_string fuel begin s pos acc) s.
Proof.
  induction fuel as [|f IH]; intros begin s pos acc Hlen; [lia|].
  assert (forall s' pos' acc', length s' < length s ->
            within_fuel (Json.scan_string f begin s' pos' acc') s) as Hrec.
  { intros s' pos' acc' Hs'. specialize (IH begin s' pos' acc').
    unfold within_fuel in *.
    destruct (Json.scan_string f begin s' pos' acc'); [|apply IH; lia].
    assert (length rest < length s') by (apply IH; lia). lia. }
  cbn [Json.scan_string].
  destruct s as [|c r]; [simpl; discriminate|].
  destruct (c =? PyStr.DQ)%N; [simpl; lia|].
  destruct (c =? PyStr.BACKSLASH)%N.
  - destruct r as [|e r2]; [simpl; discriminate|].
    destruct (e =? 117)%N.
    + destruct (Json.hex4 r2) as [[c1 r3]|] eqn:E1; [|simpl; discriminate].
      apply hex4_length in E1.
      assert (within_fuel (Json.scan_string f begin r3 (pos + 6) (c1 :: acc))
                (c :: e :: r2)) as Hsingle by (apply Hrec; simpl; lia).
      destruct (Json.is_high_surrogate c1); [|exact Hsingle].
      destruct r3 as [|b2 [|u2 r4]]; try exact Hsingle.
      destruct ((b2 =? PyStr.BACKSLASH)%N && (u2 =? 117)%N); [|exact Hsingle].
      destruct (Json.hex4 r4) as [[c2 r5]|] eqn:E2; [|exact Hsingle].
      apply hex4_length in E2.
      destruct (Json.is_low_surrogate c2); [|exact Hsingle].
      apply Hrec. simpl in *. lia.
    + destruct (Json.escape_char e); [|simpl; discriminate].
      apply Hrec. simpl. lia.
  - destruct (c <=? 31)%N; [simpl; discriminate|].
    apply Hrec. simpl. lia.
Qed.

Lemma take_digits_length (s : pystr) :
  length (Json.take_digits s).2 <= length s.
Proof.
  induction s as [|c r IH]; simpl; [lia|].
  destruct (Json.is_digit c); simpl; [|lia].
  destruct (Json.take_digits r) as [ds rest]. simpl in *. lia.
Qed.

Lemma int_part_length (s ds rest : pystr) :
  Json.int_part s = Some (ds, rest) -> length rest < length s.
Proof.
  unfold Json.int_part. destruct s as [|c r]; [discriminate|].
  destruct (c =? 48)%N; [intros [= _ <-]; simpl; lia|].
  destruct (Json.is_digit c) eqn:Ed; [|discriminate].
  cbn [Json.take_digits]. rewrite Ed.
  pose proof (take_digits_length r) as H.
  destruct (Json.take_digits r) as [ds' rest']. intros [= _ <-].
  simpl in *. lia.
Qed.

Lemma frac_part_length (s : pystr) :
  length (Json.frac_part s).2 <= length s.
Proof.
  unfold Json.frac_part. destruct s as [|c r]; [simpl; lia|].
  destruct (c =? 46)%N; [|simpl; lia].
  pose proof (take_digits_length r) as H.
  destruct (Json.take_digits r) as [[|d ds] rest]; simpl in *; lia.
Qed.

Lemma exp_part_length (s : pystr) :
  length (Json.exp_part s).2 <= length s.
Proof.
  unfold Json.exp_part. destruct s as [|c r]; [simpl; lia|].
  destruct ((c =? 101)%N || (c =? 69)%N); [|simpl; lia].
  destruct r as [|x r'].
  - simpl. lia.
  - destruct (x =? 45)%N.
    + pose proof (take_digits_length r') as Hd.
      destruct (Json.take_digits r') as [[|d ds] rest]; simpl in *; lia.
    + destruct (x =? 43)%N.
      * pose proof (take_digits_length r') as Hd.
        destruct (Json.take_digits r') as [[|d ds] rest]; simpl in *; lia.
      * pose proof (take_digits_length (x :: r')) as Hd.
        destruct (Json.take_digits (x :: r')) as [[|d ds] rest]; simpl in *; lia.
Qed.

Lemma scan_number_within_fuel (s : pystr) (pos : nat) (r : Json.scan PyVal) :
  Json.scan_number s pos = Some r -> within_fuel r s.
Proof.
  unfold Json.scan_number.
  assert (exists neg s1, (match s with
            | c :: r0 => if (c =? 45)%N then (true, r0) else (false, s)
            | [] => (false, s)
            end) = (neg, s1) /\ length s1 <= length s) as (neg & s1 & -> & Hs1).
  { destruct s as [|c r0]; [eauto|].
    destruct (c =? 45)%N; eexists _, _; (split; [reflexivity|]); simpl; lia. }
  destruct (Json.int_part s1) as [[ids s2]|] eqn:Ei; [|discriminate].
  apply int_part_length in Ei.
  pose proof (frac_part_length s2) as Hf.
  destruct (Json.frac_part s2) as [fds s3].
  pose proof (exp_part_length s3) as He.
  destruct (Json.exp_part s3) as [ex s4]. simpl in Hf, He.
  destruct fds as [|fd fds]; [destruct ex as [ex|]|].
  - intros [= <-]. simpl. lia.
  - destruct (PyRepr.max_str_digits <? length ids)%nat; intros [= <-]; simpl.
    + discriminate.
    + lia.
  - intros [= <-]. simpl. lia.
Qed.

Lemma within_fuel_weaken {A} (r : Json.scan A) (s s' : pystr) :
  within_fuel r s -> length s <= length s' -> within_fuel r s'.
Proof. destruct r; simpl; [lia | tauto]. Qed.

Lemma skip_ws_eq_length (s s1 : pystr) (pos p1 : nat) :
  Json.skip_ws s pos = (s1, p1) -> length s1 <= length s.
Proof. intros E. pose proof (skip_ws_length s pos) as H. rewrite E in H. exact H. Qed.

(** The scanner does not run out of fuel when it starts with twice the
    length of the text and one (two for the loops). *)
Lemma scan_within_fuel (fuel : nat) :
  (forall s pos, 2 * length s + 1 <= fuel ->
     within_fuel (Json.scan_once fuel s pos) s)
  /\ (forall s pos acc, 2 * length s + 2 <= fuel ->
        within_fuel (Json.parse_array fuel s pos acc) s)
  /\ (forall s pos acc, 2 * length s + 2 <= fuel ->
        within_fuel (Json.parse_object fuel s pos acc) s).
Proof.
  induction fuel as [|f (IHonce & IHarr & IHobj)];
    [repeat split; intros; lia|].
  split; [|split].
  - intros s pos Hf. cbn [Json.scan_once].
    destruct s as [|c r]; [simpl; discriminate|].
    assert (within_fuel
              (match Json.scan_number (c :: r) pos with
               | Some x => x
               | None => Json.expecting_value pos
               end) (c :: r)) as Hnum.
    { destruct (Json.scan_number (c :: r) pos) eqn:E.
      - apply (scan_number_within_fuel _ _ _ E).
      - simpl. discriminate. }
    assert (forall (w : string) (v : PyVal), 0 < length (py w) ->
      within_fuel
        (if PyStr.startswith (py w) (c :: r)
         then Json.Scanned v (drop (length (py w)) (c :: r)) (pos + length (py w))
         else match Json.scan_number (c :: r) pos with
              | Some x => x
              | None => Json.expecting_value pos
              end) (c :: r)) as Hword.
    { intros w v Hw. destruct (PyStr.startswith (py w) (c :: r)); [|exact Hnum].
      simpl. rewrite length_drop. simpl. lia. }
    destruct (c =? PyStr.DQ)%N.
    { pose proof (scan_string_within_fuel (S (length r)) pos r (S pos) []
                    ltac:(lia)) as Hs.
      destruct (Json.scan_string _ _ _ _ _); simpl in *; [lia | exact Hs]. }
    destruct (c =? PyStr.LBRACE)%N.
    { destruct (Json.skip_ws r (S pos)) as [s1 p1] eqn:E.
      apply skip_ws_eq_length in E.
      assert (within_fuel (Json.parse_object f s1 p1 []) (c :: r)) as Ho.
      { apply (within_fuel_weaken _ s1); [|simpl; lia].
        apply IHobj. simpl in Hf. lia. }
      destruct s1 as [|x r1]; [exact Ho|].
      destruct (x =? PyStr.RBRACE)%N; [simpl in *; lia | exact Ho]. }
    destruct (c =? 91)%N.
    { destruct (Json.skip_ws r (S pos)) as [s1 p1] eqn:E.
      apply skip_ws_eq_length in E.
      assert (within_fuel (Json.parse_array f s1 p1 []) (c :: r)) as Ha.
      { apply (within_fuel_weaken _ s1); [|simpl; lia].
        apply IHarr. simpl in Hf. lia. }
      destruct s1 as [|x r1]; [exact Ha|].
      destruct (x =? 93)%N; [simpl in *; lia | exact Ha]. }
    destruct (c =? 110)%N; [apply Hword; vm_compute; lia|].
    destruct (c =? 116)%N; [apply Hword; vm_compute; lia|].
    destruct (c =? 102)%N; [apply Hword; vm_compute; lia|].
    destruct (c =? 78)%N; [apply Hword; vm_compute; lia|].
    destruct (c =? 73)%N; [apply Hword; vm_compute; lia|].
    destruct (c =? 45)%N; [apply Hword; vm_compute; lia|].
    exact Hnum.
  - intros s pos acc Hf. cbn [Json.parse_array].
    pose proof (IHonce s pos ltac:(lia)) as Hv.
    destruct (Json.scan_once f s pos) as [v rest p|e]; [|exact Hv].
    simpl in Hv.
    destruct (Json.skip_ws rest p) as [s2 p2] eqn:E2.
    apply skip_ws_eq_length in E2.
    destruct s2 as [|x r]; [simpl; discriminate|].
    destruct (x =? 93)%N; [simpl in *; lia|].
    destruct (x =? PyStr.COMMA)%N; [|simpl; discriminate].
    destruct (Json.skip_ws r (S p2)) as [s3 p3] eqn:E3.
    apply skip_ws_eq_length in E3.
    apply (within_fuel_weaken _ s3); [|simpl in *; lia].
    apply IHarr. simpl in *. lia.
  - intros s pos acc Hf. cbn [Json.parse_object].
    destruct s as [|q r]; [simpl; discriminate|].
    destruct (negb (q =? PyStr.DQ)%N); [simpl; discriminate|].
    pose proof (scan_string_within_fuel (S (length r)) pos r (S pos) []
                  ltac:(lia)) as Hs.
    destruct (Json.scan_string _ _ _ _ _) as [key rest p|e]; [|exact Hs].
    simpl in Hs.
    destruct (Json.skip_ws rest p) as [s1 p1] eqn:E1.
    apply skip_ws_eq_length in E1.
    destruct s1 as [|col r1]; [simpl; discriminate|].
    destruct (negb (col =? 58)%N); [simpl; discriminate|].
    destruct (Json.skip_ws r1 (S p1)) as [s2 p2] eqn:E2.
    apply skip_ws_eq_length in E2.
    pose proof (IHonce s2 p2 ltac:(simpl in *; lia)) as Hv.
    destruct (Json.scan_once f s2 p2) as [v rest' p'|e]; [|exact Hv].
    simpl in Hv.
    destruct (Json.skip_ws rest' p') as [s3 p3] eqn:E3.
    apply skip_ws_eq_length in E3.
    destruct s3 as [|x r3]; [simpl; discriminate|].
    destruct (x =? PyStr.RBRACE)%N; [simpl in *; lia|].
    destruct (x =? PyStr.COMMA)%N; [|simpl; discriminate].
    destruct (Json.skip_ws r3 (S p3)) as [s4 p4] eqn:E4.
    apply skip_ws_eq_length in E4.
    apply (within_fuel_weaken _ s4); [|simpl in *; lia].
    apply IHobj. simpl in *. lia.
Qed.

(** [json.loads] as modelled never gives up for lack of fuel. *)
Lemma loads_fuel_suffices (doc : pystr) :
  Json.loads doc
  <> Raise (Exn (OtherException (py "RecursionError"))
              (py "maximum recursion depth exceeded")).
Proof.
  unfold Json.loads.
  destruct (PyStr.startswith _ doc); [discriminate|].
  destruct (Json.skip_ws doc 0) as [s1 p1] eqn:E1.
  apply skip_ws_eq_length in E1.
  pose proof (proj1 (scan_within_fuel (S (2 * length doc))) s1 p1
                ltac:(lia)) as H.
  destruct (Json.scan_once _ s1 p1) as [v rest p|[msg q|e]].
  - destruct (Json.skip_ws rest p) as [[|x s2] p2]; discriminate.
  - discriminate.
  - simpl in H. intros [= ->]. apply H. reflexivity.
Qed.

(** ** The pages patterns *)

Lemma search_atoms_match (p : list Re.atom) (s g : pystr) :
  Re.search_atoms p s = Some g ->
  exists s', Re.match_here p s' false [] = Some g.
Proof.
  induction s as [|c r IH]; simpl.
  - destruct (Re.match_here p [] false []) eqn:E; [|discriminate].
    intros [= <-]. eauto.
  - destruct (Re.match_here p (c :: r) false []) eqn:E.
    + intros [= <-]. eauto.
    + exact IH.
Qed.

(** Character atoms before the group leave the group text untouched. *)
Lemma match_here_prefix (pre rest : list Re.atom) (s g0 g : pystr) :
  Forall is_char_atom pre ->
  Re.match_here (pre ++ rest) s false g0 = Some g ->
  exists s', Re.match_here rest s' false g0 = Some g.
Proof.
  intros Hpre. revert s.
  induction Hpre as [|a pre Ha _ IH]; intros s; simpl; [eauto|].
  destruct a as [c | cs | |]; simpl in Ha; try contradiction;
    destruct s as [|x r]; try discriminate.
  - destruct (x =? c)%N; [apply IH | discriminate].
  - destruct (existsb (N.eqb x) cs); [apply IH | discriminate].
Qed.

(** A group made of one literal and one class holds two characters. *)
Lemma match_here_group (a : N) (cs : list N) (s g : pystr) :
  Re.match_here [Re.GroupOpen; Re.Lit a; Re.Class cs; Re.GroupClose] s false []
    = Some g ->
  exists c, g = [a; c] /\ In c cs.
Proof.
  simpl. destruct s as [|x [|y r]]; try discriminate.
  - destruct (x =? a)%N; discriminate.
  - destruct (x =? a)%N eqn:Ex; [|discriminate].
    destruct (existsb (N.eqb y) cs) eqn:Ey; [|discriminate].
    intros [= <-]. apply N.eqb_eq in Ex. subst x.
    apply existsb_exists in Ey. destruct Ey as [z [Hz Hyz]].
    apply N.eqb_eq in Hyz. subst z. eauto.
Qed.

(** Both patterns of [answer_question] compile, and their group is a
    backslash followed by one of [.], [*], [?] and a backslash. *)
Lemma pattern_group (pattern : pystr) (s : pystr) :
  pattern = Answer.pattern_system_info \/ pattern = Answer.pattern_found_pages ->
  exists m, Re.search_group1 pattern s = Ok m
    /\ forall g, m = Some g ->
         exists c, g = [92; c]%N /\ In c [46; 42; 63; 92]%N.
Proof.
  intros Hp. unfold Re.search_group1.
  assert (exists pre,
    Re.compile pattern
      = Some (pre ++ [Re.GroupOpen; Re.Lit 92; Re.Class [46; 42; 63; 92]%N;
                      Re.GroupClose])
    /\ Forall is_char_atom pre) as [pre [-> Hpre]].
  { destruct Hp as [-> | ->].
    - eexists (_ :: _ :: _ :: _ :: _ :: _ :: _ :: _ :: _ :: _ :: _ :: _ :: _
               :: _ :: _ :: [_]).
      split; [vm_compute; reflexivity | repeat constructor].
    - eexists (_ :: _ :: _ :: _ :: _ :: _ :: _ :: _ :: _ :: _ :: _ :: _ :: [_]).
      split; [vm_compute; reflexivity | repeat constructor]. }
  eexists. split; [reflexivity|].
  intros g Hg. apply search_atoms_match in Hg. destruct Hg as [s' Hg].
  apply match_here_prefix in Hg; [|exact Hpre]. destruct Hg as [s'' Hg].
  apply match_here_group in Hg. exact Hg.
Qed.

(** What a group of the patterns decodes to: never a JSON value. *)
Lemma pages_of_group_backslash (c : N) :
  In c [46; 42; 63; 92]%N -> Answer.pages_of_group [92; c]%N = PyList [].
Proof.
  simpl. intros [<- | [<- | [<- | [<- | []]]]]; vm_compute; reflexivity.
Qed.

(** The pages block yields the empty list on every text. *)
Lemma extract_pages_empty (result_str : pystr) :
  Answer.extract_pages result_str = Ok (PyList []).
Proof.
  unfold Answer.extract_pages.
  destruct (pattern_group Answer.pattern_system_info result_str)
    as [m [E Hm]]; [left; reflexivity|].
  destruct (pattern_group Answer.pattern_found_pages result_str)
    as [m' [E' Hm']]; [right; reflexivity|].
  rewrite E, E'. unfold mbind, result_bind.
  destruct m as [g|].
  - destruct (Hm g eq_refl) as [c [-> Hc]].
    rewrite (pages_of_group_backslash c Hc). reflexivity.
  - destruct m' as [g|]; [|reflexivity].
    destruct (Hm' g eq_refl) as [c [-> Hc]].
    rewrite (pages_of_group_backslash c Hc). reflexivity.
Qed.

(** ** The structured answer *)

Lemma structured_unfold (a i s c u o p : PyVal) :
  Answer.structured a i s c u o p
  = [(py "answer", a); (py "document_ids", i); (py "sources", s);
     (py "confidence_score", c); (py "context_used", u);
     (py "additional_info", o); (py "pages", p)].
Proof. vm_compute. reflexivity. Qed.

Lemma structured_keys (a i s c u o p : PyVal) :
  (Answer.structured a i s c u o p).*1 = seven_fields.
Proof. rewrite structured_unfold. vm_compute. reflexivity. Qed.

Lemma structured_fields (a i s c u o p : PyVal) :
  let d := Answer.structured a i s c u o p in
  field d "answer" = a /\ field d "document_ids" = i /\ field d "sources" = s
  /\ field d "confidence_score" = c /\ field d "context_used" = u
  /\ field d "additional_info" = o /\ field d "pages" = p.
Proof. simpl. rewrite structured_unfold. vm_compute. repeat split. Qed.

Lemma structured_safe (a o : pystr) (c : PyVal) (b : bool) :
  c = Answer.f_zero \/ c = Answer.f_0_7 ->
  safe_defaults
    (Answer.structured (PyStr a) (PyList []) (PyList []) c (PyBool b) (PyStr o)
       (PyList [])).
Proof.
  intros Hc. unfold safe_defaults.
  destruct (structured_fields (PyStr a) (PyList []) (PyList []) c (PyBool b)
              (PyStr o) (PyList [])) as (-> & -> & -> & -> & -> & -> & ->).
  repeat split; eauto.
Qed.

Lemma failure_answer_safe (e : exn) : safe_defaults (Answer.failure_answer e).
Proof. apply structured_safe. left. reflexivity. Qed.

Lemma fallback_safe (s : pystr) (h : bool) (info : pystr) :
  safe_defaults (Answer.fallback s h info).
Proof. apply structured_safe. right. reflexivity. Qed.

(** [d.get(k, dflt)] is [d.get(k)] when the latter is a list. *)
Lemma get_list (d : pydict) (k : pystr) (dflt : PyVal) :
  Py.is_list (Py.get_none d k) = true -> Py.get d k dflt = Py.get_none d k.
Proof.
  unfold Py.get_none, Py.get. destruct (Py.lookup d k); [reflexivity|].
  discriminate.
Qed.

(** The dict of the success branch: typed fields and no pages. *)
Lemma parse_structured_shape (result_str json_str : pystr) (h : bool)
    (d : pydict) :
  Answer.parse_structured result_str json_str h = Ok d ->
  exists a ids srcs f c info,
    d = Answer.structured (PyStr a) (PyList ids) (PyList srcs) (PyFloat f)
          (PyBool c) info (PyList []).
Proof.
  unfold Answer.parse_structured.
  destruct (Json.loads json_str) as [v|e]; [|discriminate].
  unfold mbind at 1, result_bind at 1.
  destruct v as [| | | | | | o]; try discriminate.
  rewrite extract_pages_empty. unfold mbind at 1, result_bind at 1.
  set (conf := if Py.is_number _ then _ else _).
  assert (forall x, conf = Ok x -> exists f, x = PyFloat f) as Hconf.
  { subst conf. intros x.
    destruct (Py.is_number _).
    - destruct (PyRepr.float_of_number _) as [f|e]; [|discriminate].
      intros [= <-]. eauto.
    - intros [= <-]. eexists. reflexivity. }
  destruct conf as [x|e]; [|discriminate].
  destruct (Hconf x eq_refl) as [f ->].
  unfold mbind, result_bind. intros [= <-].
  assert (forall k, exists l,
    (if Py.is_list (Py.get_none o k) then Py.get o k (PyList []) else PyList [])
    = PyList l) as Hlist.
  { intros k. destruct (Py.is_list (Py.get_none o k)) eqn:E; [|eauto].
    rewrite (get_list _ _ _ E). destruct (Py.get_none o k); try discriminate.
    eauto. }
  destruct (Hlist (py "document_ids")) as [ids ->].
  destruct (Hlist (py "sources")) as [srcs ->].
  eauto 10.
Qed.

(** The extractor returns the dict of the success branch or a fallback. *)
Lemma extract_structured_cases (h : bool) (result_str : pystr) :
  (exists json_str,
     Answer.parse_structured result_str json_str h
       = Ok (Answer.extract_structured h result_str))
  \/ exists info,
       Answer.extract_structured h result_str = Answer.fallback result_str h info.
Proof.
  unfold Answer.extract_structured.
  destruct (negb _ && negb _); [|right; eauto].
  destruct (Answer.parse_structured _ _ _) as [d|e] eqn:E.
  - left. eauto.
  - right. destruct (exn_cls e); eauto.
Qed.

(** The five ways [answer_question] returns. *)
Lemma answer_question_cases (w : Answer.World)
    (question namespace chat_history : PyVal) :
  let d := (Answer.answer_question w question namespace chat_history).1 in
  d = Answer.invalid_question_answer
  \/ d = Answer.invalid_namespace_answer
  \/ (exists e, d = Answer.failure_answer e)
  \/ exists description result_str has_history,
       Answer.kickoff w description = Ok result_str
       /\ d = Answer.extract_structured has_history result_str.
Proof.
  unfold Answer.answer_question.
  destruct (Answer.invalid_text question); [left; reflexivity|].
  destruct (Answer.invalid_text namespace); [right; left; reflexivity|].
  destruct (Answer.setup_agent w _) as [[]|e]; [|right; right; left; simpl; eauto].
  destruct (Answer.has_history_of chat_history) as [h|e];
    [|right; right; left; simpl; eauto].
  unfold mbind, result_bind.
  assert (exists r, (if h then Answer.chat_context_of chat_history else Ok [])
                    = r) as [r ->] by eauto.
  destruct r as [ctx|e]; [|right; right; left; simpl; eauto].
  destruct (Answer.kickoff w _) as [result_str|e] eqn:E;
    [|right; right; left; simpl; eauto].
  right; right; right. simpl. eauto.
Qed.

Lemma find_from_absent (c : N) (s : pystr) (i : Z) :
  ~ In c s -> PyStr.find_from c s i = (-1)%Z.
Proof.
  revert i. induction s as [|x r IH]; intros i Hn; simpl; [reflexivity|].
  destruct (x =? c)%N eqn:E.
  - apply N.eqb_eq in E. subst x. exfalso. apply Hn. left. reflexivity.
  - apply IH. intros H. apply Hn. right. exact H.
Qed.

(** Without an opening brace the extractor gives the fallback that says
    so. *)
Lemma no_opening_brace_fallback (h : bool) (result_str : pystr) :
  ~ In PyStr.LBRACE result_str ->
  Answer.extract_structured h result_str
  = Answer.fallback result_str h Answer.no_json_info.
Proof.
  intros Hn. unfold Answer.extract_structured, PyStr.find.
  rewrite (find_from_absent _ _ _ Hn). reflexivity.
Qed.

(** The pages of every answer are the empty list. *)
Lemma answer_pages_empty (w : Answer.World)
    (question namespace chat_history : PyVal) :
  field (Answer.answer_question w question namespace chat_history).1 "pages"
  = PyList [].
Proof.
  pose proof (answer_question_cases w question namespace chat_history) as H.
  simpl in H.
  destruct H as [-> | [-> | [[e ->] | (desc & s & h & _ & ->)]]];
    try apply structured_fields.
  destruct (extract_structured_cases h s) as [[j Hj] | [info ->]].
  - apply parse_structured_shape in Hj.
    destruct Hj as (a & ids & srcs & f & c & info & ->).
    apply structured_fields.
  - apply structured_fields.
Qed.

(** An exception of the agent set-up is turned into an answer. *)
Lemma setup_failure_is_answered (w : Answer.World)
    (question namespace chat_history : PyVal) (e : exn) :
  Answer.invalid_text question = false ->
  Answer.invalid_text namespace = false ->
  Answer.setup_agent w (PyRepr.str namespace) = Raise e ->
  Answer.answer_question w question namespace chat_history
  = (Answer.failure_answer e, [Answer.CallSetupAgent (PyRepr.str namespace)]).
Proof.
  intros Hq Hn He. unfold Answer.answer_question.
  rewrite Hq, Hn, He. reflexivity.
Qed.

(** C1: for every question, namespace, chat history and every behaviour of
    the collaborators (agent set-up and crew run, returning any text or
    raising), [answer_question] returns a dict whose keys are exactly the
    seven fields of the Structured Answer; the dict is either the one built
    from the JSON of the reply, or it holds the safe defaults of a failure
    branch. No exception leaves the function: its result is a dict in every
    case. *)
Theorem answer_question_always_structured (w : Answer.World)
    (question namespace chat_history : PyVal) :
  let d := (Answer.answer_question w question namespace chat_history).1 in
  d.*1 = seven_fields /\ (answered_from_json w d \/ safe_defaults d).
Proof.
  pose proof (answer_question_cases w question namespace chat_history) as H.
  simpl in *.
  destruct H as [-> | [-> | [[e ->] | (desc & s & h & Hk & ->)]]].
  - split; [apply structured_keys|]. right. apply structured_safe. tauto.
  - split; [apply structured_keys|]. right. apply structured_safe. tauto.
  - split; [apply structured_keys|]. right. apply failure_answer_safe.
  - destruct (extract_structured_cases h s) as [[j Hj] | [info ->]].
    + split.
      * destruct (parse_structured_shape _ _ _ _ Hj)
          as (a & ids & srcs & f & c & info & ->).
        apply structured_keys.
      * left. exists desc, s, j, h. split; assumption.
    + split; [apply structured_keys|]. right. apply fallback_safe.
Qed.

(** C5: a question that is no string, empty or whitespace only, and
    likewise such a namespace, is answered with confidence 0.0, an answer
    that names the invalid input, no document IDs, sources or pages, and
    without any call to the agent set-up or the crew. *)
Theorem invalid_input_is_rejected_before_any_call (w : Answer.World)
    (question namespace chat_history : PyVal) :
  blank_or_no_text question \/ blank_or_no_text namespace ->
  let r := Answer.answer_question w question namespace chat_history in
  r.2 = []
  /\ (field r.1 "answer" = PyStr (py "Ungültige Frage")
      \/ field r.1 "answer" = PyStr (py "Ungültiger Namespace"))
  /\ field r.1 "confidence_score" = PyFloat (FDec 0 0)
  /\ field r.1 "document_ids" = PyList []
  /\ field r.1 "sources" = PyList []
  /\ field r.1 "pages" = PyList [].
Proof.
  intros H. simpl. unfold Answer.answer_question.
  destruct (Answer.invalid_text question) eqn:Eq.
  - simpl. unfold Answer.invalid_question_answer.
    rewrite structured_unfold. vm_compute. tauto.
  - destruct H as [H | H].
    + apply invalid_text_iff in H. congruence.
    + apply invalid_text_iff in H. rewrite H. simpl.
      unfold Answer.invalid_namespace_answer.
      rewrite structured_unfold. vm_compute. tauto.
Qed.

Lemma invalid_input_is_rejected_witness :
  let r := Answer.answer_question (replying no_braces_reply)
             (PyStr (py "   ")) (PyStr (py "kurs-a")) PyNone in
  r.2 = []
  /\ (field r.1 "answer" = PyStr (py "Ungültige Frage")
      \/ field r.1 "answer" = PyStr (py "Ungültiger Namespace"))
  /\ field r.1 "confidence_score" = PyFloat (FDec 0 0)
  /\ field r.1 "document_ids" = PyList []
  /\ field r.1 "sources" = PyList []
  /\ field r.1 "pages" = PyList [].
Proof.
  apply (invalid_input_is_rejected_before_any_call (replying no_braces_reply)
           (PyStr (py "   ")) (PyStr (py "kurs-a")) PyNone).
  left. vm_compute. repeat constructor.
Defined.

(** C7: for every run of [answer_question] and every run of the search
    tool's loop over retrieved fragments, the pages of the returned answer
    are a strictly ascending list of integers, each of which is in the
    sorted page list the tool emits in its FOUND_PAGES line. *)
Theorem answer_pages_within_found_pages (w : Answer.World)
    (question namespace chat_history : PyVal)
    (sw : Search.World) (docs : list Search.Doc) :
  exists pages : list Z,
    field (Answer.answer_question w question namespace chat_history).1 "pages"
    = PyList (PyInt <$> pages)
    /\ StronglySorted Z.lt pages
    /\ pages ⊆ Search.pages_sorted (Search.run sw docs).
Proof.
  exists []. split; [apply answer_pages_empty|]. split; [constructor|].
  intros p Hp. apply elem_of_nil in Hp. contradiction.
Qed.

(** C2 (the code at the failing input): the reply is valid JSON followed by
    the line [[SYSTEM_INFO] FOUND_PAGES: [4]]; the answer is built from the
    JSON, and its pages are the empty list, not [[4]]. *)
Theorem echoed_pages_marker_is_not_recovered :
  let d := (Answer.answer_question (replying echoed_marker_reply)
              (PyStr (py "Wann endet die Frist?")) (PyStr (py "kurs-a"))
              PyNone).1 in
  field d "answer" = PyStr (py "Die Frist endet am 15. Juli.")
  /\ field d "document_ids" = PyList [PyStr (py "po2023")]
  /\ field d "confidence_score" = PyFloat (FDec 9 (-1))
  /\ field d "pages" = PyList [].
Proof. vm_compute. repeat split. Qed.

(** C3 (the code at the failing input): the reply has an opening brace and
    no closing one; the diagnostic is the one of a failed parse, not the one
    that says that no JSON structure was found. *)
Theorem unclosed_brace_gets_parse_diagnostic :
  let d := (Answer.answer_question (replying unclosed_brace_reply)
              (PyStr (py "Wann endet die Frist?")) (PyStr (py "kurs-a"))
              PyNone).1 in
  field d "answer" = PyStr unclosed_brace_reply
  /\ field d "confidence_score" = PyFloat (FDec 7 (-1))
  /\ field d "additional_info"
     = PyStr (py "JSON-Parsing fehlgeschlagen: Expecting value: line 1 column 1 (char 0)")
  /\ field d "additional_info" <> PyStr Answer.no_json_info.
Proof. vm_compute. repeat split. discriminate. Qed.

(** ** The decoder and the extractor on examples *)

Example loads_empty_text :
  Json.loads [] = Raise (Exn JSONDecodeError
                           (py "Expecting value: line 1 column 1 (char 0)")).
Proof. vm_compute. reflexivity. Qed.

Example loads_object :
  Json.loads (Answer.pyq "{`a`: [1, -2.50, `xä\n`], `b`: null, `a`: true}")
  = Ok (PyDict [(py "a", PyBool true); (py "b", PyNone)]).
Proof. vm_compute. reflexivity. Qed.

Example loads_nested_values :
  Json.loads (Answer.pyq " [1, -2.50, `xä`, {`k`: [[]]}, 1E+2] ")
  = Ok (PyList [PyInt 1; PyFloat (FDec (-25) (-1)); PyStr [120; 228]%N;
                PyDict [(py "k", PyList [PyList []])]; PyFloat (FDec 1 2)]).
Proof. vm_compute. reflexivity. Qed.

Example loads_unclosed_arrays :
  Json.loads (py "[[[[[")
  = Raise (Exn JSONDecodeError (py "Expecting value: line 1 column 6 (char 5)")).
Proof. vm_compute. reflexivity. Qed.

Example loads_trailing_text :
  Json.loads (Answer.pyq "{`a`: 1}
x")
  = Raise (Exn JSONDecodeError (py "Extra data: line 2 column 1 (char 9)")).
Proof. vm_compute. reflexivity. Qed.

(** The scenario of the specification: a reply without braces. *)
Example reply_without_braces :
  let d := (Answer.answer_question (replying no_braces_reply)
              (PyStr (py "Wann endet die Frist?")) (PyStr (py "kurs-a"))
              PyNone).1 in
  field d "answer" = PyStr no_braces_reply
  /\ field d "document_ids" = PyList []
  /\ field d "pages" = PyList []
  /\ field d "confidence_score" = PyFloat (FDec 7 (-1))
  /\ field d "additional_info" = PyStr Answer.no_json_info.
Proof. vm_compute. repeat split. Qed.

Lemma find_from_present (c : N) (s : pystr) (i : Z) :
  In c s -> (i <= PyStr.find_from c s i)%Z.
Proof.
  revert i. induction s as [|x r IH]; intros i Hin; simpl; [contradiction|].
  destruct (x =? c)%N eqn:E; [lia|].
  destruct Hin as [-> | Hin]; [rewrite N.eqb_refl in E; discriminate|].
  specialize (IH (i + 1)%Z Hin). lia.
Qed.

Lemma rfind_from_absent (c : N) (s : pystr) (i last : Z) :
  ~ In c s -> PyStr.rfind_from c s i last = last.
Proof.
  revert i last. induction s as [|x r IH]; intros i last Hn; simpl; [reflexivity|].
  destruct (x =? c)%N eqn:E.
  - apply N.eqb_eq in E. subst x. exfalso. apply Hn. left. reflexivity.
  - apply IH. intros H. apply Hn. right. exact H.
Qed.

Lemma slice_to_zero {A} (l : list A) (a : Z) :
  (0 <= a)%Z -> PyStr.slice l a 0 = [].
Proof.
  intros Ha. unfold PyStr.slice.
  replace (PyStr.clamp l 0) with 0; [reflexivity|].
  unfold PyStr.clamp. simpl. lia.
Qed.

(** With an opening brace and no closing one the extractor gives the
    fallback of a failed parse, on every such text. *)
Lemma missing_closing_brace_fallback (h : bool) (result_str : pystr) :
  In PyStr.LBRACE result_str -> ~ In PyStr.RBRACE result_str ->
  Answer.extract_structured h result_str
  = Answer.fallback result_str h
      (py "JSON-Parsing fehlgeschlagen: Expecting value: line 1 column 1 (char 0)").
Proof.
  intros Hopen Hclose. unfold Answer.extract_structured, PyStr.find, PyStr.rfind.
  pose proof (find_from_present _ _ 0%Z Hopen) as Hs.
  rewrite (rfind_from_absent _ _ _ _ Hclose).
  destruct (PyStr.find_from PyStr.LBRACE result_str 0 =? -1)%Z eqn:E;
    [apply Z.eqb_eq in E; lia|].
  change (negb false && negb (-1 + 1 =? -1)%Z) with true. cbv iota.
  change (-1 + 1)%Z with 0%Z.
  rewrite (slice_to_zero _ _ Hs).
  unfold Answer.parse_structured. rewrite loads_empty_text.
  vm_compute. reflexivity.
Qed.

(** ** Deleting a document *)

(** C8: for every namespace and document ID, every dict returned by the
    vector store and every state of the metadata store, [delete_document]
    returns a dict that carries the vector-store outcome under
    [vector_result] and the metadata-store outcome under [firebase_result];
    its [status] is "success" exactly when the status of the vector-store
    outcome is "success", and "error" otherwise, whatever the metadata
    store reports. *)
Theorem delete_document_reports_both_outcomes (firebase_available : bool)
    (vr : pydict) (db : Store.Db) (namespace fileID : pystr) :
  exists d,
    Store.delete_document firebase_available (Ok (PyDict vr)) db namespace fileID
    = Ok d
    /\ field d "vector_result" = PyDict vr
    /\ field d "firebase_result"
       = PyDict (metadata_outcome firebase_available db namespace fileID)
    /\ (field d "status" = PyStr (py "success")
        <-> Store.status_is_success vr = true)
    /\ (field d "status" = PyStr (py "error")
        <-> Store.status_is_success vr = false).
Proof.
  eexists. split; [reflexivity|].
  unfold metadata_outcome.
  destruct (Store.status_is_success vr); vm_compute;
    repeat split; intros; try reflexivity; try discriminate.
Qed.

(** ** The namespace summary *)

Lemma has_key_set_item (d : pydict) (k k' : pystr) (v : PyVal) :
  Py.has_key d k = true -> Py.has_key (Py.set_item d k' v) k = true.
Proof.
  unfold Py.has_key. induction d as [|[k0 v0] r IH]; simpl; [discriminate|].
  destruct (bool_decide (k0 = k')) eqn:E1; simpl.
  - apply bool_decide_eq_true in E1. subst k0.
    destruct (bool_decide (k' = k)); [reflexivity | exact (fun H => H)].
  - destruct (bool_decide (k0 = k)); [reflexivity | exact IH].
Qed.

Lemma document_info_entry (doc_id : pystr) (d : pydict) :
  document_entry (PyDict (Store.document_info doc_id d)).
Proof.
  eexists. split; [reflexivity|].
  unfold Store.document_info.
  destruct (Py.lookup d (py "additional_info")).
  - repeat constructor; apply has_key_set_item; vm_compute; reflexivity.
  - repeat constructor; vm_compute; reflexivity.
Qed.

Lemma collect_documents_entries (items : pydict) :
  Forall document_entry (Store.collect_documents items).
Proof.
  induction items as [|[doc_id doc_data] r IH]; simpl; [constructor|].
  destruct doc_data; try exact IH.
  destruct (Store.is_document _); [|exact IH].
  constructor; [apply document_info_entry | exact IH].
Qed.

(** What the body of the [try] returns when it returns. *)
Lemma namespace_summary_body_ok (firebase_available : bool) (db : Store.Db)
    (namespace : pystr) (r : pydict) :
  Store.namespace_summary_body firebase_available db namespace = Ok r ->
  field r "status" = Store.success
  /\ exists docs,
       field r "documents" = PyList docs
       /\ field r "document_count" = PyInt (Z.of_nat (length docs))
       /\ Forall document_entry docs.
Proof.
  unfold Store.namespace_summary_body.
  destruct firebase_available.
  - destruct (_ && _).
    + destruct (Py.get_none _ _) as [| | | | | | nd]; try discriminate.
      intros [= <-]. split; [vm_compute; reflexivity|].
      exists (Store.collect_documents nd).
      split; [vm_compute; reflexivity|].
      split; [vm_compute; reflexivity|].
      apply collect_documents_entries.
    + intros [= <-]. split; [vm_compute; reflexivity|].
      exists []. repeat split; try (vm_compute; reflexivity). constructor.
  - intros [= <-]. split; [vm_compute; reflexivity|].
    exists []. repeat split; try (vm_compute; reflexivity). constructor.
Qed.

(** C10: for every namespace and every state of the metadata store,
    whenever [get_namespace_summary] returns a record with status
    "success", its [document_count] is the length of its [documents] list
    and every entry of the list has the keys [id], [name], [summary],
    [chunk_count] and [status]; when the body raises, the function returns
    a record with status "error". *)
Theorem namespace_summary_counts_documents (firebase_available : bool)
    (db : Store.Db) (namespace : pystr) :
  let r := Store.get_namespace_summary firebase_available db namespace in
  (field r "status" = PyStr (py "success") ->
   exists docs,
     field r "documents" = PyList docs
     /\ field r "document_count" = PyInt (Z.of_nat (length docs))
     /\ Forall document_entry docs)
  /\ (forall e,
        Store.namespace_summary_body firebase_available db namespace = Raise e ->
        field r "status" = PyStr (py "error")).
Proof.
  simpl. unfold Store.get_namespace_summary.
  destruct (Store.namespace_summary_body firebase_available db namespace)
    as [r|e] eqn:E; simpl.
  - split; [|discriminate].
    intros _. apply (namespace_summary_body_ok _ _ _ _ E).
  - split; [vm_compute; discriminate|].
    intros e' _. vm_compute. reflexivity.
Qed.

Lemma namespace_summary_witness :
  (exists docs,
     field (Store.get_namespace_summary true (db_holding sample_namespace_data)
              (py "kurs-a")) "documents" = PyList docs
     /\ field (Store.get_namespace_summary true
                 (db_holding sample_namespace_data) (py "kurs-a"))
          "document_count" = PyInt (Z.of_nat (length docs))
     /\ Forall document_entry docs)
  /\ field (Store.get_namespace_summary true (db_holding (PyList [PyInt 1]))
              (py "kurs-a")) "status" = PyStr (py "error").
Proof.
  split.
  - apply (proj1 (namespace_summary_counts_documents true
                    (db_holding sample_namespace_data) (py "kurs-a"))).
    vm_compute. reflexivity.
  - apply (proj2 (namespace_summary_counts_documents true
                    (db_holding (PyList [PyInt 1])) (py "kurs-a"))
             (Store.no_attribute (PyList [PyInt 1]) "items")).
    vm_compute. reflexivity.
Defined.

(** ** The chat-history buffer *)

Lemma slice_from_most_recent {A} (l : list A) :
  PyStr.slice_from l (-10) = most_recent 10 l.
Proof.
  unfold PyStr.slice_from, most_recent, PyStr.clamp. f_equal.
  change (-10 <? 0)%Z with true. simpl. lia.
Qed.

Lemma most_recent_length {A} (n : nat) (l : list A) :
  length (most_recent n l) <= n.
Proof. unfold most_recent. rewrite length_drop. lia. Qed.

(** The buffer after the two appends and the cut: the ten most recent
    entries. *)
Lemma updated_history_most_recent (old : list PyVal) (u : pystr) (a : PyVal) :
  Chat.updated_history old u a
  = most_recent 10 (old ++ [Chat.message "user" (PyStr u);
                            Chat.message "assistant" a]).
Proof.
  unfold Chat.updated_history.
  destruct (10 <? length _)%nat eqn:E.
  - apply slice_from_most_recent.
  - apply Nat.ltb_ge in E. unfold most_recent.
    replace (length _ - 10) with 0 by lia. reflexivity.
Qed.

Lemma capped_insert (h : gmap pystr (list PyVal)) (ns : pystr)
    (l : list PyVal) :
  capped h -> length l <= 10 -> capped (<[ns := l]> h).
Proof.
  intros Hh Hl ns' l'. rewrite lookup_insert.
  destruct (decide (ns = ns')); simpl.
  - intros [= <-]. exact Hl.
  - apply Hh.
Qed.

(** C9: for every namespace and every [send_message] call whose bot answers
    with a dict or raises, buffers of at most ten entries stay buffers of
    at most ten entries; after an answered call the buffer of the namespace
    holds the ten most recent entries of the old buffer followed by the
    user message and the assistant message, so the entries dropped are the
    oldest, and the buffers of the other namespaces are unchanged. *)
Theorem send_message_keeps_ten_most_recent (bot : Chat.Bot)
    (chat_history : gmap pystr (list PyVal)) (user_input namespace : pystr) :
  answers_with_dict bot ->
  capped chat_history ->
  let r := Chat.send_message bot chat_history (PyStr user_input)
             (PyStr namespace) in
  capped r.2
  /\ forall d,
       Answer.invalid_text (PyStr user_input) = false ->
       Answer.invalid_text (PyStr namespace) = false ->
       bot user_input namespace (default [] (chat_history !! namespace))
       = Ok (PyDict d) ->
       r.2 !! namespace
       = Some (most_recent 10
                 (default [] (chat_history !! namespace)
                  ++ [Chat.message "user" (PyStr user_input);
                      Chat.message "assistant"
                        (Py.get d (py "answer") (PyStr []))]))
       /\ forall other, other <> namespace ->
            r.2 !! other = chat_history !! other.
Proof.
  intros Hbot Hcap. simpl. unfold Chat.send_message.
  destruct (Answer.invalid_text (PyStr user_input)) eqn:Eu;
    [split; [exact Hcap | discriminate]|].
  destruct (Answer.invalid_text (PyStr namespace)) eqn:En;
    [split; [exact Hcap | intros; discriminate]|].
  change (PyRepr.str (PyStr user_input)) with user_input.
  change (PyRepr.str (PyStr namespace)) with namespace.
  destruct (bot user_input namespace _) as [v|e] eqn:Eb.
  - pose proof (Hbot _ _ _ _ Eb) as Hv.
    destruct v as [| | | | | | d0]; try discriminate. simpl. split.
    + apply capped_insert; [exact Hcap|].
      rewrite updated_history_most_recent. apply most_recent_length.
    + intros d _ _ [= <-]. split.
      * rewrite lookup_insert_eq, updated_history_most_recent. reflexivity.
      * intros other Hne. rewrite lookup_insert_ne by congruence. reflexivity.
  - simpl. split; [exact Hcap | intros; discriminate].
Qed.

(** A response that is no dict, which the bot is not taken to give, makes
    [response.get] raise after the user message was appended: the handler
    answers, and the buffer keeps that message without the cut. *)
Lemma response_without_get_keeps_user_message
    (chat_history : gmap pystr (list PyVal)) (user_input namespace : pystr) :
  Answer.invalid_text (PyStr user_input) = false ->
  Answer.invalid_text (PyStr namespace) = false ->
  (Chat.send_message (fun _ _ _ => Ok PyNone) chat_history (PyStr user_input)
     (PyStr namespace)).2 !! namespace
  = Some (default [] (chat_history !! namespace)
          ++ [Chat.message "user" (PyStr user_input)]).
Proof.
  intros Hu Hn. unfold Chat.send_message. rewrite Hu, Hn. simpl.
  apply lookup_insert_eq.
Qed.

Lemma send_message_witness :
  let r := Chat.send_message sample_bot full_history (PyStr (py "Und danach?"))
             (PyStr (py "kurs-a")) in
  capped r.2
  /\ r.2 !! py "kurs-a"
     = Some (most_recent 10
               (default [] (full_history !! py "kurs-a")
                ++ [Chat.message "user" (PyStr (py "Und danach?"));
                    Chat.message "assistant"
                      (PyStr (py "Die Frist endet am 15. Juli."))])).
Proof.
  destruct (send_message_keeps_ten_most_recent sample_bot full_history
              (py "Und danach?") (py "kurs-a")) as [Hcap Hkept].
  - intros u ns old v [= <-]. reflexivity.
  - intros ns l. unfold full_history. rewrite lookup_singleton_Some.
    intros [_ <-]. vm_compute. lia.
  - split; [exact Hcap|].
    apply (Hkept (Answer.fallback (py "Die Frist endet am 15. Juli.") true
                    Answer.no_json_info));
      vm_compute; reflexivity.
Defined.

(** ** The document-ID filter *)

Lemma atom_eq_str (v : PyVal) (t : pystr) :
  PyRepr.atom_eq v (PyStr t) = true <-> v = PyStr t.
Proof.
  destruct v as [| b | n | [m e | | neg] | s | l | d];
    try (unfold PyRepr.atom_eq, PyRepr.as_dec;
         try destruct (Py.binary_of m e);
         split; [discriminate | discriminate]).
  simpl. rewrite bool_decide_eq_true.
  split; [intros -> | intros [= ->]]; reflexivity.
Qed.

Lemma in_targets_iff (v : PyVal) (targets : list pystr) :
  Search.in_targets v targets = true <-> exists t, In t targets /\ v = PyStr t.
Proof.
  unfold Search.in_targets. rewrite existsb_exists.
  split; intros [t [Ht H]]; exists t; (split; [exact Ht|]);
    apply atom_eq_str; exact H.
Qed.

Lemma none_listed_keeps (targets : list pystr) (docs : list Search.Doc) :
  none_listed targets docs ->
  forall doc, In doc docs -> Search.keeps targets doc = false.
Proof.
  intros Hn doc Hin. unfold Search.keeps.
  pose proof (Hn doc) as Hd. unfold owner in Hd.
  destruct (Search.metadata doc) as [[| | | | | | d]|]; try reflexivity.
  apply not_true_is_false. intros H. apply in_targets_iff in H.
  destruct H as [t [Ht Hv]]. apply (Hd t Hin Ht). congruence.
Qed.

Lemma filter_none {A} (f : A -> bool) (l : list A) :
  (forall x, In x l -> f x = false) -> List.filter f l = [].
Proof.
  induction l as [|x r IH]; intros H; simpl; [reflexivity|].
  rewrite (H x) by (left; reflexivity).
  apply IH. intros y Hy. apply H. right. exact Hy.
Qed.

(** C6: for every query the tool accepts, every allow-list that is not
    empty and every list of retrieved fragments that is not empty, if no
    fragment belongs to a document of the allow-list, the tool returns the
    "no documents in the filtered IDs" text, which differs from the "no
    documents found" text it returns when the retriever yields no fragment
    at all. *)
Theorem filter_without_match_is_distinct (w : Search.World) (query : PyVal)
    (document_ids : pystr) (targets : list pystr) (docs : list Search.Doc) :
  ~ blank_or_no_text query ->
  Search.target_doc_ids document_ids = Some targets ->
  targets <> [] ->
  Search.invoke w (PyRepr.str query) = Ok (Search.RetList docs) ->
  docs <> [] ->
  none_listed targets docs ->
  Search.pdf_search_tool w query document_ids
  = Search.no_documents_in_filter targets
  /\ Search.no_documents_in_filter targets <> Search.no_documents_found
  /\ forall w' ids',
       Search.invoke w' (PyRepr.str query) = Ok (Search.RetList []) ->
       Search.pdf_search_tool w' query ids' = Search.no_documents_found.
Proof.
  intros Hq Ht Hne Hinv Hdocs Hnone.
  assert (Answer.invalid_text query = false) as Hvalid.
  { apply not_true_is_false. intros H. apply Hq. apply invalid_text_iff. exact H. }
  split; [|split].
  - unfold Search.pdf_search_tool. rewrite Hvalid, Hinv, Ht.
    destruct docs as [|doc rest]; [congruence|].
    destruct targets as [|t ts]; [congruence|].
    unfold Search.filtered.
    rewrite (filter_none _ _ (none_listed_keeps _ _ Hnone)). reflexivity.
  - intros H. apply (f_equal (take 17)) in H. vm_compute in H. discriminate.
  - intros w' ids' Hinv'. unfold Search.pdf_search_tool.
    rewrite Hvalid, Hinv'. reflexivity.
Qed.

Lemma filter_without_match_witness :
  Search.pdf_search_tool
    (retrieving [fragment "po2023" "Die Frist endet am 15. Juli." [4%Z]])
    (PyStr (py "Frist")) (py "modulhandbuch, skript")
  = Search.no_documents_in_filter [py "modulhandbuch"; py "skript"]
  /\ Search.no_documents_in_filter [py "modulhandbuch"; py "skript"]
     <> Search.no_documents_found.
Proof.
  destruct (filter_without_match_is_distinct
              (retrieving [fragment "po2023" "Die Frist endet am 15. Juli." [4%Z]])
              (PyStr (py "Frist")) (py "modulhandbuch, skript")
              [py "modulhandbuch"; py "skript"]
              [fragment "po2023" "Die Frist endet am 15. Juli." [4%Z]])
    as (H1 & H2 & _).
  - vm_compute. intros H. inversion H as [|? ? Hc _]. discriminate Hc.
  - vm_compute. reflexivity.
  - discriminate.
  - reflexivity.
  - discriminate.
  - intros doc t [<- | []] Ht. vm_compute. intros [= E]. subst t.
    vm_compute in Ht. destruct Ht as [Ht | [Ht | []]]; discriminate Ht.
  - split; assumption.
Defined.

(** ** The context assembler *)

Lemma atom_eq_refl (v : PyVal) :
  PyRepr.hashable v = true -> PyRepr.atom_eq v v = true.
Proof.
  destruct v as [| b | n | [m e | | neg] | s | l | d]; simpl;
    try discriminate; intros _; try reflexivity.
  - destruct b; reflexivity.
  - unfold PyRepr.dec_eqb. simpl. apply Z.eqb_refl.
  - unfold PyRepr.dec_eqb. simpl. apply Z.eqb_refl.
  - destruct neg; reflexivity.
  - apply bool_decide_eq_true_2. reflexivity.
Qed.

Lemma add_page_elem (used : gset Z) (v : PyVal) (p : Z) :
  p ∈ Search.add_page used v <-> p ∈ used \/ p ∈ page_ints [v].
Proof.
  unfold Search.add_page, page_ints. cbn [omap list_omap].
  destruct (PyRepr.int v) as [n|e].
  - rewrite elem_of_union, elem_of_singleton, list_elem_of_singleton. tauto.
  - rewrite elem_of_nil. tauto.
Qed.

Lemma page_ints_cons (v : PyVal) (items : list PyVal) :
  page_ints (v :: items) = page_ints [v] ++ page_ints items.
Proof.
  unfold page_ints. cbn [omap list_omap]. destruct (PyRepr.int v); reflexivity.
Qed.

Lemma add_pages_elem (items : list PyVal) (used : gset Z) (p : Z) :
  p ∈ foldl Search.add_page used items <-> p ∈ used \/ p ∈ page_ints items.
Proof.
  revert used. induction items as [|v r IH]; intros used.
  - cbn [foldl]. unfold page_ints. cbn [omap list_omap].
    rewrite elem_of_nil. tauto.
  - cbn [foldl]. rewrite IH, add_page_elem, (page_ints_cons v r), elem_of_app.
    tauto.
Qed.

Lemma add_page_number_elem (used : gset Z) (pn : PyVal) (p : Z) :
  p ∈ Search.add_page_number used pn
  <-> p ∈ used \/ p ∈ (if Py.truthy pn then page_ints [pn] else []).
Proof.
  unfold Search.add_page_number. destruct (Py.truthy pn).
  - apply add_page_elem.
  - rewrite elem_of_nil. tauto.
Qed.


(** What the metadata part of a turn leaves: the blocks, the IDs, the
    counter and the index map as they were, the pages of the fragment added
    to the set when the part completes, and [page_number] bound when the
    metadata is a dict. *)
Lemma read_metadata_spec (i : nat) (md : PyVal) (st st1 : Search.loop_state)
    (r : result (PyVal * PyVal * PyVal)) :
  Search.read_metadata i md st = (r, st1) ->
  Search.results st1 = Search.results st
  /\ Search.found_doc_ids st1 = Search.found_doc_ids st
  /\ Search.chunk_counter st1 = Search.chunk_counter st
  /\ Search.doc_index_map st1 = Search.doc_index_map st
  /\ (forall p, p ∈ Search.used_pages st -> p ∈ Search.used_pages st1)
  /\ (forall p, p ∈ Search.used_pages st1 ->
        p ∈ Search.used_pages st \/ p ∈ metadata_pages md)
  /\ (forall id c pg, r = Ok (id, c, pg) ->
        id = metadata_doc_id i md
        /\ (forall p, p ∈ metadata_pages md -> p ∈ Search.used_pages st1)
        /\ (Py.truthy pg = true -> exists l, Search.iter_items pg = Ok l)
        /\ (forall d, md = PyDict d ->
              pg = Py.get_none d (py "pages")
              /\ exists pn, Search.page_number st1 = Some pn)).
Proof.
  destruct md as [| | | | | | d].
  1-6: intros [= <- <-]; split; [reflexivity|];
       split; [reflexivity|]; split; [reflexivity|]; split; [reflexivity|];
       split; [auto|]; split; [auto|];
       intros id c pg [= <- <- <-]; split; [reflexivity|];
       split; [intros p Hp; apply elem_of_nil in Hp; contradiction|];
       split; discriminate.
  unfold Search.read_metadata, metadata_pages, pages_items, metadata_doc_id.
  set (pages := Py.get_none d (py "pages")).
  set (pn := Py.get_none d (py "page_number")).
  destruct (Py.truthy pages) eqn:Et.
  - destruct (Search.iter_items pages) as [items|e] eqn:Ei.
    + intros [= <- <-]. cbn [Search.results Search.found_doc_ids
        Search.chunk_counter Search.doc_index_map Search.used_pages
        Search.page_number].
      split; [reflexivity|]; split; [reflexivity|]; split; [reflexivity|];
      split; [reflexivity|]. split; [|split].
      * intros p Hp. apply add_page_number_elem. left.
        apply add_pages_elem. left. exact Hp.
      * intros p Hp. apply add_page_number_elem in Hp.
        rewrite add_pages_elem in Hp. rewrite elem_of_app. tauto.
      * intros id c pg [= <- <- <-]. split; [reflexivity|]. split; [|split].
        -- intros p Hp. apply add_page_number_elem. rewrite add_pages_elem.
           rewrite elem_of_app in Hp. tauto.
        -- intros _. eauto.
        -- intros d' [= <-]. split; [reflexivity | eauto].
    + intros [= <- <-]. cbn [Search.results Search.found_doc_ids
        Search.chunk_counter Search.doc_index_map Search.used_pages
        Search.page_number].
      split; [reflexivity|]; split; [reflexivity|]; split; [reflexivity|];
      split; [reflexivity|]. split; [auto|]. split; [auto|]. discriminate.
  - intros [= <- <-]. cbn [Search.results Search.found_doc_ids
      Search.chunk_counter Search.doc_index_map Search.used_pages
      Search.page_number].
    split; [reflexivity|]; split; [reflexivity|]; split; [reflexivity|];
    split; [reflexivity|]. split; [|split].
    + intros p Hp. apply add_page_number_elem. left. exact Hp.
    + intros p Hp. apply add_page_number_elem in Hp.
      rewrite elem_of_app. tauto.
    + intros id c pg [= <- <- <-]. split; [reflexivity|]. split; [|split].
      * intros p Hp. apply add_page_number_elem.
        rewrite elem_of_app in Hp. destruct Hp as [Hp | Hp]; [|tauto].
        unfold page_ints in Hp. apply elem_of_nil in Hp. contradiction.
      * fold pages. congruence.
      * intros d' [= <-]. split; [reflexivity | eauto].
Qed.
Lemma set_add_elem (v x : PyVal) (s : list PyVal) :
  x ∈ Search.set_add v s -> x ∈ s \/ x = v.
Proof.
  unfold Search.set_add. destruct (existsb _ s); [tauto|].
  rewrite elem_of_app, list_elem_of_singleton. tauto.
Qed.

Lemma set_add_keeps (v x : PyVal) (s : list PyVal) :
  x ∈ s -> x ∈ Search.set_add v s.
Proof.
  unfold Search.set_add. destruct (existsb _ s); [tauto|].
  rewrite elem_of_app. tauto.
Qed.

Lemma set_add_has (v : PyVal) (s : list PyVal) :
  PyRepr.hashable v = true ->
  exists x, x ∈ Search.set_add v s /\ PyRepr.atom_eq v x = true.
Proof.
  intros Hh. unfold Search.set_add.
  destruct (existsb (PyRepr.atom_eq v) s) eqn:E.
  - apply existsb_exists in E. destruct E as [x [Hx Hv]].
    exists x. split; [apply list_elem_of_In; exact Hx | exact Hv].
  - exists v. split; [|apply atom_eq_refl; exact Hh].
    rewrite elem_of_app, list_elem_of_singleton. tauto.
Qed.

Lemma find_snoc {A} (f : A -> bool) (l : list A) (x : A) :
  List.find f l = None -> f x = true -> List.find f (l ++ [x]) = Some x.
Proof.
  induction l as [|y r IH]; simpl; intros Hn Hx.
  - rewrite Hx. reflexivity.
  - destruct (f y); [discriminate|]. apply IH; assumption.
Qed.

Lemma index_of_index_add (v : PyVal) (m : list (PyVal * nat)) :
  PyRepr.hashable v = true ->
  exists n, Search.index_of v (Search.index_add v m) = Some n.
Proof.
  intros Hh. unfold Search.index_add.
  destruct (Search.index_of v m) as [n|] eqn:E; [eauto|].
  unfold Search.index_of in *.
  destruct (List.find _ m) eqn:F; [discriminate|].
  rewrite (find_snoc _ _ _ F); [simpl; eauto|].
  simpl. apply atom_eq_refl. exact Hh.
Qed.

(** [pages[0]] exists for a [pages] that is not empty, can be iterated
    and is no dict. *)
Lemma first_page_ok (pages : PyVal) (l : list PyVal) :
  Py.truthy pages = true -> Search.iter_items pages = Ok l ->
  Py.is_dict pages = false -> exists p, Search.first_page pages = Ok p.
Proof.
  destruct pages as [| | | | s | x | d]; simpl; try discriminate.
  - destruct s; [|eauto]. rewrite bool_decide_eq_true_2 by reflexivity.
    discriminate.
  - destruct x; [discriminate | eauto].
Qed.

(** One turn of the loop: the IDs and the pages only grow, every new page
    is a page of the fragment, and a turn that adds a block has recorded
    the ID and all pages of its fragment. For a fragment as the retriever
    delivers it, an ID is added only together with a block. *)
Lemma step_spec (w : Search.World) (st : Search.loop_state) (i : nat)
    (doc : Search.Doc) :
  let st' := Search.step w st i doc in
  (forall v, v ∈ Search.found_doc_ids st -> v ∈ Search.found_doc_ids st')
  /\ (forall p, p ∈ Search.used_pages st -> p ∈ Search.used_pages st')
  /\ (forall p, p ∈ Search.used_pages st' ->
        p ∈ Search.used_pages st \/ p ∈ frag_pages doc)
  /\ (Search.results st' = Search.results st
      \/ exists text,
           Search.results st' = Search.results st ++ [(i, text)]
           /\ (exists v, v ∈ Search.found_doc_ids st'
                 /\ PyRepr.atom_eq (frag_doc_id i doc) v = true)
           /\ forall p, p ∈ frag_pages doc -> p ∈ Search.used_pages st')
  /\ (well_typed doc ->
      forall v, v ∈ Search.found_doc_ids st' ->
        v ∈ Search.found_doc_ids st
        \/ (v = frag_doc_id i doc
            /\ exists text, Search.results st' = Search.results st ++ [(i, text)])).
Proof.
  simpl. unfold Search.step, frag_pages, frag_doc_id, well_typed.
  destruct (Search.metadata doc) as [md|];
    [|repeat split; auto; intros [d [Hd _]]; discriminate].
  destruct (Search.page_content doc) as [pc|];
    [|repeat split; auto].
  destruct (Search.read_metadata i md st) as [r st1] eqn:Er.
  destruct (read_metadata_spec _ _ _ _ _ Er)
    as (Hres & Hids & Hcnt & Hmap & Hmono & Hsound & Hok).
  destruct r as [[[doc_id chunk_id] pages]|e];
    [|rewrite Hres, Hids; repeat split; auto; intros _ v Hv; left; exact Hv].
  destruct (Hok _ _ _ eq_refl) as (Hid & Hall & Hiter & Hdict).
  destruct (negb (Py.truthy (PyStr (PyStr.strip (PyRepr.str pc))))).
  { rewrite Hres, Hids. repeat split; auto. }
  destruct (PyRepr.hashable doc_id) eqn:Hh; cbn [negb].
  2:{ rewrite Hres, Hids. repeat split; auto. }
  destruct (Search.index_of doc_id _) as [doc_index|] eqn:Ex.
  2:{ exfalso. destruct (index_of_index_add doc_id (Search.doc_index_map st1) Hh)
        as [n Hn]. congruence. }
  destruct (Search.current_page_of pages (Search.page_number st1))
    as [current_page|e] eqn:Ec;
    cbn [Search.results Search.found_doc_ids Search.used_pages].
  - rewrite Hres, Hids. split; [intros v; apply set_add_keeps|].
    split; [exact Hmono|]. split; [exact Hsound|]. split.
    + right. eexists. split; [reflexivity|]. split; [|exact Hall].
      rewrite <- Hid. apply set_add_has. exact Hh.
    + intros _ v Hv. apply set_add_elem in Hv. destruct Hv as [Hv | ->].
      * left. exact Hv.
      * right. split; [exact Hid | eauto].
  - rewrite Hres, Hids. split; [intros v; apply set_add_keeps|].
    split; [exact Hmono|]. split; [exact Hsound|]. split; [left; reflexivity|].
    intros [d [[= ->] Hnd]] v Hv. exfalso.
    destruct (Hdict d eq_refl) as [-> [pn Hpn]].
    unfold Search.current_page_of in Ec. rewrite Hpn in Ec.
    destruct (Py.truthy (Py.get_none d (py "pages"))) eqn:Et; [|discriminate].
    destruct (Hiter eq_refl) as [l Hl].
    destruct (first_page_ok _ _ Et Hl Hnd) as [p Hp]. congruence.
Qed.

(** The loop from fragment [i] on: the same facts for the whole list. *)
Lemma run_from_spec (w : Search.World) (docs : list Search.Doc) :
  forall (st : Search.loop_state) (i : nat),
  let st' := Search.run_from w st i docs in
  (forall v, v ∈ Search.found_doc_ids st -> v ∈ Search.found_doc_ids st')
  /\ (forall p, p ∈ Search.used_pages st -> p ∈ Search.used_pages st')
  /\ (forall p, p ∈ Search.used_pages st' ->
        p ∈ Search.used_pages st
        \/ exists j doc, docs !! j = Some doc /\ p ∈ frag_pages doc)
  /\ (exists new,
        Search.results st' = Search.results st ++ new
        /\ forall k text, (k, text) ∈ new ->
             exists j doc, k = i + j /\ docs !! j = Some doc
               /\ (exists v, v ∈ Search.found_doc_ids st'
                     /\ PyRepr.atom_eq (frag_doc_id k doc) v = true)
               /\ forall p, p ∈ frag_pages doc -> p ∈ Search.used_pages st')
  /\ (Forall well_typed docs ->
      forall v, v ∈ Search.found_doc_ids st' ->
        v ∈ Search.found_doc_ids st
        \/ exists j doc text, docs !! j = Some doc
             /\ (i + j, text) ∈ Search.results st'
             /\ v = frag_doc_id (i + j) doc).
Proof.
  induction docs as [|doc rest IH]; intros st i; cbn [Search.run_from].
  - split; [auto|]. split; [auto|]. split; [auto|]. split.
    + exists []. split; [rewrite app_nil_r; reflexivity|].
      intros k text Hk. apply elem_of_nil in Hk. contradiction.
    + auto.
  - destruct (step_spec w st i doc) as (S1 & S2 & S3 & S4 & S5).
    destruct (IH (Search.step w st i doc) (S i)) as (R1 & R2 & R3 & R4 & R5).
    cbn zeta in *.
    set (st1 := Search.step w st i doc) in *.
    set (st' := Search.run_from w st1 (S i) rest) in *.
    split; [auto|]. split; [auto|]. split; [|split].
    + intros p Hp. destruct (R3 p Hp) as [H1 | (j & d & Hj & Hd)].
      * destruct (S3 p H1) as [H0 | Hd]; [left; exact H0|].
        right. exists 0, doc. split; [reflexivity | exact Hd].
      * right. exists (S j), d. split; [exact Hj | exact Hd].
    + destruct R4 as (new2 & Hnew2 & Hfacts2).
      assert (forall k text, (k, text) ∈ new2 ->
        exists j d, k = i + j /\ (doc :: rest) !! j = Some d
          /\ (exists v, v ∈ Search.found_doc_ids st'
                /\ PyRepr.atom_eq (frag_doc_id k d) v = true)
          /\ forall p, p ∈ frag_pages d -> p ∈ Search.used_pages st') as Hshift.
      { intros k text Hk. destruct (Hfacts2 k text Hk) as (j & d & -> & Hj & Hv & Hp).
        exists (S j), d. split; [lia|]. split; [exact Hj|]. split; assumption. }
      destruct S4 as [Hsame | (text & Hadd & (v & Hv & Hveq) & Hpages)].
      * exists new2. split; [rewrite Hnew2, Hsame; reflexivity | exact Hshift].
      * exists ((i, text) :: new2). split.
        -- rewrite Hnew2, Hadd, <- app_assoc. reflexivity.
        -- intros k t Hk. apply elem_of_cons in Hk.
           destruct Hk as [[= -> ->] | Hk]; [|apply (Hshift k t Hk)].
           exists 0, doc. split; [lia|]. split; [reflexivity|]. split.
           ++ exists v. split; [apply R1; exact Hv | exact Hveq].
           ++ intros p Hp. apply R2. apply Hpages. exact Hp.
    + intros Hwt v Hv. apply Forall_cons in Hwt. destruct Hwt as [Hdoc Hrest].
      destruct (R5 Hrest v Hv) as [H1 | (j & d & text & Hj & Hin & ->)].
      * destruct (S5 Hdoc v H1) as [H0 | [-> [text Hadd]]]; [left; exact H0|].
        right. exists 0, doc, text. split; [reflexivity|].
        replace (i + 0) with i by lia. split; [|reflexivity].
        destruct R4 as (new2 & -> & _). rewrite Hadd.
        rewrite !elem_of_app, list_elem_of_singleton. tauto.
      * right. exists (S j), d, text. split; [exact Hj|].
        replace (i + S j) with (S i + j) by lia. split; [exact Hin | reflexivity].
Qed.



Lemma run_nil_results (w : Search.World) : Search.results (Search.run w []) = [].
Proof. reflexivity. Qed.



Lemma sample_fragments_well_typed : Forall well_typed sample_fragments.
Proof. repeat constructor; eexists; split; reflexivity. Qed.




(** The pages of a fragment that is skipped for its blank content are in
    the FOUND_PAGES list all the same: they are added before the content
    is looked at. *)
Lemma skipped_fragment_pages_are_listed :
  let st := Search.run (retrieving sample_fragments) sample_fragments in
  (Search.results st).*1 = [0; 2]
  /\ Search.found_doc_ids st = [PyStr (py "po2023")]
  /\ Search.pages_sorted st = [2; 4; 9]%Z.
Proof. vm_compute. repeat split. Qed.

(** * Further properties *)

Lemma slice_from_last_six {A} (older recent : list A) :
  6 <= length recent ->
  PyStr.slice_from (older ++ recent) (-6) = PyStr.slice_from recent (-6).
Proof.
  intros H. unfold PyStr.slice_from, PyStr.clamp.
  change (-6 <? 0)%Z with true. cbv iota.
  rewrite length_app.
  replace (Z.to_nat (Z.max 0 (-6 + Z.of_nat (length older + length recent))))
    with (length older + (length recent - 6)) by lia.
  replace (Z.to_nat (Z.max 0 (-6 + Z.of_nat (length recent))))
    with (length recent - 6) by lia.
  rewrite drop_app_add'; reflexivity.
Qed.

(** X1: messages older than the last six of the chat history have no
    influence on [answer_question]: neither on the task description given
    to the crew nor on the answer. *)
Theorem only_last_six_messages_matter (w : Answer.World)
    (question namespace : PyVal) (older recent : list PyVal) :
  6 <= length recent ->
  Answer.answer_question w question namespace (PyList (older ++ recent))
  = Answer.answer_question w question namespace (PyList recent).
Proof.
  intros H. unfold Answer.answer_question.
  assert (Answer.has_history_of (PyList (older ++ recent)) = Ok true) as ->.
  { destruct recent as [|m r]; [simpl in H; lia|].
    unfold Answer.has_history_of. destruct older; reflexivity. }
  assert (Answer.has_history_of (PyList recent) = Ok true) as ->.
  { destruct recent as [|m r]; [simpl in H; lia|]. reflexivity. }
  unfold Answer.chat_context_of.
  rewrite (slice_from_last_six older recent H). reflexivity.
Qed.

Lemma only_last_six_messages_matter_witness :
  Answer.answer_question (replying no_braces_reply) (PyStr (py "Und danach?"))
    (PyStr (py "kurs-a"))
    (PyList ([Chat.message "user" (PyStr (py "alt"))]
             ++ replicate 6 (Chat.message "user" (PyStr (py "neu")))))
  = Answer.answer_question (replying no_braces_reply) (PyStr (py "Und danach?"))
      (PyStr (py "kurs-a"))
      (PyList (replicate 6 (Chat.message "user" (PyStr (py "neu"))))).
Proof.
  apply (only_last_six_messages_matter (replying no_braces_reply)
           (PyStr (py "Und danach?")) (PyStr (py "kurs-a"))
           [Chat.message "user" (PyStr (py "alt"))]
           (replicate 6 (Chat.message "user" (PyStr (py "neu"))))).
  simpl. lia.
Defined.

Lemma failure_answer_fields (e : exn) :
  answers_failure (Answer.failure_answer e) e.
Proof.
  unfold answers_failure, Answer.failure_answer.
  destruct (structured_fields
              (PyStr (py "Fehler beim Beantworten der Frage: " ++ exn_str e))
              (PyList []) (PyList []) Answer.f_zero (PyBool false)
              (PyStr (py "Fehler aufgetreten: " ++ class_name (exn_cls e)))
              (PyList [])) as (-> & _ & _ & -> & -> & -> & _).
  repeat split.
Qed.

(** X2: for an accepted question and namespace and a chat history that is
    a list, an exception of the agent set-up is answered with the failure
    record (the exception's text in the answer, its class name in
    [additional_info], confidence 0.0) and the crew is never started; an
    exception of the crew is answered the same way after exactly the two
    calls. *)
Theorem collaborator_failure_is_answered (w : Answer.World)
    (question namespace : PyVal) (history : list PyVal) (e : exn) :
  ~ blank_or_no_text question ->
  ~ blank_or_no_text namespace ->
  let r := Answer.answer_question w question namespace (PyList history) in
  (Answer.setup_agent w (PyRepr.str namespace) = Raise e ->
   answers_failure r.1 e
   /\ r.2 = [Answer.CallSetupAgent (PyRepr.str namespace)])
  /\ (Answer.setup_agent w (PyRepr.str namespace) = Ok tt ->
      (forall description, Answer.kickoff w description = Raise e) ->
      answers_failure r.1 e
      /\ exists description,
           r.2 = [Answer.CallSetupAgent (PyRepr.str namespace);
                  Answer.CallKickoff description]).
Proof.
  intros Hq Hn.
  assert (Answer.invalid_text question = false) as Eq.
  { apply not_true_is_false. intros H. apply Hq, invalid_text_iff, H. }
  assert (Answer.invalid_text namespace = false) as En.
  { apply not_true_is_false. intros H. apply Hn, invalid_text_iff, H. }
  cbv zeta. unfold Answer.answer_question. rewrite Eq, En. split.
  - intros ->. split; [apply failure_answer_fields | reflexivity].
  - intros -> Hk.
    assert (exists h ctx,
      (h0 ← Answer.has_history_of (PyList history);
       ctx0 ← (if h0 : bool then Answer.chat_context_of (PyList history)
               else Ok []);
       Ok (h0, ctx0)) = Ok (h, ctx)) as (h & ctx & ->).
    { destruct history as [|m l]; eexists _, _; reflexivity. }
    rewrite Hk. split; [apply failure_answer_fields | eauto].
Qed.

Lemma collaborator_failure_is_answered_witness :
  let r := Answer.answer_question
             (failing_setup (Exn (OtherException (py "ConnectionError"))
                               (py "unreachable")))
             (PyStr (py "Wann endet die Frist?")) (PyStr (py "kurs-a"))
             (PyList []) in
  answers_failure r.1 (Exn (OtherException (py "ConnectionError"))
                         (py "unreachable"))
  /\ r.2 = [Answer.CallSetupAgent (py "kurs-a")].
Proof.
  apply (proj1 (collaborator_failure_is_answered
                  (failing_setup (Exn (OtherException (py "ConnectionError"))
                                    (py "unreachable")))
                  (PyStr (py "Wann endet die Frist?")) (PyStr (py "kurs-a")) []
                  (Exn (OtherException (py "ConnectionError")) (py "unreachable"))
                  ltac:(vm_compute; intros H; inversion H as [|? ? Hc _];
                        discriminate Hc)
                  ltac:(vm_compute; intros H; inversion H as [|? ? Hc _];
                        discriminate Hc))).
  reflexivity.
Defined.




Lemma index_of_none (v : PyVal) (m : list (PyVal * nat)) :
  Search.index_of v m = None <-> existsb (PyRepr.atom_eq v) m.*1 = false.
Proof.
  unfold Search.index_of. induction m as [|[x n] r IH]; simpl; [tauto|].
  destruct (PyRepr.atom_eq v x); simpl; [split; discriminate | exact IH].
Qed.

Lemma index_of_some (v : PyVal) (m : list (PyVal * nat)) (n : nat) :
  Search.index_of v m = Some n ->
  exists k x, m !! k = Some (x, n) /\ PyRepr.atom_eq v x = true.
Proof.
  unfold Search.index_of. induction m as [|[x n'] r IH]; simpl; [discriminate|].
  destruct (PyRepr.atom_eq v x) eqn:E; simpl.
  - intros [= <-]. exists 0, x. split; [reflexivity | exact E].
  - intros H. destruct (IH H) as (k & y & Hk & Hy). exists (S k), y. eauto.
Qed.

(** In a map whose values count from 0, the value is the position. *)
Lemma counted_lookup (m : list (PyVal * nat)) (k n : nat) (x : PyVal) :
  m.*2 = seq 0 (length m) -> m !! k = Some (x, n) -> n = k.
Proof.
  intros Hm Hk.
  assert (m.*2 !! k = Some n) as H by (rewrite list_lookup_fmap, Hk; reflexivity).
  rewrite Hm in H. apply lookup_seq in H. lia.
Qed.

Lemma block_labelled_grows (w : Search.World) (st st' : Search.loop_state)
    (k : nat) (text : pystr) (extra : list PyVal) :
  Search.found_doc_ids st' = Search.found_doc_ids st ++ extra ->
  block_labelled w st k text -> block_labelled w st' k text.
Proof.
  intros Hg (doc_id & chunk_id & ps & idx & cp & content & v & Ht & Hv & He).
  exists doc_id, chunk_id, ps, idx, cp, content, v.
  split; [exact Ht|]. split; [|exact He].
  rewrite Hg. apply lookup_app_l_Some. exact Hv.
Qed.

Lemma existsb_false_In {A} (f : A -> bool) (l : list A) (x : A) :
  existsb f l = false -> In x l -> f x = false.
Proof.
  intros Hf Hx. apply not_true_is_false. intros Ht.
  assert (existsb f l = true) by (apply existsb_exists; eauto). congruence.
Qed.

Lemma sorted_snoc (l : list nat) (i : nat) :
  StronglySorted lt l -> Forall (fun k => k < i) l -> StronglySorted lt (l ++ [i]).
Proof.
  induction 1 as [|x l Hs IH Hx]; intros Hi; simpl.
  - repeat constructor.
  - apply Forall_cons in Hi. destruct Hi as [Hxi Hi].
    constructor; [apply IH; exact Hi|].
    apply Forall_app. split; [exact Hx | repeat constructor; exact Hxi].
Qed.

(** The ID set and the index map after registering [v]. *)
Lemma register_id (v : PyVal) (ids : list PyVal) (m : list (PyVal * nat)) :
  m.*1 = ids -> m.*2 = seq 0 (length ids) -> distinct_ids ids ->
  exists extra,
    Search.set_add v ids = ids ++ extra
    /\ (Search.index_add v m).*1 = ids ++ extra
    /\ (Search.index_add v m).*2 = seq 0 (length (ids ++ extra))
    /\ distinct_ids (ids ++ extra).
Proof.
  intros H1 H2 Hd. unfold Search.set_add, Search.index_add.
  destruct (Search.index_of v m) as [n|] eqn:E.
  - assert (existsb (PyRepr.atom_eq v) ids = true) as ->.
    { apply not_false_is_true. intros Hf. rewrite <- H1 in Hf.
      apply index_of_none in Hf. congruence. }
    exists []. rewrite app_nil_r. auto.
  - pose proof (proj1 (index_of_none v m) E) as Hf. rewrite H1 in Hf.
    rewrite Hf. exists [v]. split; [reflexivity|].
    assert (length m = length ids) as Hlen
      by (rewrite <- H1, length_fmap; reflexivity).
    split; [rewrite fmap_app, H1; reflexivity|].
    split.
    + rewrite fmap_app, H2, length_app. simpl. rewrite Hlen.
      rewrite seq_app. reflexivity.
    + intros a b x y Hab Ha Hb.
      destruct (decide (b < length ids)) as [Hlt|Hge].
      * rewrite lookup_app_l in Ha, Hb by lia. apply (Hd a b x y Hab Ha Hb).
      * rewrite lookup_app_r in Hb by lia.
        destruct (b - length ids) as [|b'] eqn:Eb; [|destruct b'; discriminate].
        injection Hb as <-.
        rewrite lookup_app_l in Ha by lia.
        apply (existsb_false_In _ _ _ Hf).
        apply list_elem_of_In, list_elem_of_lookup. eauto.
Qed.

(** One turn keeps the invariant. *)
Lemma step_keeps_invariant (w : Search.World) (st : Search.loop_state)
    (i : nat) (doc : Search.Doc) :
  loop_invariant w i st -> loop_invariant w (S i) (Search.step w st i doc).
Proof.
  intros (Hc & Hk & Hv & Hd & Hs & Hlt & Hb).
  assert (Forall (fun k => k < S i) (Search.results st).*1) as Hlt'.
  { eapply Forall_impl; [exact Hlt|]. simpl. intros; lia. }
  assert (loop_invariant w (S i) st) as Hsame.
  { repeat split; assumption. }
  unfold Search.step.
  destruct (Search.metadata doc) as [md|]; [|exact Hsame].
  destruct (Search.page_content doc) as [pc|]; [|exact Hsame].
  destruct (Search.read_metadata i md st) as [r st1] eqn:Er.
  destruct (read_metadata_spec _ _ _ _ _ Er)
    as (Hres & Hids & Hcnt & Hmap & _).
  assert (loop_invariant w (S i) st1) as Hst1.
  { unfold loop_invariant. rewrite Hres, Hids, Hcnt, Hmap.
    repeat split; try assumption.
    intros k j text Hkj. apply (block_labelled_grows w st st1 _ _ []).
    - rewrite Hids, app_nil_r. reflexivity.
    - apply (Hb k j text Hkj). }
  destruct r as [[[doc_id chunk_id] pages]|e]; [|exact Hst1].
  destruct (negb (Py.truthy (PyStr (PyStr.strip (PyRepr.str pc)))));
    [exact Hst1|].
  destruct (negb (PyRepr.hashable doc_id)); [exact Hst1|].
  destruct (register_id doc_id (Search.found_doc_ids st1)
              (Search.doc_index_map st1))
    as (extra & Hadd & Hk' & Hv' & Hd').
  { rewrite Hmap, Hids. exact Hk. }
  { rewrite Hmap, Hids. exact Hv. }
  { rewrite Hids. exact Hd. }
  assert (forall k j text, Search.results st !! k = Some (j, text) ->
    forall st', Search.found_doc_ids st' = Search.found_doc_ids st1 ++ extra ->
    block_labelled w st' (S k) text) as Hold.
  { intros k j text Hkj st' Hst'. apply (block_labelled_grows w st st' _ _ extra).
    - rewrite Hst', Hids. reflexivity.
    - apply (Hb k j text Hkj). }
  destruct (Search.index_of doc_id _) as [doc_index|] eqn:Ex.
  2:{ unfold loop_invariant.
      cbn [Search.results Search.found_doc_ids Search.chunk_counter
           Search.doc_index_map].
      rewrite Hres, Hcnt, Hadd, Hk', Hv'.
      repeat split; try assumption; try reflexivity.
      intros k j text Hkj. apply (Hold k j text Hkj). reflexivity. }
  destruct (Search.current_page_of pages (Search.page_number st1))
    as [current_page|e].
  - unfold loop_invariant.
    cbn [Search.results Search.found_doc_ids Search.chunk_counter
         Search.doc_index_map].
    rewrite Hres, Hcnt, Hadd, Hk', Hv'.
    split; [rewrite length_app; simpl; lia|].
    split; [reflexivity|]. split; [reflexivity|]. split; [exact Hd'|].
    rewrite fmap_app. simpl.
    split; [apply sorted_snoc; assumption|].
    split; [apply Forall_app; split; [exact Hlt' | repeat constructor]|].
    intros k j text Hkj.
    destruct (decide (k < length (Search.results st))) as [Hin|Hout].
    + rewrite lookup_app_l in Hkj by exact Hin.
      apply (Hold k j text Hkj). reflexivity.
    + rewrite lookup_app_r in Hkj by lia.
      destruct (k - length (Search.results st)) as [|k'] eqn:Ek;
        [|destruct k'; discriminate].
      injection Hkj as <- <-.
      assert (S k = S (length (Search.results st))) as -> by lia.
      rewrite Hc.
      destruct (index_of_some _ _ _ Ex) as (pos & x & Hpos & Hx).
      assert (doc_index = pos) as ->.
      { apply (counted_lookup (Search.index_add doc_id (Search.doc_index_map st1))
                 pos doc_index x); [|exact Hpos].
        rewrite Hv'. f_equal. rewrite <- Hk', length_fmap. reflexivity. }
      exists doc_id, chunk_id,
        (Search.pages_str_of pages (Search.page_number st1)), pos,
        current_page, (PyRepr.str pc), x.
      split; [reflexivity|]. split; [|exact Hx].
      cbn [Search.found_doc_ids]. rewrite <- Hk'.
      rewrite list_lookup_fmap, Hpos. reflexivity.
  - unfold loop_invariant.
    cbn [Search.results Search.found_doc_ids Search.chunk_counter
         Search.doc_index_map].
    rewrite Hres, Hcnt, Hadd, Hk', Hv'.
    repeat split; try assumption; try reflexivity.
    intros k j text Hkj. apply (Hold k j text Hkj). reflexivity.
Qed.

Lemma run_from_keeps_invariant (w : Search.World) (docs : list Search.Doc) :
  forall st i, loop_invariant w i st ->
    loop_invariant w (i + length docs) (Search.run_from w st i docs).
Proof.
  induction docs as [|doc rest IH]; intros st i Hinv; cbn [Search.run_from].
  - simpl. replace (i + 0) with i by lia. exact Hinv.
  - simpl. replace (i + S (length rest)) with (S i + length rest) by lia.
    apply IH. apply step_keeps_invariant. exact Hinv.
Qed.

(** X4: in the state the loop of the search tool ends in, for every list of
    fragments: the counter is one more than the number of blocks; the
    blocks stand in the order of their fragments; the [k]-th block carries
    the sequence number [k] (from 1) and the index of its document among
    the IDs found, in the order in which the documents were first seen;
    and the IDs found are pairwise different. *)
Theorem blocks_are_numbered_in_order (w : Search.World)
    (docs : list Search.Doc) :
  let st := Search.run w docs in
  Search.chunk_counter st = S (length (Search.results st))
  /\ StronglySorted lt (Search.results st).*1
  /\ Forall (fun k => k < length docs) (Search.results st).*1
  /\ (forall k j text, Search.results st !! k = Some (j, text) ->
        block_labelled w st (S k) text)
  /\ distinct_ids (Search.found_doc_ids st)
  /\ (Search.doc_index_map st).*1 = Search.found_doc_ids st
  /\ (Search.doc_index_map st).*2 = seq 0 (length (Search.found_doc_ids st)).
Proof.
  destruct (run_from_keeps_invariant w docs Search.initial_state 0)
    as (Hc & Hk & Hv & Hd & Hs & Hlt & Hb).
  - unfold loop_invariant. simpl.
    repeat split; try constructor.
    + intros a b x y _ Ha. discriminate Ha.
    + intros k j text Hkj. discriminate Hkj.
  - repeat split; assumption.
Qed.

Lemma doc_id_of_cases (d : pydict) (a b : PyVal) :
  Search.doc_id_of d a = Search.doc_id_of d b
  \/ (Search.doc_id_of d a = a /\ Search.doc_id_of d b = b).
Proof.
  unfold Search.doc_id_of, Py.get.
  destruct (Py.lookup d (py "document_id")); [left; reflexivity|].
  destruct (Py.lookup d (py "pdf_id")); [left | right]; auto.
Qed.

(** X5: with a document-ID filter in force, every fragment the loop runs
    over belongs to a document of the allow-list, and for fragments as the
    retriever delivers them every ID in FOUND_DOCUMENT_IDS is an ID of the
    allow-list; the one exception is a fragment without an ID in its
    metadata, which passes a filter that lists "unknown" and is then
    listed under its positional ID "unknown_<i>". *)
Theorem filtered_context_cites_listed_documents (w : Search.World)
    (t : pystr) (ts : list pystr) (docs : list Search.Doc) :
  Forall well_typed docs ->
  let kept := Search.filtered (Some (t :: ts)) docs in
  let st := Search.run w kept in
  (forall doc, In doc kept ->
     exists x, In x (t :: ts) /\ owner doc = Some (PyStr x))
  /\ forall v, v ∈ Search.found_doc_ids st ->
       (exists x, In x (t :: ts) /\ v = PyStr x)
       \/ (In (py "unknown") (t :: ts) /\ exists i, v = Search.unknown_id i).
Proof.
  intros Hwt kept st.
  assert (forall doc, In doc kept ->
            exists x, In x (t :: ts) /\ owner doc = Some (PyStr x)) as Hkept.
  { intros doc Hin. unfold kept, Search.filtered in Hin.
    apply filter_In in Hin. destruct Hin as [_ Hk].
    unfold Search.keeps in Hk. unfold owner.
    destruct (Search.metadata doc) as [[| | | | | | d]|]; try discriminate.
    apply in_targets_iff in Hk. destruct Hk as [x [Hx ->]]. eauto. }
  split; [exact Hkept|].
  assert (Forall well_typed kept) as Hwk.
  { unfold kept, Search.filtered. rewrite Forall_forall in *.
    intros doc Hin. apply Hwt. apply list_elem_of_In in Hin.
    apply filter_In in Hin. apply list_elem_of_In. tauto. }
  destruct (run_from_spec w kept Search.initial_state 0) as (_ & _ & _ & _ & R5).
  intros v Hv. destruct (R5 Hwk v Hv) as [H0 | (j & doc & text & Hj & _ & ->)].
  { cbn [Search.found_doc_ids Search.initial_state] in H0.
    apply elem_of_nil in H0. contradiction. }
  assert (In doc kept) as Hin
    by (apply list_elem_of_In, list_elem_of_lookup; eauto).
  destruct (Hkept doc Hin) as [x [Hx Ho]].
  unfold owner in Ho. unfold frag_doc_id, metadata_doc_id.
  destruct (Search.metadata doc) as [[| | | | | | d]|]; try discriminate.
  injection Ho as Ho. simpl.
  destruct (doc_id_of_cases d (Search.unknown_id j) (PyStr (py "unknown")))
    as [E | [E1 E2]].
  - left. exists x. split; [exact Hx | congruence].
  - right. rewrite E2 in Ho. injection Ho as <-.
    split; [exact Hx | eauto].
Qed.

Lemma filtered_context_cites_listed_documents_witness :
  (exists x, In x [py "po2023"]
             /\ owner (fragment "po2023" "Die Frist endet am 15. Juli." [4; 2]%Z)
                = Some (PyStr x))
  /\ ((exists x, In x [py "po2023"] /\ PyStr (py "po2023") = PyStr x)
      \/ (In (py "unknown") [py "po2023"]
          /\ exists i, PyStr (py "po2023") = Search.unknown_id i)).
Proof.
  destruct (filtered_context_cites_listed_documents
              (retrieving sample_fragments) (py "po2023") []
              sample_fragments sample_fragments_well_typed) as [Hkept Hids].
  split.
  - apply Hkept. vm_compute. left. reflexivity.
  - apply Hids. vm_compute. constructor.
Defined.

Lemma lstrip_suffix (s : pystr) : exists pre, s = pre ++ PyStr.lstrip s.
Proof.
  induction s as [|c r [pre IH]]; simpl; [exists []; reflexivity|].
  destruct (PyStr.isspace c).
  - exists (c :: pre). simpl. f_equal. exact IH.
  - exists []. reflexivity.
Qed.

Lemma lstrip_fixed (s : pystr) :
  match s with [] => True | c :: _ => PyStr.isspace c = false end ->
  PyStr.lstrip s = s.
Proof. destruct s as [|c r]; simpl; [reflexivity|]. intros ->. reflexivity. Qed.

(** The decomposition of a string around its stripped part. *)
Lemma strip_decompose (s : pystr) :
  exists pre post, s = pre ++ PyStr.strip s ++ post
    /\ PyStr.lstrip (PyStr.strip s) = PyStr.strip s
    /\ PyStr.lstrip (rev (PyStr.strip s)) = rev (PyStr.strip s).
Proof.
  unfold PyStr.strip, PyStr.rstrip.
  destruct (lstrip_suffix s) as [pre Hpre].
  set (u := PyStr.lstrip s) in *.
  destruct (lstrip_suffix (rev u)) as [q Hq].
  set (v := PyStr.lstrip (rev u)) in *.
  assert (u = rev v ++ rev q) as Hu.
  { apply (f_equal (@rev N)) in Hq. rewrite rev_involutive, rev_app_distr in Hq.
    exact Hq. }
  exists pre, (rev q). split; [rewrite Hpre at 1; rewrite Hu; reflexivity|].
  split.
  - apply lstrip_fixed. pose proof (lstrip_head s) as Hh. fold u in Hh.
    rewrite Hu in Hh. destruct (rev v) as [|c r]; [exact I | exact Hh].
  - rewrite rev_involutive. apply lstrip_fixed.
    pose proof (lstrip_head (rev u)) as Hh. fold v in Hh.
    destruct v; [exact I | exact Hh].
Qed.

Lemma strip_idempotent (s : pystr) : PyStr.strip (PyStr.strip s) = PyStr.strip s.
Proof.
  destruct (strip_decompose s) as (_ & _ & _ & H1 & H2).
  unfold PyStr.strip at 1, PyStr.rstrip. rewrite H1, H2.
  apply rev_involutive.
Qed.

Lemma strip_subset (s : pystr) (x : N) : In x (PyStr.strip s) -> In x s.
Proof.
  destruct (strip_decompose s) as (pre & post & Hs & _).
  intros H. rewrite Hs. apply in_or_app. right. apply in_or_app. left. exact H.
Qed.

Lemma split_on_pieces (c : N) (s cur : pystr) (p : pystr) :
  ~ In c cur -> In p (PyStr.split_on c s cur) -> ~ In c p.
Proof.
  revert cur. induction s as [|x r IH]; intros cur Hcur; simpl.
  - intros [<- | []]. rewrite <- in_rev. exact Hcur.
  - destruct (x =? c)%N eqn:E.
    + intros [<- | H]; [rewrite <- in_rev; exact Hcur|].
      apply (IH [] ltac:(simpl; tauto) H).
    + apply IH. simpl. intros [-> | H]; [|tauto].
      rewrite N.eqb_refl in E. discriminate.
Qed.

Lemma split_on_chars (c : N) (s cur p : pystr) (x : N) :
  In p (PyStr.split_on c s cur) -> In x p -> In x s \/ In x cur.
Proof.
  revert cur. induction s as [|y r IH]; intros cur; simpl.
  - intros [<- | []] Hx. right. apply in_rev. exact Hx.
  - destruct (y =? c)%N.
    + intros [<- | H] Hx; [right; apply in_rev; exact Hx|].
      destruct (IH [] H Hx) as [H1 | []]. left. right. exact H1.
    + intros H Hx. destruct (IH (y :: cur) H Hx) as [H1 | [<- | H1]].
      * left. right. exact H1.
      * left. left. reflexivity.
      * right. exact H1.
Qed.

Lemma blank_piece_strip (piece : pystr) :
  blank_piece piece <-> PyStr.strip piece = [].
Proof. split; [apply strip_all_space | apply strip_nil_inv]. Qed.

Lemma filter_named_nil (pieces : list pystr) :
  filter (fun d => Py.truthy (PyStr d) = true) (PyStr.strip <$> pieces) = []
  <-> Forall blank_piece pieces.
Proof.
  induction pieces as [|p r IH]; [split; [constructor | reflexivity]|].
  cbn [fmap list_fmap]. rewrite filter_cons.
  destruct (decide (Py.truthy (PyStr (PyStr.strip p)) = true)) as [Ht | Ht].
  - split; [discriminate|].
    intros H. inversion H as [|? ? Hp _]. apply blank_piece_strip in Hp.
    rewrite Hp in Ht. discriminate Ht.
  - rewrite IH. split.
    + intros H. constructor; [|exact H]. apply blank_piece_strip.
      destruct (PyStr.strip p); [reflexivity|]. exfalso. apply Ht. reflexivity.
    + intros H. inversion H; assumption.
Qed.

(** X6: the comma-separated filter of the search tool is read into IDs that
    are not empty, hold no comma and have no whitespace at either end. No
    filter is in force (the list is missing or empty) exactly when every
    comma-separated piece of the argument is empty or whitespace only, as
    for ["  "] and [","]; then all fragments are kept and no
    FILTERED_BY_DOC_IDS line is written. *)
Theorem filter_ids_are_clean (document_ids : pystr) :
  let targets := Search.target_doc_ids document_ids in
  (forall ts t, targets = Some ts -> In t ts ->
     t <> [] /\ ~ In PyStr.COMMA t /\ PyStr.strip t = t)
  /\ (in_force targets = false
      <-> Forall blank_piece (PyStr.split PyStr.COMMA document_ids))
  /\ (in_force targets = false ->
      (forall docs, Search.filtered targets docs = docs)
      /\ Search.filter_line targets = []).
Proof.
  cbv zeta. unfold Search.target_doc_ids. split; [|split].
  - intros ts t. destruct (_ && _); [|discriminate].
    intros [= <-] Hin. apply list_elem_of_In in Hin.
    apply list_elem_of_filter in Hin. destruct Hin as [Ht Hin].
    apply list_elem_of_fmap in Hin. destruct Hin as [piece [-> Hp]].
    split; [|split].
    + intros E. rewrite E in Ht. discriminate Ht.
    + intros Hc. apply strip_subset in Hc.
      apply list_elem_of_In in Hp.
      apply (split_on_pieces PyStr.COMMA document_ids [] piece); auto.
    + apply strip_idempotent.
  - destruct (Py.truthy (PyStr document_ids)
              && Py.truthy (PyStr (PyStr.strip document_ids))) eqn:Ec.
    + rewrite <- filter_named_nil.
      destruct (filter _ _); cbn [in_force]; split;
        try reflexivity; discriminate.
    + cbn [in_force]. split; [|reflexivity]. intros _.
      assert (blank_piece document_ids) as Hb.
      { apply blank_piece_strip.
        destruct (decide (PyStr.strip document_ids = [])) as [E|E]; [exact E|].
        exfalso. cbn [Py.truthy] in Ec.
        rewrite (bool_decide_eq_false_2 _ E) in Ec.
        destruct (bool_decide (document_ids = [])) eqn:Ed.
        - apply bool_decide_eq_true in Ed. subst. apply E. reflexivity.
        - discriminate Ec. }
      apply Forall_forall. intros piece Hp. apply Forall_forall. intros x Hx.
      apply list_elem_of_In in Hp, Hx.
      destruct (split_on_chars PyStr.COMMA document_ids [] piece x Hp Hx)
        as [H | []].
      unfold blank_piece in Hb. rewrite Forall_forall in Hb.
      apply Hb. apply list_elem_of_In. exact H.
  - destruct (_ && _); [|intros _; split; [intros; reflexivity | reflexivity]].
    destruct (filter _ _); [|discriminate].
    intros _. split; [intros; reflexivity | reflexivity].
Qed.

Lemma filter_ids_are_clean_witness :
  Search.target_doc_ids (py " a , ,zz") = Some [py "a"; py "zz"]
  /\ (py "zz" <> [] /\ ~ In PyStr.COMMA (py "zz")
      /\ PyStr.strip (py "zz") = py "zz")
  /\ in_force (Search.target_doc_ids (py " , ")) = false
  /\ Search.filter_line (Search.target_doc_ids (py " , ")) = [].
Proof.
  split; [vm_compute; reflexivity|]. split; [|split].
  - apply (proj1 (filter_ids_are_clean (py " a , ,zz")) [py "a"; py "zz"]
             (py "zz")).
    + vm_compute. reflexivity.
    + vm_compute. tauto.
  - apply (proj1 (proj2 (filter_ids_are_clean (py " , ")))).
    vm_compute. repeat constructor.
  - apply (proj2 (proj2 (filter_ids_are_clean (py " , ")))).
    vm_compute. reflexivity.
Defined.

Lemma join_values_app (a b : list PyVal) (p : list pystr) :
  Search.join_values (a ++ b) = Ok p ->
  exists pa pb, Search.join_values a = Ok pa /\ Search.join_values b = Ok pb
    /\ p = pa ++ pb.
Proof.
  revert p. induction a as [|x r IH]; intros p; simpl.
  - intros H. exists [], p. auto.
  - destruct x; try discriminate.
    destruct (Search.join_values (r ++ b)) as [rest|e] eqn:E; [|discriminate].
    intros [= <-]. destruct (IH rest eq_refl) as (pa & pb & -> & Hb & ->).
    exists (s :: pa), pb. auto.
Qed.

Lemma join_app (sep : pystr) (a b : list pystr) :
  a <> [] -> b <> [] ->
  PyStr.join sep (a ++ b) = PyStr.join sep a ++ sep ++ PyStr.join sep b.
Proof.
  intros Ha Hb. induction a as [|x r IH]; [congruence|].
  destruct r as [|y r'].
  - simpl. destruct b; [congruence | reflexivity].
  - change (PyStr.join sep ((x :: y :: r') ++ b))
      with (x ++ sep ++ PyStr.join sep ((y :: r') ++ b)).
    rewrite IH by discriminate.
    change (PyStr.join sep (x :: y :: r'))
      with (x ++ sep ++ PyStr.join sep (y :: r')).
    rewrite <- !app_assoc. reflexivity.
Qed.

(** The joined text of a chunk set holds the joined text of its middle. *)
Lemma join_middle (sep : pystr) (a m b : list pystr) :
  m <> [] ->
  exists pre post,
    PyStr.join sep (a ++ m ++ b) = pre ++ PyStr.join sep m ++ post.
Proof.
  intros Hm.
  assert (exists post, PyStr.join sep (m ++ b) = PyStr.join sep m ++ post)
    as [post Hpost].
  { destruct b as [|y b'].
    - exists []. rewrite !app_nil_r. reflexivity.
    - exists (sep ++ PyStr.join sep (y :: b')). apply join_app; [exact Hm | discriminate]. }
  destruct a as [|x a'].
  - exists [], post. exact Hpost.
  - exists (PyStr.join sep (x :: a') ++ sep), post.
    rewrite join_app; [|discriminate | destruct m; [congruence | discriminate]].
    rewrite Hpost, <- !app_assoc. reflexivity.
Qed.

(** X7: whatever the adjacency lookup does (no neighbour, a neighbour on
    either side, a result that is no dict, a neighbour that is no text, an
    exception), the text of a fragment holds the block of the main hit:
    its START marker, the content and its END marker; and without a chunk
    number or with a failing lookup the text is that block alone. *)
Theorem main_hit_is_never_lost (w : Search.World) (doc_id chunk_id : PyVal)
    (doc_index counter : nat) (current_page : PyVal) (content : pystr) :
  let block :=
    Search.block_text w doc_id chunk_id doc_index counter current_page content in
  let main := Search.plain_block doc_index counter current_page content in
  (exists pre post, block = pre ++ main ++ post)
  /\ (Py.is_int chunk_id = false -> block = main)
  /\ (forall e, Search.adjacent w doc_id chunk_id = Raise e -> block = main).
Proof.
  cbv zeta. unfold Search.block_text.
  assert (exists pre post,
    Search.plain_block doc_index counter current_page content
    = pre ++ Search.plain_block doc_index counter current_page content ++ post)
    as Hplain by (exists [], []; rewrite app_nil_r; reflexivity).
  split; [|split].
  - destruct (Py.is_int chunk_id); [|exact Hplain].
    destruct (Search.adjacent w doc_id chunk_id) as [adj|e]; [|exact Hplain].
    unfold mbind, result_bind, Search.enhanced_block.
    destruct adj as [| | | | | | a]; try exact Hplain.
    match goal with
    | |- context [Search.join_values (?x ++ ?m ++ ?y)] =>
      destruct (Search.join_values (x ++ m ++ y)) as [parts|e] eqn:E
    end; [|exact Hplain].
    apply join_values_app in E. destruct E as (pa & pmb & _ & E & ->).
    apply join_values_app in E. destruct E as (pm & pb & Em & _ & ->).
    injection Em as <-. simpl try_except.
    destruct (join_middle [PyStr.LF] pa
                [Search.marker doc_index counter (Search.main_tag current_page)
                   (py "START"); content;
                 Search.marker doc_index counter (Search.main_tag current_page)
                   (py "END")] pb ltac:(discriminate)) as (pre & post & H).
    exists pre, post. exact H.
  - intros ->. reflexivity.
  - intros e ->. destruct (Py.is_int chunk_id); reflexivity.
Qed.

Lemma main_hit_is_never_lost_witness :
  Search.block_text (retrieving_without_neighbours []) (PyStr (py "po2023"))
    (PyInt 3) 0 1 (PyInt 4) (py "Die Frist endet am 15. Juli.")
  = Search.plain_block 0 1 (PyInt 4) (py "Die Frist endet am 15. Juli.").
Proof.
  apply (proj2 (proj2 (main_hit_is_never_lost
           (retrieving_without_neighbours []) (PyStr (py "po2023")) (PyInt 3)
           0 1 (PyInt 4) (py "Die Frist endet am 15. Juli.")))
           (Exn (OtherException (py "PineconeException")) (py "timeout"))).
  reflexivity.
Defined.

Lemma document_info_id (doc_id : pystr) (d : pydict) :
  Py.get_none (Store.document_info doc_id d) (py "id") = PyStr doc_id.
Proof.
  unfold Store.document_info.
  destruct (Py.lookup d (py "additional_info")); vm_compute; reflexivity.
Qed.

Lemma collect_documents_ids (items : pydict) :
  entry_ids (Store.collect_documents items) = PyStr <$> record_keys items.
Proof.
  unfold entry_ids, record_keys.
  induction items as [|[doc_id doc_data] r IH]; [reflexivity|].
  cbn [Store.collect_documents List.filter snd].
  destruct doc_data; try exact IH.
  destruct (Store.is_document (PyDict d)); [|exact IH].
  cbn [fmap list_fmap fst]. rewrite document_info_id. f_equal. exact IH.
Qed.

Lemma summary_of_namespace_data (db : Store.Db) (namespace : pystr)
    (namespace_data : pydict) :
  namespace_data <> [] ->
  Store.db_get db (py "files/" ++ namespace) = Ok (PyDict namespace_data) ->
  Store.get_namespace_summary true db namespace
  = Py.dict_of
      [(py "status", Store.success); (py "namespace", PyStr namespace);
       (py "document_count",
        PyInt (Z.of_nat (length (Store.collect_documents namespace_data))));
       (py "documents", PyList (Store.collect_documents namespace_data));
       (py "project_info",
        if Store.status_is_success (Store.get_project_info db namespace)
        then Py.get_none (Store.get_project_info db namespace) (py "data")
        else PyNone)].
Proof.
  intros Hne Hget.
  unfold Store.get_namespace_summary, Store.namespace_summary_body.
  unfold Store.get_namespace_data. rewrite Hget.
  destruct namespace_data as [|kv rest]; [congruence|]. reflexivity.
Qed.

Lemma collect_documents_length (items : pydict) :
  length (Store.collect_documents items) = length (record_keys items).
Proof.
  rewrite <- (length_fmap PyStr (record_keys items)), <- collect_documents_ids.
  unfold entry_ids. rewrite length_fmap. reflexivity.
Qed.

(** X8: when Firebase holds a non-empty record for the namespace,
    [get_namespace_summary] succeeds and lists one entry per document
    record, in the order of the stored data and under the key of the
    record as [id]; entries that are no document records (example
    questions, project info, a global summary) are left out. *)
Theorem summary_lists_records_in_order (db : Store.Db) (namespace : pystr)
    (namespace_data : pydict) :
  namespace_data <> [] ->
  Store.db_get db (py "files/" ++ namespace) = Ok (PyDict namespace_data) ->
  let r := Store.get_namespace_summary true db namespace in
  field r "status" = PyStr (py "success")
  /\ exists docs,
       field r "documents" = PyList docs
       /\ entry_ids docs = PyStr <$> record_keys namespace_data
       /\ field r "document_count"
          = PyInt (Z.of_nat (length (record_keys namespace_data))).
Proof.
  intros Hne Hget. cbv zeta.
  rewrite (summary_of_namespace_data db namespace namespace_data Hne Hget).
  split; [vm_compute; reflexivity|].
  exists (Store.collect_documents namespace_data).
  split; [vm_compute; reflexivity|].
  split; [apply collect_documents_ids|].
  rewrite <- collect_documents_length.
  vm_compute. reflexivity.
Qed.

Lemma summary_lists_records_in_order_witness :
  let r := Store.get_namespace_summary true (db_holding sample_namespace_data)
             (py "kurs-a") in
  field r "status" = PyStr (py "success")
  /\ exists docs,
       field r "documents" = PyList docs
       /\ entry_ids docs = [PyStr (py "po2023")]
       /\ field r "document_count" = PyInt 1.
Proof.
  apply (summary_lists_records_in_order (db_holding sample_namespace_data)
           (py "kurs-a")
           [(py "po2023",
             PyDict [(py "name", PyStr (py "Pruefungsordnung.pdf"));
                     (py "summary", PyStr (py "Regelt die Pruefungen."));
                     (py "chunk_count", PyInt 12);
                     (py "status", PyStr (py "indexed"))]);
            (py "example_questions", PyList [PyStr (py "Wann endet die Frist?")])]).
  - discriminate.
  - reflexivity.
Defined.

Lemma error_response_is_error_reply (m a o : pystr) :
  error_reply (Chat.error_response m a o).
Proof.
  unfold error_reply, Chat.error_response. split; [vm_compute; reflexivity|].
  eexists. split; [vm_compute; reflexivity|].
  destruct (structured_fields (PyStr a) (PyList []) (PyList []) Answer.f_zero
              (PyBool false) (PyStr o) (PyList []))
    as (_ & Hi & _ & Hc & _ & _ & Hp).
  repeat split; assumption.
Qed.

(** X9: a [send_message] call that is refused (blank or non-string input
    or namespace) or whose bot raises returns an error reply and leaves
    every chat buffer as it was; a bot result that is no dict is reported
    as an error too, but by then the user's message has been appended to
    the buffer of the namespace. *)
Theorem failed_message_and_chat_state (bot : Chat.Bot)
    (chat_history : gmap pystr (list PyVal)) (user_input namespace : PyVal) :
  let r := Chat.send_message bot chat_history user_input namespace in
  let old := default [] (chat_history !! PyRepr.str namespace) in
  let outcome := bot (PyRepr.str user_input) (PyRepr.str namespace) old in
  (blank_or_no_text user_input \/ blank_or_no_text namespace
   \/ (exists e, outcome = Raise e) ->
   error_reply r.1 /\ r.2 = chat_history)
  /\ (forall v, ~ blank_or_no_text user_input -> ~ blank_or_no_text namespace ->
        outcome = Ok v -> Py.is_dict v = false ->
        error_reply r.1
        /\ r.2 !! PyRepr.str namespace
           = Some (old ++ [Chat.message "user" (PyStr (PyRepr.str user_input))])).
Proof.
  cbv zeta. unfold Chat.send_message. split.
  - intros H.
    destruct (Answer.invalid_text user_input) eqn:Eu;
      [split; [apply error_response_is_error_reply | reflexivity]|].
    destruct (Answer.invalid_text namespace) eqn:En;
      [split; [apply error_response_is_error_reply | reflexivity]|].
    destruct H as [H | [H | [e H]]].
    + apply invalid_text_iff in H. congruence.
    + apply invalid_text_iff in H. congruence.
    + rewrite H. split; [apply error_response_is_error_reply | reflexivity].
  - intros v Hu Hn Hv Hd.
    destruct (Answer.invalid_text user_input) eqn:Eu;
      [exfalso; apply Hu, invalid_text_iff, Eu|].
    destruct (Answer.invalid_text namespace) eqn:En;
      [exfalso; apply Hn, invalid_text_iff, En|].
    rewrite Hv.
    destruct v as [| b | n | f | s | l | d]; try discriminate Hd;
      (split; [apply error_response_is_error_reply
              | cbn [snd]; apply lookup_insert_eq]).
Qed.

Lemma failed_message_and_chat_state_witness :
  (let r := Chat.send_message
              (failing_bot (Exn ValueError (py "kein Agent")))
              full_history (PyStr (py "Und danach?")) (PyStr (py "kurs-a")) in
   error_reply r.1 /\ r.2 = full_history)
  /\ (let r := Chat.send_message (fun _ _ _ => Ok PyNone) ∅
                 (PyStr (py "Und danach?")) (PyStr (py "kurs-a")) in
      error_reply r.1
      /\ r.2 !! py "kurs-a"
         = Some [Chat.message "user" (PyStr (py "Und danach?"))]).
Proof.
  split.
  - apply (failed_message_and_chat_state
             (failing_bot (Exn ValueError (py "kein Agent")))
             full_history (PyStr (py "Und danach?")) (PyStr (py "kurs-a"))).
    right. right. exists (Exn ValueError (py "kein Agent")). reflexivity.
  - pose proof (proj2 (failed_message_and_chat_state (fun _ _ _ => Ok PyNone) ∅
                         (PyStr (py "Und danach?")) (PyStr (py "kurs-a")))
                  PyNone) as H.
    rewrite lookup_empty in H. apply H.
    + vm_compute. intros Hb. inversion Hb. discriminate.
    + vm_compute. intros Hb. inversion Hb. discriminate.
    + reflexivity.
    + reflexivity.
Defined.

Lemma nothing_read_summary (db : Store.Db) (namespace : pystr) :
  nothing_read db namespace ->
  exists project_info,
    Store.get_namespace_summary true db namespace
    = Py.dict_of
        [(py "status", Store.success); (py "namespace", PyStr namespace);
         (py "document_count", PyInt 0); (py "documents", PyList []);
         (py "project_info", project_info);
         (py "message",
          PyStr (py "No documents found or Firebase not available"))].
Proof.
  intros H. eexists.
  unfold Store.get_namespace_summary, Store.namespace_summary_body.
  assert (Store.status_is_success (Store.get_namespace_data db namespace)
          && Py.truthy (Py.get_none (Store.get_namespace_data db namespace)
                          (py "data")) = false) as ->.
  { unfold Store.get_namespace_data.
    destruct H as [[e ->] | (v & -> & Hv)].
    - vm_compute. reflexivity.
    - cbn [mbind result_bind try_except]. rewrite Hv. vm_compute. reflexivity. }
  reflexivity.
Qed.

(** X10: when the store raises on the read of the namespace, or holds
    nothing for it, the three overviews read the same as for a namespace
    without documents: the tool, the prompt overview and [get_documents]
    return their "no documents" texts and none of them reports an error. *)
Theorem store_failure_reads_as_no_documents (db : Store.Db)
    (namespace : pystr) :
  nothing_read db namespace ->
  Overview.document_overview_tool true db namespace
  = Overview.no_documents_in_namespace
  /\ Overview.get_documents_overview_for_prompt true db namespace
     = Overview.no_documents_available
  /\ Overview.get_documents true db namespace
     = py "No documents found in namespace " ++ namespace.
Proof.
  intros H.
  destruct (nothing_read_summary db namespace H) as [info E].
  unfold Overview.document_overview_tool,
    Overview.get_documents_overview_for_prompt. rewrite E.
  split; [vm_compute; reflexivity|].
  split; [vm_compute; reflexivity|].
  unfold Overview.get_documents. cbn [negb].
  assert (negb (Store.status_is_success (Store.get_namespace_data db namespace))
          || negb (Py.truthy (Py.get_none (Store.get_namespace_data db namespace)
                                (py "data"))) = true) as ->.
  { unfold Store.get_namespace_data.
    destruct H as [[e ->] | (v & -> & Hv)].
    - vm_compute. reflexivity.
    - cbn [mbind result_bind try_except]. rewrite Hv. vm_compute. reflexivity. }
  reflexivity.
Qed.

Lemma store_failure_reads_as_no_documents_witness :
  Overview.document_overview_tool true db_unreachable (py "kurs-a")
  = Overview.no_documents_in_namespace
  /\ Overview.get_documents_overview_for_prompt true db_unreachable (py "kurs-a")
     = Overview.no_documents_available
  /\ Overview.get_documents true db_unreachable (py "kurs-a")
     = py "No documents found in namespace " ++ py "kurs-a".
Proof.
  apply (store_failure_reads_as_no_documents db_unreachable (py "kurs-a")).
  left. eexists. reflexivity.
Defined.

Lemma document_info_lookups (doc_id : pystr) (d : pydict) :
  Py.lookup (Store.document_info doc_id d) (py "id") = Some (PyStr doc_id)
  /\ Py.lookup (Store.document_info doc_id d) (py "summary")
     = Some (Py.get d (py "summary")
               (PyStr (py "Keine Zusammenfassung verfügbar")))
  /\ Py.lookup (Store.document_info doc_id d) (py "name")
     = Some (Py.get d (py "name") (PyStr doc_id)).
Proof.
  unfold Store.document_info.
  destruct (Py.lookup d (py "additional_info")); vm_compute; repeat split.
Qed.

Lemma slice_to_length {A} (l : list A) (n : nat) :
  length (PyStr.slice l 0 (Z.of_nat n)) <= n.
Proof.
  unfold PyStr.slice, PyStr.clamp. rewrite length_take, length_drop.
  destruct (Z.of_nat n <? 0)%Z eqn:E; [lia|].
  change (0 <? 0)%Z with false. cbv iota. lia.
Qed.

Lemma prompt_line_of_record (doc_id : pystr) (d : pydict) :
  (forall s, Py.lookup d (py "summary") = Some s -> Py.is_str s = true) ->
  exists line,
    Overview.prompt_line (PyDict (Store.document_info doc_id d)) = Ok [line]
    /\ prompt_entry doc_id line.
Proof.
  intros Hs.
  destruct (document_info_lookups doc_id d) as (Hid & Hsum & Hname).
  unfold Overview.prompt_line, Overview.item, Py.get.
  rewrite Hsum, Hid, Hname.
  assert (exists s, Py.get d (py "summary")
                      (PyStr (py "Keine Zusammenfassung verfügbar")) = PyStr s)
    as [s ->].
  { unfold Py.get. destruct (Py.lookup d (py "summary")) as [v|] eqn:E.
    - specialize (Hs v eq_refl). destruct v; try discriminate. eauto.
    - eauto. }
  cbn [mbind result_bind Overview.slice_to Overview.len Overview.add_str
       PyRepr.str].
  eexists. split; [reflexivity|].
  eexists _, _. split; [reflexivity|].
  rewrite length_app.
  pose proof (slice_to_length s 150) as Hl. change (Z.of_nat 150) with 150%Z in Hl.
  destruct (150 <? length s)%nat; simpl length; lia.
Qed.

Lemma prompt_lines_of_records (items : pydict) :
  textual_summaries items ->
  exists lines,
    Overview.extend Overview.prompt_line (Store.collect_documents items)
    = Ok lines
    /\ Forall2 prompt_entry (record_keys items) lines.
Proof.
  unfold record_keys.
  induction items as [|[doc_id doc_data] r IH]; intros Ht.
  - exists []. split; [reflexivity | constructor].
  - assert (textual_summaries r) as Hr.
    { intros k d s Hin. apply (Ht k d s). right. exact Hin. }
    destruct (IH Hr) as (lines & El & Hl).
    cbn [Store.collect_documents List.filter snd].
    destruct doc_data as [| | | | | | d];
      try (exists lines; split; [exact El | exact Hl]).
    destruct (Store.is_document (PyDict d));
      [|exists lines; split; [exact El | exact Hl]].
    destruct (prompt_line_of_record doc_id d) as (line & E1 & H1).
    { intros s. apply (Ht doc_id d s). left. reflexivity. }
    exists (line :: lines). split.
    + cbn [Overview.extend]. rewrite E1, El. reflexivity.
    + cbn [fmap list_fmap fst]. constructor; assumption.
Qed.

Lemma atom_eq_int_zero (n : Z) :
  PyRepr.atom_eq (PyInt n) (PyInt 0) = (n =? 0)%Z.
Proof.
  unfold PyRepr.atom_eq, PyRepr.as_dec, PyRepr.dec_eqb. cbn.
  rewrite Z.mul_1_r. reflexivity.
Qed.

(** X11: when the store holds the data of the namespace, at least one entry
    of it is a document record and the summaries stored are strings, the
    overview for the prompt is the header with the number of records, one
    line per record in the order of the store, each with the key of the
    record as ID and a topic of at most 150 characters plus the dots, and
    the task lines. *)
Theorem prompt_overview_lists_every_record (db : Store.Db)
    (namespace : pystr) (namespace_data : pydict) :
  Store.db_get db (py "files/" ++ namespace) = Ok (PyDict namespace_data) ->
  record_keys namespace_data <> [] ->
  textual_summaries namespace_data ->
  exists lines,
    Overview.get_documents_overview_for_prompt true db namespace
    = PyStr.join [PyStr.LF]
        ([prompt_header (length (record_keys namespace_data))]
         ++ lines ++ Overview.prompt_tasks)
    /\ Forall2 prompt_entry (record_keys namespace_data) lines.
Proof.
  intros Hget Hrec Ht.
  assert (namespace_data <> []) as Hne by (intros ->; apply Hrec; reflexivity).
  destruct (prompt_lines_of_records namespace_data Ht) as (lines & El & Hl).
  exists lines. split; [|exact Hl].
  unfold Overview.get_documents_overview_for_prompt.
  rewrite (summary_of_namespace_data db namespace namespace_data Hne Hget).
  rewrite collect_documents_length.
  set (n := length (record_keys namespace_data)).
  set (docs := Store.collect_documents namespace_data) in *.
  set (info := if Store.status_is_success _ then _ else _).
  unfold Overview.prompt_overview_of.
  change (Overview.item _ "status") with (Ok Store.success).
  cbn [mbind result_bind].
  change (PyRepr.atom_eq Store.success Store.success) with true. cbn [negb].
  change (Overview.item _ "document_count") with (Ok (PyInt (Z.of_nat n))).
  cbn [mbind result_bind]. rewrite atom_eq_int_zero.
  assert ((Z.of_nat n =? 0)%Z = false) as ->.
  { apply Z.eqb_neq. subst n. destruct (record_keys namespace_data);
      [congruence | simpl; lia]. }
  change (Overview.item _ "documents") with (Ok (PyList docs)).
  cbn [mbind result_bind Search.iter_items]. rewrite El.
  cbn [mbind result_bind try_except]. unfold prompt_header.
  change (PyRepr.str (PyInt (Z.of_nat n))) with (PyStr.of_Z (Z.of_nat n)).
  exact eq_refl.
Qed.

Lemma prompt_overview_lists_every_record_witness :
  exists lines,
    Overview.get_documents_overview_for_prompt true
      (db_holding sample_namespace_data) (py "kurs-a")
    = PyStr.join [PyStr.LF] ([prompt_header 1] ++ lines ++ Overview.prompt_tasks)
    /\ Forall2 prompt_entry [py "po2023"] lines.
Proof.
  apply (prompt_overview_lists_every_record (db_holding sample_namespace_data)
           (py "kurs-a")
           [(py "po2023",
             PyDict [(py "name", PyStr (py "Pruefungsordnung.pdf"));
                     (py "summary", PyStr (py "Regelt die Pruefungen."));
                     (py "chunk_count", PyInt 12);
                     (py "status", PyStr (py "indexed"))]);
            (py "example_questions", PyList [PyStr (py "Wann endet die Frist?")])]).
  - reflexivity.
  - vm_compute. discriminate.
  - intros k d s [[= <- <-] | [[=] | []]]. vm_compute. intros [= <-]. reflexivity.
Defined.













Lemma status_result_items (gs : PyVal) :
  let d := Py.dict_of [(py "status", Store.success);
                       (py "generation_status", gs)] in
  Overview.item d "status" = Ok Store.success
  /\ Overview.item d "generation_status" = Ok gs.
Proof. vm_compute. split; reflexivity. Qed.

(** X14: the endpoint serves questions only for the stored status
    "completed": whenever the status read for the namespace differs from
    "completed", the reply has no [data]. And it serves what
    [set_example_questions] stores: when the database gives back the record
    written there, and the [status] of the record below it, the reply is
    [success] with the stored pairs as [data]. *)
Theorem endpoint_serves_completed_questions (db : Store.Db)
    (namespace : pystr) :
  ~ blank_or_no_text (PyStr namespace) ->
  let r := Serving.get_example_questions_endpoint (Ok db) (PyStr namespace) in
  (forall v, Store.db_get db (Examples.status_path namespace) = Ok v ->
     PyRepr.atom_eq v (PyStr (py "completed")) = false ->
     Py.has_key r (py "data") = false)
  /\ (forall wr questions_and_answers path record,
        (Examples.set_example_questions wr namespace questions_and_answers).2
        = [Examples.Wrote path record] ->
        Store.db_get db path = Ok record ->
        Store.db_get db (path ++ py "/status")
        = Ok (reply_field record "status") ->
        r = Py.dict_of [(py "status", Store.success);
                        (py "data", questions_and_answers)]).
Proof.
  intros Hn. cbv zeta.
  assert (Answer.invalid_text (PyStr namespace) = false) as En.
  { apply not_true_is_false. intros H. apply Hn, invalid_text_iff, H. }
  unfold Serving.get_example_questions_endpoint. rewrite En.
  change (PyRepr.str (PyStr namespace)) with namespace.
  unfold Serving.get_example_questions_status. split.
  - intros v -> Hc. cbn [mbind result_bind try_except].
    set (gs := if Py.truthy v then v else PyStr (py "not_found")).
    assert (PyRepr.atom_eq gs (PyStr (py "completed")) = false) as Hgs.
    { subst gs. destruct (Py.truthy v); [exact Hc | vm_compute; reflexivity]. }
    clearbody gs.
    destruct (status_result_items gs) as [-> ->].
    cbn [mbind result_bind].
    change (PyRepr.atom_eq Store.success Store.success) with true. cbv iota.
    rewrite Hgs.
    destruct (PyRepr.atom_eq gs (PyStr (py "generating")));
      [vm_compute; reflexivity|].
    destruct (PyRepr.atom_eq gs (PyStr (py "error"))); vm_compute; reflexivity.
  - intros wr qa path record [= <- <-] Hrec Hst.
    assert (Examples.example_questions_path namespace ++ py "/status"
            = Examples.status_path namespace) as Epath.
    { unfold Examples.example_questions_path, Examples.status_path.
      rewrite <- !app_assoc. reflexivity. }
    rewrite Epath in Hst. rewrite Hst.
    unfold Serving.get_example_questions. rewrite Hrec.
    vm_compute. reflexivity.
Qed.

Lemma endpoint_serves_completed_questions_witness :
  Serving.get_example_questions_endpoint
    (Ok (db_with_examples (py "kurs-a")
           (Examples.questions_record (PyList [PyStr (py "Frage")]))))
    (PyStr (py "kurs-a"))
  = Py.dict_of [(py "status", Store.success);
                (py "data", PyList [PyStr (py "Frage")])].
Proof.
  apply (proj2 (endpoint_serves_completed_questions
                  (db_with_examples (py "kurs-a")
                     (Examples.questions_record (PyList [PyStr (py "Frage")])))
                  (py "kurs-a")
                  ltac:(vm_compute; intros H; inversion H; discriminate))
           writable (PyList [PyStr (py "Frage")])
           (Examples.example_questions_path (py "kurs-a"))
           (Examples.questions_record (PyList [PyStr (py "Frage")]))).
  - reflexivity.
  - vm_compute. reflexivity.
  - vm_compute. reflexivity.
Defined.

(** X15: [_handle_task_state] raises [HTTPException] exactly for the
    states FAILURE and REVOKED, always with code 500 and a detail that
    carries the state, the status FAILURE and progress 0; every dict it
    returns carries the state of the task under [state], the status that
    belongs to the state, and progress 0 (PENDING, unknown states), 100
    (SUCCESS) or the [current] of the task's info (STARTED, PROCESSING). *)
Theorem task_state_is_reported (task : Tasks.Task) :
  let state := Tasks.task_state task in
  let r := Tasks.handle_task_state task in
  (failed_state state = true <->
   exists detail, r = Tasks.HTTPException 500 (PyDict detail)
                  /\ field detail "state" = PyStr state
                  /\ field detail "status" = PyStr (py "FAILURE")
                  /\ field detail "progress" = PyInt 0)
  /\ (forall d, r = Tasks.Returned d ->
        field d "state" = PyStr state
        /\ field d "status" = PyStr (reported_status state)
        /\ (field d "progress" = PyInt 0 \/ field d "progress" = PyInt 100
            \/ field d "progress"
               = Py.get (Tasks.dict_or_empty (Tasks.task_info task))
                   (py "current") (PyInt 0))).
Proof.
  destruct task as [state info result]. cbv zeta. cbn [Tasks.task_state].
  unfold Tasks.handle_task_state, failed_state, reported_status.
  cbn [Tasks.task_state Tasks.task_info Tasks.task_result].
  destruct (PyStr.eqb state (py "PENDING")) eqn:E1.
  { apply bool_decide_eq_true in E1. subst state. split.
    - split; [discriminate | intros (? & [=] & _)].
    - intros d [= <-]. repeat split; try (vm_compute; reflexivity).
      left. vm_compute. reflexivity. }
  destruct (PyStr.eqb state (py "STARTED") || PyStr.eqb state (py "PROCESSING"))
    eqn:E2.
  { assert (PyStr.eqb state (py "FAILURE") || PyStr.eqb state (py "REVOKED")
            = false) as ->.
    { apply orb_true_iff in E2. unfold PyStr.eqb in *.
      destruct E2 as [E2 | E2]; apply bool_decide_eq_true in E2; subst state;
        reflexivity. }
    split.
    - split; [discriminate | intros (? & [=] & _)].
    - intros d [= <-]. repeat split; try (vm_compute; reflexivity).
      right. right. vm_compute. reflexivity. }
  destruct (PyStr.eqb state (py "FAILURE") || PyStr.eqb state (py "REVOKED"))
    eqn:E3.
  { split.
    - split; [|reflexivity]. intros _. eexists. split; [reflexivity|].
      repeat split; vm_compute; reflexivity.
    - intros d [=]. }
  destruct (PyStr.eqb state (py "SUCCESS")) eqn:E4.
  { split.
    - split; [discriminate|]. intros (detail & H & _).
      destruct (negb _); [discriminate|].
      unfold Tasks.nested_status in H.
      destruct (Py.get _ (py "pinecone_result") _); try discriminate.
      destruct (Py.get _ (py "firebase_result") _); discriminate.
    - intros d H.
      destruct (negb _).
      + injection H as <-. repeat split; try (vm_compute; reflexivity).
        right. left. vm_compute. reflexivity.
      + unfold Tasks.nested_status in H.
        destruct (Py.get _ (py "pinecone_result") _); try discriminate.
        destruct (Py.get _ (py "firebase_result") _); try discriminate.
        injection H as <-. repeat split; try (vm_compute; reflexivity).
        right. left. vm_compute. reflexivity. }
  split.
  - split; [discriminate | intros (? & [=] & _)].
  - intros d [= <-]. repeat split; try (vm_compute; reflexivity).
    left. vm_compute. reflexivity.
Qed.

Lemma task_state_is_reported_witness :
  let task := {| Tasks.task_state := py "PROCESSING";
                 Tasks.task_info :=
                   Tasks.Value (PyDict [(py "current", PyInt 40)]);
                 Tasks.task_result := Tasks.Value PyNone |} in
  exists d, Tasks.handle_task_state task = Tasks.Returned d
            /\ field d "state" = PyStr (py "PROCESSING")
            /\ field d "status" = PyStr (py "PROCESSING")
            /\ field d "progress" = PyInt 40.
Proof.
  cbv zeta. eexists. split; [reflexivity|].
  destruct (proj2 (task_state_is_reported
                     {| Tasks.task_state := py "PROCESSING";
                        Tasks.task_info :=
                          Tasks.Value (PyDict [(py "current", PyInt 40)]);
                        Tasks.task_result := Tasks.Value PyNone |})
              _ eq_refl) as (Hs & Hst & _).
  split; [exact Hs|]. split; [exact Hst|]. vm_compute. reflexivity.
Defined.

(** X16: [get_task_status] ends in a returned dict or in an
    [HTTPException] with code 500 whose detail is a string; it returns
    exactly the dicts [_handle_task_state] returns. For a failed task
    (FAILURE, REVOKED) the detail is the text of the exception raised by
    [_handle_task_state], so the dict with the state and the error does not
    reach the client as a dict. *)
Theorem task_failure_detail_is_flattened (http_str : Z -> PyVal -> pystr)
    (found : result Tasks.Task) :
  let r := Tasks.get_task_status http_str found in
  ((exists d, r = Tasks.Returned d
              /\ exists task, found = Ok task
                              /\ Tasks.handle_task_state task = Tasks.Returned d)
   \/ exists text, r = Tasks.HTTPException 500 (PyStr text))
  /\ (forall task, found = Ok task ->
        failed_state (Tasks.task_state task) = true ->
        exists detail,
          Tasks.handle_task_state task = Tasks.HTTPException 500 (PyDict detail)
          /\ r = Tasks.HTTPException 500 (PyStr (http_str 500%Z (PyDict detail)))).
Proof.
  cbv zeta. unfold Tasks.get_task_status. split.
  - destruct found as [task|e]; [|right; eauto].
    destruct (Tasks.handle_task_state task) eqn:E; eauto 8.
  - intros task -> Hf.
    unfold Tasks.handle_task_state. unfold failed_state in Hf.
    assert (PyStr.eqb (Tasks.task_state task) (py "PENDING") = false) as ->.
    { unfold PyStr.eqb in *. apply bool_decide_eq_false. intros E.
      rewrite E in Hf. discriminate. }
    assert (PyStr.eqb (Tasks.task_state task) (py "STARTED")
            || PyStr.eqb (Tasks.task_state task) (py "PROCESSING") = false) as ->.
    { unfold PyStr.eqb in *. apply orb_false_iff.
      split; apply bool_decide_eq_false; intros E; rewrite E in Hf;
        discriminate. }
    rewrite Hf. eexists. split; reflexivity.
Qed.

Lemma task_failure_detail_is_flattened_witness :
  exists detail,
    Tasks.handle_task_state
      {| Tasks.task_state := py "FAILURE";
         Tasks.task_info := Tasks.Failure (Exn ValueError (py "kein PDF"));
         Tasks.task_result := Tasks.Failure (Exn ValueError (py "kein PDF")) |}
    = Tasks.HTTPException 500 (PyDict detail)
    /\ Tasks.get_task_status starlette_str
         (Ok {| Tasks.task_state := py "FAILURE";
                Tasks.task_info := Tasks.Failure (Exn ValueError (py "kein PDF"));
                Tasks.task_result :=
                  Tasks.Failure (Exn ValueError (py "kein PDF")) |})
       = Tasks.HTTPException 500 (PyStr (starlette_str 500 (PyDict detail))).
Proof.
  apply (proj2 (task_failure_detail_is_flattened starlette_str
                  (Ok {| Tasks.task_state := py "FAILURE";
                         Tasks.task_info :=
                           Tasks.Failure (Exn ValueError (py "kein PDF"));
                         Tasks.task_result :=
                           Tasks.Failure (Exn ValueError (py "kein PDF")) |}))
           _ eq_refl).
  vm_compute. reflexivity.
Defined.

Lemma pages_of_raises_value_error (pieces : list pystr) (e : exn) :
  Upload.pages_of pieces = Raise e -> exn_cls e = ValueError.
Proof.
  induction pieces as [|page rest IH]; [discriminate|].
  cbn [Upload.pages_of].
  destruct (Py.truthy (PyStr (PyStr.strip page))); [|exact IH].
  destruct (PyRepr.int_of_str (PyStr.strip page)) as [n|e0] eqn:E.
  - cbn [mbind result_bind].
    destruct (Upload.pages_of rest); [discriminate|].
    cbn [mbind result_bind]. intros [= <-]. apply IH. reflexivity.
  - cbn [mbind result_bind]. intros [= <-].
    unfold PyRepr.int_of_str in E. revert E.
    destruct (match PyStr.strip (PyStr.strip page) with
              | 45%N :: r0 => (true, r0)
              | 43%N :: r0 => (false, r0)
              | _ => (false, PyStr.strip (PyStr.strip page))
              end) as [neg ds].
    destruct (PyRepr.int_digits ds false 0).
    + destruct (_ <? _)%nat; [intros [= <-]; reflexivity | discriminate].
    + intros [= <-]. reflexivity.
Qed.

(** X17: [upload_file] hands nothing to the worker unless the upload is
    valid: a file name that is missing or does not end in ".pdf" and a
    [numberPages] with an entry that [int] rejects are answered with status
    "error" and no [delay] call is made. Whenever it reports success, the
    file name ends in ".pdf", exactly the processing task and then the
    example-question task were handed over, and the pages of the reply are
    the pages given to the processing task. The example-question task is
    never handed over without the processing task before it. *)
Theorem upload_queues_after_validation (w : Upload.World)
    (filename : option pystr) (namespace fileID hasTablesOrGraphics : pystr)
    (numberPages : option pystr) :
  let r := Upload.upload_file w filename namespace fileID hasTablesOrGraphics
             numberPages in
  (~ pdf_name filename -> field r.1 "status" = PyStr (py "error") /\ r.2 = [])
  /\ (forall e, Upload.special_pages_of numberPages = Raise e ->
        field r.1 "status" = PyStr (py "error") /\ r.2 = [])
  /\ (field r.1 "status" = PyStr (py "success") ->
      pdf_name filename
      /\ exists name pages,
           filename = Some name
           /\ Upload.special_pages_of numberPages = Ok pages
           /\ r.2 = [Upload.ProcessDocument namespace fileID name
                       hasTablesOrGraphics pages;
                     Upload.GenerateExampleQuestions namespace]
           /\ field r.1 "special_pages" = PyList (PyInt <$> pages))
  /\ (r.2 = []
      \/ exists task rest, r.2 = task :: rest
           /\ (exists name pages,
                 task = Upload.ProcessDocument namespace fileID name
                          hasTablesOrGraphics pages)
           /\ (rest = [] \/ rest = [Upload.GenerateExampleQuestions namespace])).
Proof.
  cbv zeta. unfold Upload.upload_file.
  assert (forall (d : pydict) (P : Prop),
            field d "status" = PyStr (py "error") ->
            field d "status" = PyStr (py "success") -> P) as Hno.
  { intros d P -> [=]. }
  destruct filename as [name|].
  2:{ split; [intros _; split; [vm_compute; reflexivity | reflexivity]|].
      split; [intros e _; split; [vm_compute; reflexivity | reflexivity]|].
      split; [apply Hno; vm_compute; reflexivity | left; reflexivity]. }
  destruct (Upload.endswith (py ".pdf") (PyStr.lower name)) eqn:Epdf; cbn [negb].
  2:{ split; [intros _; split; [vm_compute; reflexivity | reflexivity]|].
      split; [intros e _; split; [vm_compute; reflexivity | reflexivity]|].
      split; [apply Hno; vm_compute; reflexivity | left; reflexivity]. }
  assert (pdf_name (Some name)) as Hpdf
    by (exists name; split; [reflexivity | exact Epdf]).
  split; [intros Hn; contradiction|].
  destruct (Upload.read w) as [[]|e0].
  2:{ split; [intros e _; split; [vm_compute; reflexivity | reflexivity]|].
      split; [apply Hno; vm_compute; reflexivity | left; reflexivity]. }
  destruct (Upload.special_pages_of numberPages) as [pages|e1] eqn:Ep.
  2:{ assert (exn_cls e1 = ValueError) as ->.
      { unfold Upload.special_pages_of in Ep.
        destruct numberPages as [s|]; [|discriminate].
        destruct (Py.truthy (PyStr s)); [|discriminate].
        apply (pages_of_raises_value_error _ _ Ep). }
      split; [intros e _; split; [vm_compute; reflexivity | reflexivity]|].
      split; [apply Hno; vm_compute; reflexivity | left; reflexivity]. }
  split; [intros e [=]|].
  destruct (Upload.delay_process w _) as [task_id|e2].
  2:{ split; [apply Hno; vm_compute; reflexivity|].
      right. eexists _, _. split; [reflexivity|].
      split; [eauto | left; reflexivity]. }
  destruct (Upload.delay_questions w namespace) as [[]|e3].
  2:{ split; [apply Hno; vm_compute; reflexivity|].
      right. eexists _, _. split; [reflexivity|].
      split; [eauto | right; reflexivity]. }
  split.
  - intros _. split; [exact Hpdf|]. exists name, pages.
    split; [reflexivity|]. split; [reflexivity|]. split; [reflexivity|].
    vm_compute. reflexivity.
  - right. eexists _, _. split; [reflexivity|].
    split; [eauto | right; reflexivity].
Qed.

Lemma upload_queues_after_validation_witness :
  let r := Upload.upload_file (accepting_worker (py "t-1"))
             (Some (py "Skript.PDF")) (py "kurs-a") (py "po2023") (py "false")
             (Some (py "1, x")) in
  field r.1 "status" = PyStr (py "error") /\ r.2 = [].
Proof.
  destruct (upload_queues_after_validation (accepting_worker (py "t-1"))
              (Some (py "Skript.PDF")) (py "kurs-a") (py "po2023") (py "false")
              (Some (py "1, x"))) as (_ & H & _).
  apply (H (Exn ValueError
              (py "invalid literal for int() with base 10: 'x'"))).
  vm_compute. reflexivity.
Defined.

Lemma delete_document_keys (firebase_available : bool)
    (vector_deleted : result PyVal) (db : Store.Db) (namespace fileID : pystr)
    (result : pydict) :
  Store.delete_document firebase_available vector_deleted db namespace fileID
  = Ok result ->
  exists status message,
    Overview.item result "status" = Ok status
    /\ Overview.item result "message" = Ok message
    /\ field result "status" = status
    /\ field result "message" = message.
Proof.
  unfold Store.delete_document.
  destruct vector_deleted as [v|e]; [|discriminate].
  cbn [mbind result_bind].
  destruct v as [| | | | | | vr]; try discriminate.
  intros [= <-]. eexists _, _.
  repeat split; vm_compute; reflexivity.
Qed.

(** X18: the reply of [delete_file] and the follow-up tasks it hands over
    do not depend on [just_firebase] (nor on [file_name]). When
    [delete_document] returns and both tasks are accepted, the reply
    repeats its status and message, and the assessment task and the
    example-question task were handed over in this order; when
    [delete_document] raises, the reply is an error and no task was handed
    over. *)
Theorem delete_file_ignores_just_firebase (w : Deletion.World)
    (firebase_available : bool) (vector_deleted : result PyVal)
    (db : Store.Db) (file_name namespace fileID just_firebase : pystr) :
  let deleted :=
    Store.delete_document firebase_available vector_deleted db namespace fileID in
  let r := Deletion.delete_file w firebase_available vector_deleted db
             file_name namespace fileID just_firebase in
  (forall other_name other_flag,
     Deletion.delete_file w firebase_available vector_deleted db other_name
       namespace fileID other_flag = r)
  /\ (forall result,
        deleted = Ok result ->
        Deletion.delay_assessment w namespace = Ok tt ->
        Deletion.delay_questions w namespace = Ok tt ->
        field r.1 "status" = field result "status"
        /\ field r.1 "message" = field result "message"
        /\ field r.1 "agent_processor_status" = field result "status"
        /\ r.2 = [Deletion.GenerateAssessment namespace;
                  Deletion.GenerateExampleQuestions namespace])
  /\ (forall e, deleted = Raise e ->
        field r.1 "status" = PyStr (py "error") /\ r.2 = []).
Proof.
  cbv zeta.
  assert (forall name flag,
            Deletion.delete_file w firebase_available vector_deleted db name
              namespace fileID flag
            = Deletion.delete_and_queue w firebase_available vector_deleted db
                namespace fileID) as Hsame.
  { intros name flag. unfold Deletion.delete_file.
    destruct (PyStr.eqb _ _); reflexivity. }
  split; [intros; rewrite !Hsame; reflexivity|].
  rewrite Hsame. unfold Deletion.delete_and_queue. split.
  - intros result Hd -> ->. rewrite Hd.
    destruct (delete_document_keys _ _ _ _ _ _ Hd)
      as (status & message & -> & -> & <- & <-).
    cbn [mbind result_bind try_except fst snd].
    repeat split; vm_compute; reflexivity.
  - intros e ->. split; [vm_compute; reflexivity | reflexivity].
Qed.

Lemma delete_file_ignores_just_firebase_witness :
  let r := Deletion.delete_file accepting_follow_ups true
             (Raise (Exn ValueError (py "kein Index")))
             (db_holding sample_namespace_data)
             (py "Skript.pdf") (py "kurs-a") (py "po2023") (py "true") in
  field r.1 "status" = PyStr (py "error") /\ r.2 = [].
Proof.
  destruct (delete_file_ignores_just_firebase accepting_follow_ups true
              (Raise (Exn ValueError (py "kein Index")))
              (db_holding sample_namespace_data)
              (py "Skript.pdf") (py "kurs-a") (py "po2023") (py "true"))
    as (_ & _ & H).
  apply (H (Exn ValueError (py "kein Index"))). reflexivity.
Defined.

(** X19: in [process_document_full], when extraction and processing give
    non-empty results and the vector index reports a status other than
    "success", the index's dict is returned as it is and no metadata is
    written. When the index reports "success", the processed PDF is a dict
    whose [chunks] have a length and which has a [summary], and Firebase is
    available, the metadata is written twice with the same chunk count and
    summary, first with the vector IDs by [index_document] and then
    without them, and the reply is a success with the number of chunks,
    whatever the metadata store answered. *)
Theorem pipeline_writes_metadata_twice (w : Pipeline.World) (filename : pystr)
    (pdf_data processed_pdf : PyVal) (indexing_result : pydict) :
  Pipeline.extract_pdf w = Ok pdf_data ->
  Py.truthy pdf_data = true ->
  Pipeline.process_pdf_content w pdf_data = Ok processed_pdf ->
  Py.truthy processed_pdf = true ->
  Pipeline.vector_index_document w processed_pdf = Ok (PyDict indexing_result) ->
  forall status, Py.lookup indexing_result (py "status") = Some status ->
  (PyRepr.atom_eq status Store.success = false ->
   forall firebase_available,
     Pipeline.process_document_full w firebase_available filename
     = (indexing_result, []))
  /\ (PyRepr.atom_eq status Store.success = true ->
      forall d chunks n summary,
        processed_pdf = PyDict d ->
        Py.lookup d (py "chunks") = Some chunks ->
        Overview.len chunks = Ok n ->
        Py.lookup d (py "summary") = Some summary ->
        let r := Pipeline.process_document_full w true filename in
        let second := Pipeline.AppendMetadata n summary None in
        r.2 = [Pipeline.AppendMetadata n summary
                 (Some (Py.get indexing_result (py "vector_ids") (PyList [])));
               second]
        /\ field r.1 "status" = PyStr (py "success")
        /\ field r.1 "chunks" = PyInt (Z.of_nat n)
        /\ field r.1 "firebase_result" = Pipeline.append_metadata w second).
Proof.
  intros He Hpd Hp Hpp Hi status Hs.
  assert (Pipeline.subscript (PyDict indexing_result) "status" = Ok status)
    as Hsub.
  { unfold Pipeline.subscript, Overview.item. rewrite Hs. reflexivity. }
  split.
  - intros Hne fa. unfold Pipeline.process_document_full.
    rewrite He, Hpd. cbn [negb]. rewrite Hp, Hpp. cbn [negb].
    unfold Pipeline.index_document. rewrite Hi, Hsub, Hne.
    cbn [andb fst snd]. rewrite Hsub, Hne. reflexivity.
  - intros Heq d chunks n summary -> Hc Hn Hsum. cbv zeta.
    assert (Pipeline.subscript (PyDict d) "chunks" = Ok chunks) as Hch.
    { unfold Pipeline.subscript, Overview.item. rewrite Hc. reflexivity. }
    assert (forall v, Pipeline.metadata_of (PyDict d) v
                      = Ok (Pipeline.AppendMetadata n summary v)) as Hmeta.
    { intros v. unfold Pipeline.metadata_of. rewrite Hch.
      cbn [mbind result_bind]. rewrite Hn. cbn [mbind result_bind].
      unfold Pipeline.subscript, Overview.item. rewrite Hsum. reflexivity. }
    unfold Pipeline.process_document_full.
    rewrite He, Hpd. cbn [negb]. rewrite Hp, Hpp. cbn [negb].
    unfold Pipeline.index_document. rewrite Hi, Hsub, Heq.
    cbn [andb Pipeline.get_method mbind result_bind]. rewrite !Hmeta.
    cbn [fst snd mbind result_bind]. rewrite Hsub, Heq. cbn [negb].
    rewrite Hch. cbn [mbind result_bind]. rewrite Hn. cbn [fst snd app].
    split; [reflexivity|]. repeat split; vm_compute; reflexivity.
Qed.

Lemma pipeline_writes_metadata_twice_witness :
  let w := pipeline_world (PyStr (py "text")) sample_processed_pdf
             (PyDict [(py "status", PyStr (py "success"));
                      (py "vector_ids", PyList [PyStr (py "po2023_chunk_0")])])
             (PyDict [(py "status", PyStr (py "error"))]) in
  let r := Pipeline.process_document_full w true (py "Skript.pdf") in
  r.2 = [Pipeline.AppendMetadata 2 (PyStr (py "Regelt die Pruefungen."))
           (Some (PyList [PyStr (py "po2023_chunk_0")]));
         Pipeline.AppendMetadata 2 (PyStr (py "Regelt die Pruefungen.")) None]
  /\ field r.1 "status" = PyStr (py "success")
  /\ field r.1 "chunks" = PyInt 2
  /\ field r.1 "firebase_result" = PyDict [(py "status", PyStr (py "error"))].
Proof.
  cbv zeta.
  apply (proj2 (pipeline_writes_metadata_twice
                  (pipeline_world (PyStr (py "text")) sample_processed_pdf
                     (PyDict [(py "status", PyStr (py "success"));
                              (py "vector_ids",
                               PyList [PyStr (py "po2023_chunk_0")])])
                     (PyDict [(py "status", PyStr (py "error"))]))
                  (py "Skript.pdf") (PyStr (py "text")) sample_processed_pdf
                  [(py "status", PyStr (py "success"));
                   (py "vector_ids", PyList [PyStr (py "po2023_chunk_0")])]
                  eq_refl eq_refl eq_refl eq_refl eq_refl
                  (PyStr (py "success")) eq_refl)
           eq_refl
           [(py "chunks", PyList [PyStr (py "a"); PyStr (py "b")]);
            (py "summary", PyStr (py "Regelt die Pruefungen."))]
           (PyList [PyStr (py "a"); PyStr (py "b")]) 2
           (PyStr (py "Regelt die Pruefungen."))
           eq_refl eq_refl eq_refl eq_refl).
Defined.

Lemma lookup_set_item (d : pydict) (k k' : pystr) (v : PyVal) :
  Py.lookup (Py.set_item d k v) k'
  = if bool_decide (k = k') then Some v else Py.lookup d k'.
Proof.
  induction d as [|[k0 v0] r IH]; cbn [Py.set_item Py.lookup].
  - reflexivity.
  - destruct (bool_decide (k0 = k)) eqn:E0; cbn [Py.lookup].
    + apply bool_decide_eq_true in E0. subst k0.
      destruct (bool_decide (k = k')); reflexivity.
    + destruct (bool_decide (k0 = k')) eqn:E1; [|exact IH].
      apply bool_decide_eq_true in E1. subst k0.
      destruct (bool_decide (k = k')) eqn:E2; [|reflexivity].
      apply bool_decide_eq_true in E2. subst k'.
      apply bool_decide_eq_false in E0. congruence.
Qed.

Lemma assign_all_dict (d items : pydict) :
  NoDup items.*1 ->
  exists payload,
    Status.assign_all (PyDict d) items = Ok (PyDict payload)
    /\ forall k, Py.lookup payload k
                 = match Py.lookup items k with
                   | Some v => Some v
                   | None => Py.lookup d k
                   end.
Proof.
  revert d. induction items as [|[key value] rest IH]; intros d Hnd.
  - exists d. split; reflexivity.
  - apply NoDup_cons in Hnd as [Hnot Hnd].
    destruct (IH (Py.set_item d key value) Hnd) as (payload & E & Hl).
    exists payload. split; [exact E|].
    intros k. rewrite Hl, lookup_set_item. cbn [Py.lookup].
    destruct (bool_decide (key = k)) eqn:Ek; [|reflexivity].
    apply bool_decide_eq_true in Ek. subst k.
    destruct (Py.lookup rest key) as [v|] eqn:Er; [|reflexivity].
    exfalso. apply Hnot. clear -Er.
    induction rest as [|[k0 v0] r IH]; [discriminate|].
    cbn [Py.lookup] in Er. cbn [fmap list_fmap fst].
    destruct (bool_decide (k0 = key)) eqn:E.
    + apply bool_decide_eq_true in E. subst k0. left.
    + right. apply IH, Er.
Qed.

(** X20: [update_document_status] touches the database only when the
    Firebase app is initialised. Then, for a stored record (or nothing
    stored) and status data with pairwise different keys, it makes exactly
    one [update] call, at [files/<namespace>/<fileID>], whose payload maps
    every key of the status data to its new value and every other key of
    the stored record to its stored value; it reports success exactly when
    that call does not raise. *)
Theorem status_update_merges_record (apps : bool) (db : Store.Db)
    (wr : Status.Writer) (namespace fileID : pystr) (status_data : pydict) :
  let path := py "files/" ++ namespace ++ py "/" ++ fileID in
  let r := Status.update_document_status apps db wr namespace fileID
             status_data in
  (apps = false -> r.2 = [] /\ field r.1 "status" = PyStr (py "error"))
  /\ (apps = true ->
      forall data record,
        Store.db_get db path = Ok data ->
        stored_record data = Some record ->
        NoDup status_data.*1 ->
        exists payload,
          r.2 = [Status.Updated path (PyDict payload)]
          /\ (forall k v, Py.lookup status_data k = Some v ->
                Py.lookup payload k = Some v)
          /\ (forall k, Py.lookup status_data k = None ->
                Py.lookup payload k = Py.lookup record k)
          /\ (field r.1 "status" = PyStr (py "success")
              <-> Status.db_update wr path (PyDict payload) = Ok tt)).
Proof.
  cbv zeta. unfold Status.update_document_status. split.
  - intros ->. split; [reflexivity | vm_compute; reflexivity].
  - intros -> data record Hget Hrec Hnd. cbn [negb]. rewrite Hget.
    cbn [mbind result_bind].
    assert ((if Py.truthy data then data else PyDict []) = PyDict record) as ->.
    { unfold stored_record in Hrec.
      destruct data as [| b | n | f | s | l | d];
        try (destruct (Py.truthy _); [discriminate | injection Hrec as <-; reflexivity]).
      injection Hrec as <-. destruct d; reflexivity. }
    destruct (assign_all_dict record status_data Hnd) as (payload & -> & Hl).
    exists payload. split; [reflexivity|].
    split; [intros k v Hk; rewrite Hl, Hk; reflexivity|].
    split; [intros k Hk; rewrite Hl, Hk; reflexivity|].
    cbn [fst].
    destruct (Status.db_update wr _ (PyDict payload)) as [[]|e].
    + split; [reflexivity | intros _; vm_compute; reflexivity].
    + split; [intros H; vm_compute in H; discriminate H | discriminate].
Qed.

Lemma status_update_merges_record_witness :
  let r := Status.update_document_status true
             (db_holding (PyDict [(py "status", PyStr (py "indexed"));
                                  (py "summary", PyStr (py "alt"))]))
             updatable (py "kurs-a") (py "po2023")
             [(py "status", PyStr (py "processing")); (py "progress", PyInt 10)] in
  exists payload,
    r.2 = [Status.Updated (py "files/" ++ py "kurs-a" ++ py "/" ++ py "po2023")
             (PyDict payload)]
    /\ Py.lookup payload (py "status") = Some (PyStr (py "processing"))
    /\ Py.lookup payload (py "summary") = Some (PyStr (py "alt")).
Proof.
  cbv zeta.
  destruct (proj2 (status_update_merges_record true
                     (db_holding (PyDict [(py "status", PyStr (py "indexed"));
                                          (py "summary", PyStr (py "alt"))]))
                     updatable (py "kurs-a") (py "po2023")
                     [(py "status", PyStr (py "processing"));
                      (py "progress", PyInt 10)])
              eq_refl
              (PyDict [(py "status", PyStr (py "indexed"));
                       (py "summary", PyStr (py "alt"))])
              [(py "status", PyStr (py "indexed"));
               (py "summary", PyStr (py "alt"))]
              eq_refl eq_refl)
    as (payload & Hr & Hnew & Hold & _).
  - vm_compute. repeat constructor; intros H; inversion H; subst;
      try discriminate; match goal with H' : _ ∈ [] |- _ => inversion H' end.
  - exists payload. split; [exact Hr|]. split.
    + apply Hnew. vm_compute. reflexivity.
    + rewrite Hold; vm_compute; reflexivity.
Defined.
